(** * dex2nc: reading gridded sea ice ASCII files (.dex) into a labelled grid

    A shallow embedding of [dex2nc.py].  The conversion routine [dex2ds]
    reads whitespace separated rows of twelve fields
    ([lon lat CT CA SA FA CB SB FB CC SC FC]) into a data frame, rewrites
    a few string columns, derives a flag column, coerces the egg code
    columns to numbers, reshapes the rows into a longitude by latitude
    grid and adds a time coordinate taken from the file name.

    Conventions of the embedding:
    - a Python [str] is a [string]; a cell of a data frame is a [value]:
      a string, a number or the float [nan];
    - numbers are exact rationals (the decimal a literal denotes), kept in
      reduced form; binary rounding of floats is not modelled;
    - exceptions are the [Err] branch of [result]; nothing in the program
      catches them, so an [Err] is the abort of the whole conversion;
    - the library calls ([read_csv], [to_numeric], [to_xarray], [where],
      [expand_dims], [re.findall], [os.path]) are modelled on the inputs
      the program gives them; descriptive attributes are left out. *)

From Stdlib Require Import List String Ascii Bool Arith ZArith QArith Lia.
From Stdlib Require Import Sorted.
Import ListNotations.

Local Open Scope string_scope.
Local Open Scope list_scope.

(** ** Exceptions and the error monad *)

Inductive exn : Type :=
| ValueError
| KeyError
| IndexError
| EmptyDataError
| FileNotFoundError.

Inductive result (A : Type) : Type :=
| OK (a : A)
| Err (e : exn).

Arguments OK {A} a.
Arguments Err {A} e.

Definition bind {A B : Type} (m : result A) (k : A -> result B) : result B :=
  match m with
  | OK a => k a
  | Err e => Err e
  end.

Notation "x <- m ;; k" := (bind m (fun x => k))
  (at level 61, m at next level, right associativity).

Fixpoint mapM {A B : Type} (f : A -> result B) (l : list A) : result (list B) :=
  match l with
  | [] => OK []
  | a :: l' => b <- f a ;; bs <- mapM f l' ;; OK (b :: bs)
  end.

(** ** Cell values *)

Inductive value : Type :=
| Str (s : string)
| Num (q : Q)
| NaN.

Definition isnull (v : value) : bool :=
  match v with
  | NaN => true
  | _ => false
  end.

(** ** Python string primitives *)

Module PyStr.

Fixpoint startswith (p s : string) : bool :=
  match p, s with
  | EmptyString, _ => true
  | String a p', String b s' => Ascii.eqb a b && startswith p' s'
  | String _ _, EmptyString => false
  end.

(** [contains p s] is Python's [p in s]. *)
Fixpoint contains (p s : string) : bool :=
  startswith p s ||
  match s with
  | EmptyString => false
  | String _ s' => contains p s'
  end.

(** The left to right scan of [str.replace] for a non empty pattern:
    [skip] counts the characters of a match that are still to be dropped. *)
Fixpoint replace_from (old new : string) (skip : nat) (s : string) : string :=
  match s with
  | EmptyString => EmptyString
  | String c s' =>
      match skip with
      | S k => replace_from old new k s'
      | O =>
          if startswith old s
          then new ++ replace_from old new (String.length old - 1) s'
          else String c (replace_from old new 0 s')
      end
  end.

(** With an empty pattern Python puts [new] around every character. *)
Fixpoint intersperse (new s : string) : string :=
  match s with
  | EmptyString => new
  | String c s' => new ++ String c (intersperse new s')
  end.

(** [replace old new s] is [s.replace(old, new)]. *)
Definition replace (old new s : string) : string :=
  match old with
  | EmptyString => intersperse new s
  | String _ _ => replace_from old new 0 s
  end.

Fixpoint drop (n : nat) (s : string) : string :=
  match n, s with
  | O, _ => s
  | S _, EmptyString => EmptyString
  | S k, String _ s' => drop k s'
  end.

Fixpoint take (n : nat) (s : string) : string :=
  match n, s with
  | O, _ => EmptyString
  | S _, EmptyString => EmptyString
  | S k, String c s' => String c (take k s')
  end.

(** [slice i j s] is [s[i:j]] for [0 <= i <= j]. *)
Definition slice (i j : nat) (s : string) : string := take (j - i) (drop i s).

Definition is_digit (c : ascii) : bool :=
  let n := nat_of_ascii c in (48 <=? n)%nat && (n <=? 57)%nat.

Definition digit_val (c : ascii) : Z := Z.of_nat (nat_of_ascii c - 48).

Fixpoint all_digits (s : string) : bool :=
  match s with
  | EmptyString => true
  | String c s' => is_digit c && all_digits s'
  end.

(** Value of a digit string read in base ten, most significant digit first. *)
Fixpoint digits_val (acc : Z) (s : string) : Z :=
  match s with
  | EmptyString => acc
  | String c s' => digits_val (10 * acc + digit_val c) s'
  end.

End PyStr.

(** ** The helper functions of [dex2ds] *)

(** simplify concentrations: 9+ -> 9.9 *)
Definition _strip_plus (x : value) : value :=
  match x with
  | Str s => Str (PyStr.replace "9+" "9.9" s)
  | _ => x
  end.

(** simplify stage of development of ice: 1. 4. 7. 8. 9. -> 10, 40, 70, ... *)
Definition _strip_dots (x : value) : value :=
  match x with
  | Str s => Str (PyStr.replace "." "0" s)
  | _ => x
  end.

(** The dictionary of [_num_flags], in the order it is written. *)
Definition conv : list (string * Z) :=
  [ ("IF", 1%Z); ("missing", 2%Z); ("Fast-ice", 3%Z);
    ("1", 0%Z); ("2", 0%Z); ("3", 0%Z); ("4", 0%Z); ("5", 0%Z);
    ("6", 0%Z); ("7", 0%Z); ("8", 0%Z); ("9", 0%Z);
    ("9+", 0%Z); ("9.9", 0%Z); ("10", 0%Z) ].

Fixpoint dict_get {V : Type} (d : list (string * V)) (k : string) : option V :=
  match d with
  | [] => None
  | (k', v) :: d' => if String.eqb k' k then Some v else dict_get d' k
  end.

(** [conv[x]]: a key that is not in the dictionary, a string or not,
    raises [KeyError]. *)
Definition _num_flags (x : value) : result value :=
  match x with
  | Str s =>
      match dict_get conv s with
      | Some f => OK (Num (inject_Z f))
      | None => Err KeyError
      end
  | _ => Err KeyError
  end.

(** ** Numeric literals

    The float parser of pandas on the literals an egg code file holds:
    an optional sign, then digits with at most one dot and at least one
    digit.  Exponents and the spellings of infinity are left out. *)

Definition split_sign (s : string) : bool * string :=
  match s with
  | String "-" r => (true, r)
  | String "+" r => (false, r)
  | _ => (false, s)
  end.

Fixpoint span_digits (s : string) : string * string :=
  match s with
  | EmptyString => (EmptyString, EmptyString)
  | String c s' =>
      if PyStr.is_digit c
      then let (d, r) := span_digits s' in (String c d, r)
      else (EmptyString, s)
  end.

Definition is_empty (s : string) : bool :=
  match s with
  | EmptyString => true
  | _ => false
  end.

Definition signed (neg : bool) (z : Z) : Z := if neg then (- z)%Z else z.

Definition str_to_float (s : string) : option Q :=
  let (neg, body) := split_sign s in
  let (ip, rest) := span_digits body in
  match rest with
  | EmptyString =>
      if is_empty ip then None
      else Some (inject_Z (signed neg (PyStr.digits_val 0 ip)))
  | String "." fp =>
      if PyStr.all_digits fp && negb (is_empty ip && is_empty fp)
      then Some (Qred (signed neg (PyStr.digits_val 0 (ip ++ fp))
                       # Z.to_pos (10 ^ Z.of_nat (String.length fp))))
      else None
  | _ => None
  end.

(** [pd.to_numeric(..., errors='coerce')] on one cell. *)
Definition to_numeric_coerce (v : value) : value :=
  match v with
  | Str s =>
      match str_to_float s with
      | Some q => Num q
      | None => NaN
      end
  | Num q => Num q
  | NaN => NaN
  end.

(** ** The rows of a .dex file and the data frame *)

Record dex_row : Type := mk_row {
  lon : Q; lat : Q;
  CT : string; CA : string; SA : string; FA : string;
  CB : string; SB : string; FB : string;
  CC : string; SC : string; FC : string
}.

Inductive dtype : Type := float | str.

Definition col_names : list string :=
  ["lon"; "lat"; "CT"; "CA"; "SA"; "FA"; "CB"; "SB"; "FB"; "CC"; "SC"; "FC"].

Definition col_types : list dtype :=
  [float; float; str; str; str; str; str; str; str; float; float; float].

Definition types : list (string * dtype) := combine col_names col_types.

(** The text of the field of a row under a column name. *)
Definition field (n : string) (r : dex_row) : string :=
  if String.eqb n "CT" then CT r else
  if String.eqb n "CA" then CA r else
  if String.eqb n "SA" then SA r else
  if String.eqb n "FA" then FA r else
  if String.eqb n "CB" then CB r else
  if String.eqb n "SB" then SB r else
  if String.eqb n "FB" then FB r else
  if String.eqb n "CC" then CC r else
  if String.eqb n "SC" then SC r else
  if String.eqb n "FC" then FC r else "".

(** The strings [read_csv] takes for a missing value: [na_values='X']
    on top of the defaults of pandas. *)
Definition na_values : list string :=
  ["X"; ""; "#N/A"; "#N/A N/A"; "#NA"; "-1.#IND"; "-1.#QNAN"; "-NaN";
   "-nan"; "1.#IND"; "1.#QNAN"; "<NA>"; "N/A"; "NA"; "NULL"; "NaN";
   "None"; "n/a"; "nan"; "null"].

Definition is_na (s : string) : bool := existsb (String.eqb s) na_values.

(** One cell under its declared type: a missing value, the string as it
    is, or the float it denotes; a float column refuses anything else. *)
Definition read_cell (t : option dtype) (s : string) : result value :=
  if is_na s then OK NaN
  else match t with
       | Some float =>
           match str_to_float s with
           | Some q => OK (Num q)
           | None => Err ValueError
           end
       | _ => OK (Str s)
       end.

Record DataFrame : Type := mk_df {
  index : list (Q * Q);
  columns : list (string * list value)
}.

Definition read_column (rows : list dex_row) (n : string)
  : result (string * list value) :=
  vs <- mapM (fun r => read_cell (dict_get types n) (field n r)) rows ;;
  OK (n, vs).

(** [pd.read_csv] with [names=col_names], [index_col=col_names[:2]],
    [dtype=types] and [na_values='X'] on the rows of the file. *)
Definition read_csv (rows : list dex_row) : result DataFrame :=
  match rows with
  | [] => Err EmptyDataError
  | _ =>
      cols <- mapM (read_column rows) (skipn 2 col_names) ;;
      OK {| index := map (fun r => (lon r, lat r)) rows; columns := cols |}
  end.

(** [df[c]] *)
Definition getitem (df : DataFrame) (c : string) : result (list value) :=
  match dict_get (columns df) c with
  | Some vs => OK vs
  | None => Err KeyError
  end.

Fixpoint dict_set {V : Type} (d : list (string * V)) (k : string) (v : V)
  : list (string * V) :=
  match d with
  | [] => [(k, v)]
  | (k', v') :: d' =>
      if String.eqb k' k then (k', v) :: d' else (k', v') :: dict_set d' k v
  end.

(** [df[c] = vs] *)
Definition setitem (df : DataFrame) (c : string) (vs : list value) : DataFrame :=
  {| index := index df; columns := dict_set (columns df) c vs |}.

(** [df[c] = df[c].apply(f)] *)
Definition apply_column (f : value -> value) (df : DataFrame) (c : string)
  : result DataFrame :=
  vs <- getitem df c ;; OK (setitem df c (map f vs)).

(** [for c in cs: body], threading the frame. *)
Fixpoint for_each {A S : Type} (body : S -> A -> result S) (cs : list A) (s : S)
  : result S :=
  match cs with
  | [] => OK s
  | c :: cs' => s' <- body s c ;; for_each body cs' s'
  end.

(** ** From the frame to the grid: [to_xarray], [where], [expand_dims] *)

Definition coord_eqb (a b : Q * Q) : bool :=
  Qeq_bool (fst a) (fst b) && Qeq_bool (snd a) (snd b).

(** The levels of an index are its distinct values in increasing order. *)
Fixpoint insert_level (x : Q) (l : list Q) : list Q :=
  match l with
  | [] => [x]
  | y :: l' =>
      match Qcompare x y with
      | Lt => x :: l
      | Eq => l
      | Gt => y :: insert_level x l'
      end
  end.

Definition levels (xs : list Q) : list Q := fold_right insert_level [] xs.

Fixpoint is_unique (ix : list (Q * Q)) : bool :=
  match ix with
  | [] => true
  | a :: ix' => negb (existsb (coord_eqb a) ix') && is_unique ix'
  end.

(** The entry of a column at the row whose index is [k]. *)
Fixpoint locate {V : Type} (k : Q * Q) (ix : list (Q * Q)) (vs : list V)
  : option V :=
  match ix, vs with
  | a :: ix', v :: vs' => if coord_eqb a k then Some v else locate k ix' vs'
  | _, _ => None
  end.

Definition array2 : Type := list (list value).

(** A column laid out on the grid; a cell without a row is [nan]. *)
Definition grid_of (lons lats : list Q) (ix : list (Q * Q)) (vs : list value)
  : array2 :=
  map (fun x =>
         map (fun y =>
                match locate (x, y) ix vs with
                | Some v => v
                | None => NaN
                end) lats) lons.

(** The two dimensional dataset [to_xarray] returns. *)
Record Grid : Type := mk_grid {
  g_lon : list Q;
  g_lat : list Q;
  g_vars : list (string * array2)
}.

(** [df.to_xarray()]: a frame whose index has a repeated entry is refused. *)
Definition to_xarray (df : DataFrame) : result Grid :=
  if is_unique (index df) then
    let lons := levels (map fst (index df)) in
    let lats := levels (map snd (index df)) in
    OK {| g_lon := lons; g_lat := lats;
          g_vars := map (fun '(n, vs) => (n, grid_of lons lats (index df) vs))
                        (columns df) |}
  else Err ValueError.

(** [a.where(~a.isnull(), other)] *)
Definition where_notnull (a : array2) (other : value) : array2 :=
  map (map (fun v => if negb (isnull v) then v else other)) a.

Definition grid_getitem (g : Grid) (n : string) : result array2 :=
  match dict_get (g_vars g) n with
  | Some a => OK a
  | None => Err KeyError
  end.

Definition grid_setitem (g : Grid) (n : string) (a : array2) : Grid :=
  {| g_lon := g_lon g; g_lat := g_lat g; g_vars := dict_set (g_vars g) n a |}.

Record Timestamp : Type := mk_date { year : Z; month : Z; day : Z }.

(** The dataset [dex2ds] returns: every variable has the dimensions
    (time, lon, lat). *)
Record Dataset : Type := mk_ds {
  ds_time : list Timestamp;
  ds_lon : list Q;
  ds_lat : list Q;
  data_vars : list (string * list array2)
}.

(** [dataset.expand_dims({'time': [date]})] *)
Definition expand_dims (g : Grid) (date : Timestamp) : Dataset :=
  {| ds_time := [date]; ds_lon := g_lon g; ds_lat := g_lat g;
     data_vars := map (fun '(n, a) => (n, [a])) (g_vars g) |}.

(** ** The date in the file name *)

(** [re.findall('[0-9]{n}', s)]: the matches from left to right, without
    overlap; [skip] counts the characters of a match still to be passed. *)
Definition matches_here (n : nat) (s : string) : bool :=
  (n <=? String.length s)%nat && PyStr.all_digits (PyStr.take n s).

Fixpoint findall_from (n skip : nat) (s : string) : list string :=
  match s with
  | EmptyString => []
  | String _ s' =>
      match skip with
      | S k => findall_from n k s'
      | O =>
          if matches_here n s
          then PyStr.take n s :: findall_from n (n - 1) s'
          else findall_from n 0 s'
      end
  end.

Definition re_findall_digits (n : nat) (s : string) : list string :=
  findall_from n 0 s.

(** [l[0]] *)
Definition first {A : Type} (l : list A) : result A :=
  match l with
  | a :: _ => OK a
  | [] => Err IndexError
  end.

Definition is_leap (y : Z) : bool :=
  ((y mod 4 =? 0) && negb (y mod 100 =? 0) || (y mod 400 =? 0))%Z.

Definition days_in_month (y m : Z) : Z :=
  (if m =? 2 then (if is_leap y then 29 else 28)
   else if (m =? 4) || (m =? 6) || (m =? 9) || (m =? 11) then 30
   else 31)%Z.

(** [pd.Timestamp(s)] on a string written [YYYY-MM-DD]; what is not a day
    of the calendar raises [ValueError]. *)
Definition pd_Timestamp (s : string) : result Timestamp :=
  let ys := PyStr.slice 0 4 s in
  let ms := PyStr.slice 5 7 s in
  let ds := PyStr.slice 8 10 s in
  if (String.length s =? 10)%nat
     && String.eqb (PyStr.slice 4 5 s) "-" && String.eqb (PyStr.slice 7 8 s) "-"
     && PyStr.all_digits ys && PyStr.all_digits ms && PyStr.all_digits ds
  then
    let y := PyStr.digits_val 0 ys in
    let m := PyStr.digits_val 0 ms in
    let d := PyStr.digits_val 0 ds in
    if ((1 <=? y) && (1 <=? m) && (m <=? 12) && (1 <=? d)
        && (d <=? days_in_month y m))%Z
    then OK {| year := y; month := m; day := d |}
    else Err ValueError
  else Err ValueError.

(** [f'{date_str[:4]}-{date_str[4:6]}-{date_str[6:]}'] *)
Definition iso_of (date_str : string) : string :=
  PyStr.take 4 date_str ++ "-" ++ PyStr.slice 4 6 date_str ++ "-"
  ++ PyStr.drop 6 date_str.

(** ** The conversion *)

Definition dex2ds (file_ : string) (rows : list dex_row) : result Dataset :=
  (* Read dex: into dataframe *)
  df <- read_csv rows ;;
  (* Make concentrations compatible with numeric formats *)
  df <- for_each (apply_column _strip_plus) ["CT"; "CA"] df ;;
  (* Make stages compatible with numeric formats *)
  df <- for_each (apply_column _strip_dots) ["SA"; "SB"; "SC"] df ;;
  (* Convert total concentration indications to flags *)
  ct <- getitem df "CT" ;;
  flags <- mapM _num_flags ct ;;
  (* Convert to numeric type *)
  df <- for_each (apply_column to_numeric_coerce) (skipn 2 col_names)
                 (setitem df "flag" flags) ;;
  (* Convert to xarray *)
  dataset <- to_xarray df ;;
  (* Add land flags *)
  flag <- grid_getitem dataset "flag" ;;
  let dataset := grid_setitem dataset "flag" (where_notnull flag (Num 4)) in
  (* Add time coordinate *)
  date_str <- first (re_findall_digits 8 file_) ;;
  date <- pd_Timestamp (iso_of date_str) ;;
  OK (expand_dims dataset date).

(** ** The command line driver *)

Module os_path.

Fixpoint rfind_from (c : ascii) (s : string) (i last : Z) : Z :=
  match s with
  | EmptyString => last
  | String a s' => rfind_from c s' (i + 1)%Z (if Ascii.eqb a c then i else last)
  end.

(** [s.rfind(c)], with -1 when [c] does not occur. *)
Definition rfind (c : ascii) (s : string) : Z := rfind_from c s 0%Z (-1)%Z.

Definition basename (p : string) : string :=
  PyStr.drop (Z.to_nat (rfind "/" p + 1)) p.

Fixpoint all_dots (s : string) : bool :=
  match s with
  | EmptyString => true
  | String c s' => Ascii.eqb c "." && all_dots s'
  end.

(** The extension starts at the last dot after the last separator,
    unless only dots come before it in the last component. *)
Definition splitext (p : string) : string * string :=
  let sepIndex := rfind "/" p in
  let dotIndex := rfind "." p in
  if (dotIndex >? sepIndex)%Z
     && negb (all_dots (PyStr.slice (Z.to_nat (sepIndex + 1)) (Z.to_nat dotIndex) p))
  then (PyStr.take (Z.to_nat dotIndex) p, PyStr.drop (Z.to_nat dotIndex) p)
  else (p, "").

End os_path.

Record Args : Type := mk_args {
  filename : list string;
  outname : option string
}.

Record encoding : Type := mk_enc { zlib : bool; complevel : Z }.

(** One call of [to_netcdf]. *)
Record nc_write : Type := mk_write {
  nc_path : string;
  nc_data : Dataset;
  nc_encoding : list (string * encoding)
}.

(** The name of the output for one input of the loop. *)
Definition outname_of (args : Args) (file_ : string) : string :=
  match outname args with
  | Some o =>
      if (1 <? List.length (filename args))%nat
      then fst (os_path.splitext (os_path.basename file_)) ++ ".nc"
      else o
  | None => fst (os_path.splitext (os_path.basename file_)) ++ ".nc"
  end.

Definition open_dex (fs : string -> option (list dex_row)) (file_ : string)
  : result (list dex_row) :=
  match fs file_ with
  | Some rows => OK rows
  | None => Err FileNotFoundError
  end.

(** The loop of the driver over the files still to convert: the writes
    done so far, and the exception that stopped it if one did. *)
Fixpoint main_loop (args : Args) (fs : string -> option (list dex_row))
  (todo : list string) (done : list nc_write) : list nc_write * option exn :=
  match todo with
  | [] => (done, None)
  | file_ :: todo' =>
      match (rows <- open_dex fs file_ ;; dex2ds file_ rows) with
      | OK ds =>
          let enc := map (fun v => (fst v, {| zlib := true; complevel := 5 |}))
                         (data_vars ds) in
          main_loop args fs todo'
            (done ++ [{| nc_path := outname_of args file_; nc_data := ds;
                         nc_encoding := enc |}])
      | Err e => (done, Some e)
      end
  end.

Definition main (args : Args) (fs : string -> option (list dex_row))
  : list nc_write * option exn :=
  main_loop args fs (filename args) [].

(** ** Auxiliary definitions for the statements *)

(** The ten egg code columns, CT through FC. *)
Definition egg_columns : list string := skipn 2 col_names.

(** The substitution the two loops of [dex2ds] apply to a column. *)
Definition substitution (n : string) : value -> value :=
  if existsb (String.eqb n) ["CT"; "CA"] then _strip_plus
  else if existsb (String.eqb n) ["SA"; "SB"; "SC"] then _strip_dots
  else fun v => v.

(** Every egg code column is a column of the frame. *)
Definition all_present (df : DataFrame) : Prop :=
  forall m, In m egg_columns -> exists ws, getitem df m = OK ws.

Fixpoint nodupb (l : list string) : bool :=
  match l with
  | [] => true
  | x :: l' => negb (existsb (String.eqb x) l') && nodupb l'
  end.

(** [a[i, j]] *)
Definition cell (a : array2) (i j : nat) : option value :=
  match nth_error a i with
  | Some line => nth_error line j
  | None => None
  end.

(** [ds[n].isel(time=0, lon=i, lat=j)] *)
Definition isel (ds : Dataset) (n : string) (i j : nat) : option value :=
  match dict_get (data_vars ds) n with
  | Some (a :: _) => cell a i j
  | _ => None
  end.

Fixpoint index_of (x : Q) (l : list Q) : option nat :=
  match l with
  | [] => None
  | y :: l' => if Qeq_bool y x then Some 0%nat else option_map S (index_of x l')
  end.

(** [ds[n].sel(lon=x, lat=y)] at the single time of the dataset. *)
Definition sel (ds : Dataset) (n : string) (x y : Q) : option value :=
  match index_of x (ds_lon ds), index_of y (ds_lat ds) with
  | Some i, Some j => isel ds n i j
  | _, _ => None
  end.

(** Some row of the file lies on the grid point [(x, y)]. *)
Definition on_row (rows : list dex_row) (x y : Q) : Prop :=
  exists r, In r rows /\ lon r == x /\ lat r == y.

(** ** Sample inputs *)

Definition sample_file : string := "GEC_H_20190325.dex".

Definition row_plus : dex_row :=
  mk_row (-60) 48 "9+" "9+" "6" "5" "X" "X" "X" "X" "X" "X".

Definition row_dot : dex_row :=
  mk_row (-59.5) 48 "8" "6" "4." "5" "2" "1." "4" "1" "4." "3".

Definition row_missing : dex_row :=
  mk_row (-59) 48 "missing" "X" "X" "X" "X" "X" "X" "X" "X" "X".

Definition row_ice_free : dex_row :=
  mk_row (-61) 49 "IF" "X" "X" "X" "X" "X" "X" "X" "X" "X".

Definition empty_dataset : Dataset :=
  {| ds_time := []; ds_lon := []; ds_lat := []; data_vars := [] |}.

Definition result_or {A : Type} (default : A) (m : result A) : A :=
  match m with
  | OK a => a
  | Err _ => default
  end.

(** Two rows on the parallel 48 and one on the parallel 49: a grid of
    three meridians by two parallels, half of it without a row. *)
Definition sparse_rows : list dex_row := [row_missing; row_dot; row_ice_free].

Definition sparse_ds : Dataset :=
  Eval vm_compute in result_or empty_dataset (dex2ds sample_file sparse_rows).

(** The codes of [conv] that stand for ice, flag 0. *)
Definition ice_codes : list string :=
  ["1"; "2"; "3"; "4"; "5"; "6"; "7"; "8"; "9"; "9+"; "9.9"; "10"].

(** Three rows on the parallel 48: one with the plus code, one with dot
    codes, one without information. *)
Definition three_rows : list dex_row := [row_plus; row_dot; row_missing].

Definition three_ds : Dataset :=
  Eval vm_compute in result_or empty_dataset (dex2ds sample_file three_rows).

(** The file name without directories and extension. *)
Definition stem (file_ : string) : string :=
  fst (os_path.splitext (os_path.basename file_)).

(** What one turn of the loop writes for an input. *)
Definition written_for (args : Args) (fs : string -> option (list dex_row))
           (file_ : string) (w : nc_write) : Prop :=
  nc_path w = outname_of args file_
  /\ (exists rows, fs file_ = Some rows /\ dex2ds file_ rows = OK (nc_data w))
  /\ nc_encoding w
     = map (fun v => (fst v, {| zlib := true; complevel := 5 |}))
           (data_vars (nc_data w)).

(** A directory with the sample file and a second file. *)
Definition sample_fs (file_ : string) : option (list dex_row) :=
  if String.eqb file_ sample_file then Some three_rows
  else if String.eqb file_ "ice/GEC_H_20190401.dex" then Some sparse_rows
  else None.

(** A row the conversion accepts: a code of the dictionary in CT, and in
    the float columns a missing value or a number. *)
Definition row_accepted (r : dex_row) : Prop :=
  In (CT r) (map fst conv)
  /\ forall n, In n ["CC"; "SC"; "FC"] ->
               is_na (field n r) = true \/ str_to_float (field n r) <> None.

(** Three rows on one line of the grid: one parallel or one meridian. *)
Definition on_one_line (r1 r2 r3 : dex_row) : Prop :=
  (lat r1 == lat r2 /\ lat r2 == lat r3) \/ (lon r1 == lon r2 /\ lon r2 == lon r3).

(** The three sample rows moved onto a diagonal. *)
Definition diagonal_rows : list dex_row :=
  [ mk_row (-60) 48 "9+" "9+" "6" "5" "X" "X" "X" "X" "X" "X";
    mk_row (-59.5) 48.5 "8" "6" "4." "5" "2" "1." "4" "1" "4." "3";
    mk_row (-59) 49 "missing" "X" "X" "X" "X" "X" "X" "X" "X" "X" ].

Definition diagonal_ds : Dataset :=
  Eval vm_compute in result_or empty_dataset (dex2ds sample_file diagonal_rows).

(** ** Metadata

    The second half of [dex2ds]: the attributes of the variables and of
    the dataset.  The attributes of a variable are a dictionary from
    names to strings or to values of the data; the clock is an input. *)

Inductive attr : Type :=
| AStr (s : string)
| AVal (v : value).

Definition attrs : Type := list (string * attr).

(** The dataset [dex2ds] returns, with the attributes of its variables
    and coordinates and its own. *)
Record Annotated : Type := mk_annotated {
  an_data : Dataset;
  an_vars : list (string * attrs);
  an_global : attrs
}.

(** Every coordinate and variable of the dataset, without attributes. *)
Definition init_attrs (ds : Dataset) : list (string * attrs) :=
  map (fun n => (n, [])) (["time"; "lon"; "lat"] ++ map fst (data_vars ds)).

(** [dataset[v].attrs[k] = a]: a name that is not in the dataset raises
    [KeyError]. *)
Definition set_attr (st : list (string * attrs)) (x : string * string * attr)
  : result (list (string * attrs)) :=
  let '(v, k, a) := x in
  match dict_get st v with
  | Some at_ => OK (dict_set st v (dict_set at_ k a))
  | None => Err KeyError
  end.

(** [dataset[v].attrs[k]] *)
Definition get_attr (st : list (string * attrs)) (v k : string) : option attr :=
  match dict_get st v with
  | Some at_ => dict_get at_ k
  | None => None
  end.

Definition newline : string := String "010" "".

Definition coordinate_meta : list (string * string * attr) :=
  [ ("lon", "standard_name", AStr "longitude");
    ("lon", "long_name", AStr "Longitude");
    ("lon", "units", AStr "degrees west");
    ("lon", "axis", AStr "X");
    ("lat", "standard_name", AStr "latitude");
    ("lat", "long_name", AStr "Latitude");
    ("lat", "units", AStr "degrees north");
    ("lat", "axis", AStr "Y");
    ("time", "standard_name", AStr "time");
    ("time", "long_name", AStr "Time");
    ("time", "axis", AStr "T") ].

Definition concentration_meta : list (string * string * attr) :=
  [ ("CT", "long_name", AStr "Sea ice total concentration");
    ("CT", "units", AStr "1/10 m^2/m^2");
    ("CA", "long_name", AStr "Sea ice first class concentration");
    ("CA", "units", AStr "1/10 m^2/m^2");
    ("CB", "long_name", AStr "Sea ice second class concentration");
    ("CB", "units", AStr "1/10 m^2/m^2");
    ("CC", "long_name", AStr "Sea ice third class concentration");
    ("CC", "units", AStr "1/10 m^2/m^2") ].

Definition stage_values : string := "1 2 3 4 5 6 7 8 9 10 40".

Definition _ice_thick : string :=
  "<10 <10 10-30 10-15 15-30 >30 30-70 30-50 50-70 70-120 >120".

Definition stage_ice_type : string :=
  "new nilas young grey grey-white first-year thin-first-year" ++ newline
  ++ "                   first-stage-thin-first-year second-stage-thin-first-year"
  ++ newline
  ++ "                   medium-first-year-ice thick-first-year-ice".

Definition stage_meta : list (string * string * attr) :=
  [ ("SA", "long_name", AStr "Sea ice first class stage of developpment");
    ("SB", "long_name", AStr "Sea ice second class stage of developpment");
    ("SC", "long_name", AStr "Sea ice third class stage of developpment") ]
  ++ flat_map (fun l : string =>
                 [ (("S" ++ l)%string, "units", AStr "code");
                          (("S" ++ l)%string, "values", AStr stage_values);
                          (("S" ++ l)%string, "ice_type", AStr stage_ice_type);
                          (("S" ++ l)%string, "ice_thick_cm", AStr _ice_thick) ])
              ["A"; "B"; "C"]%string.

Definition form_values : string := "1 2 3 4 5 6 7 8 9".

Definition _ice_width : string :=
  "- <2 2-20 20-100 100-500 500-2000 2000-10000 >10000 - -".

Definition form_ice_type : string :=
  "pancake small-cake cake small-floe medium-floe big-floe" ++ newline
  ++ "                   vast-floe giant-floe fast-ice iceberg".

(** The loop over the form variables gives [_ice_thick] to
    [ice_width_m], as the source does. *)
Definition form_meta : list (string * string * attr) :=
  [ ("FA", "long_name", AStr "Sea ice first class form");
    ("FB", "long_name", AStr "Sea ice second class form");
    ("FC", "long_name", AStr "Sea ice third class form") ]
  ++ flat_map (fun l : string =>
                 [ (("F" ++ l)%string, "units", AStr "code");
                          (("F" ++ l)%string, "values", AStr form_values);
                          (("F" ++ l)%string, "ice_type", AStr form_ice_type);
                          (("F" ++ l)%string, "ice_width_m", AStr _ice_thick) ])
              ["A"; "B"; "C"]%string.

Definition flag_meta : list (string * string * attr) :=
  [ ("flag", "long_name", AStr "data type");
    ("flag", "values", AStr "0 1 2 3 4");
    ("flag", "meanings", AStr "ice water missing fast-ice land") ].

Definition global_meta : attrs :=
  [ ("Conventions", AStr "CF-1.8");
    ("title", AStr "Gridded Canadian Ice Service egg code data");
    ("institution", AStr "Maurice Lamontagne Institute");
    ("source", AStr "CIS, processed with https://github.com/jeanlucshaw/shp2dex");
    ("description", AStr "Ice charts gridded using a point-in-polygon routine.");
    ("history", AStr "");
    ("contact", AStr "Jean-Luc.Shaw@dfo-mpo.gc.ca") ].

Definition qmin (a b : Q) : Q := if Qle_bool a b then a else b.
Definition qmax (a b : Q) : Q := if Qle_bool a b then b else a.

(** [min()] and [max()] of an array of floats pass over [nan]; an array
    with nothing else gives [nan]. *)
Fixpoint nanmin (vs : list value) : value :=
  match vs with
  | [] => NaN
  | v :: vs' =>
      match v, nanmin vs' with
      | Num a, Num b => Num (qmin a b)
      | Num a, _ => Num a
      | _, m => m
      end
  end.

Fixpoint nanmax (vs : list value) : value :=
  match vs with
  | [] => NaN
  | v :: vs' =>
      match v, nanmax vs' with
      | Num a, Num b => Num (qmax a b)
      | Num a, _ => Num a
      | _, m => m
      end
  end.

(** All the cells of a variable of the dataset. *)
Definition cells (a : list array2) : list value := List.concat (List.concat a).

(** The values of [dataset[v]] for a data variable or one of the two
    coordinates of the grid. *)
Definition values_of (ds : Dataset) (v : string) : result (list value) :=
  match dict_get (data_vars ds) v with
  | Some a => OK (cells a)
  | None =>
      if String.eqb v "lon" then OK (map Num (ds_lon ds))
      else if String.eqb v "lat" then OK (map Num (ds_lat ds))
      else Err KeyError
  end.

(** The body of the loop that sets the variable range attributes. *)
Definition range_attrs (ds : Dataset) (st : list (string * attrs)) (v : string)
  : result (list (string * attrs)) :=
  vals <- values_of ds v ;;
  st <- set_attr st (v, "data_min", AVal (nanmin vals)) ;;
  set_attr st (v, "data_max", AVal (nanmax vals)).

(** The metadata part of [dex2ds]; [now] is the time of the creation
    written as in the history of the dataset. *)
Definition static_meta : list (string * string * attr) :=
  coordinate_meta ++ concentration_meta ++ stage_meta ++ form_meta ++ flag_meta.

Definition annotate (now : string) (ds : Dataset) : result Annotated :=
  st <- for_each set_attr static_meta (init_attrs ds) ;;
  st <- for_each (range_attrs ds) (map fst (data_vars ds) ++ ["lon"; "lat"]) st ;;
  OK {| an_data := ds; an_vars := st;
        an_global := dict_set global_meta "history" (AStr ("Created: " ++ now)) |}.

(** The whole of [dex2ds]: the conversion, then the metadata. *)
Definition dex2ds_annotated (now file_ : string) (rows : list dex_row)
  : result Annotated :=
  ds <- dex2ds file_ rows ;; annotate now ds.

(** The attribute written last for a variable and a name in a list of
    assignments. *)
Fixpoint last_assigned (v k : string) (l : list (string * string * attr))
  : option attr :=
  match l with
  | [] => None
  | (v', k', a) :: l' =>
      match last_assigned v k l' with
      | Some b => Some b
      | None => if String.eqb v' v && String.eqb k' k then Some a else None
      end
  end.

(** The land flag. *)
Definition is_land (v : value) : bool :=
  match v with
  | Num q => Qeq_bool q 4
  | _ => false
  end.

Definition is_string (v : value) : bool :=
  match v with
  | Str _ => true
  | _ => false
  end.



(** The two assignments of the range loop for a variable. *)
Definition range_pairs (ds : Dataset) (v : string) : list (string * string * attr) :=
  match values_of ds v with
  | OK vals => [ (v, "data_min", AVal (nanmin vals));
                 (v, "data_max", AVal (nanmax vals)) ]
  | Err _ => []
  end.

(** The names the range loop runs over, for a dataset of [dex2ds]. *)
Definition ranged_names : list string := egg_columns ++ ["flag"] ++ ["lon"; "lat"].

(** A number among values. *)
Definition is_number (v : value) : bool :=
  match v with
  | Num _ => true
  | _ => false
  end.

(** The attribute is the string [s]. *)
Definition attr_is (s : string) (a : attr) : bool :=
  match a with
  | AStr t => String.eqb t s
  | AVal _ => false
  end.

(** The conversion of [three_rows] with its metadata, created at
    [sample_now]. *)
Definition sample_now : string := "2019/03/26 08:00:00".

Definition empty_annotated : Annotated :=
  {| an_data := empty_dataset; an_vars := []; an_global := [] |}.

Definition three_annotated : Annotated :=
  Eval vm_compute in
    result_or empty_annotated (dex2ds_annotated sample_now sample_file three_rows).

(** * Properties *)

(** ** The error monad *)

Lemma bind_OK_inv {A B : Type} (m : result A) (k : A -> result B) (b : B) :
  bind m k = OK b -> exists a, m = OK a /\ k a = OK b.
Proof.
  destruct m as [a|e]; simpl; intros H; [exists a; auto | discriminate].
Qed.

Lemma bind_Err {A B : Type} (m : result A) (k : A -> result B) (e : exn) :
  m = Err e -> bind m k = Err e.
Proof. intros ->. reflexivity. Qed.

Ltac monad_inv H :=
  repeat match type of H with
         | bind ?m _ = OK _ =>
             let a := fresh "a" in
             let E := fresh "E" in
             destruct m as [a|] eqn:E; [cbn [bind] in H | discriminate H]
         end.

Lemma mapM_Forall2 {A B : Type} (f : A -> result B) (l : list A) (bs : list B) :
  mapM f l = OK bs <-> Forall2 (fun a b => f a = OK b) l bs.
Proof.
  revert bs. induction l as [|a l IH]; intros bs; simpl.
  - split; intros H.
    + injection H as <-. constructor.
    + inversion H. reflexivity.
  - split; intros H.
    + monad_inv H. injection H as <-. constructor; [assumption|].
      apply IH. reflexivity.
    + inversion H as [|? b ? bs' Hab Hl]; subst.
      rewrite Hab. cbn [bind]. apply IH in Hl. rewrite Hl. reflexivity.
Qed.

Lemma mapM_Err {A B : Type} (f : A -> result B) (l : list A) (a : A) (e : exn) :
  In a l -> f a = Err e ->
  (forall a' e', In a' l -> f a' = Err e' -> e' = e) ->
  mapM f l = Err e.
Proof.
  induction l as [|x l IH]; intros Hin Ha Hall; [destruct Hin|].
  simpl. destruct (f x) as [b|e'] eqn:Ex.
  - cbn [bind]. destruct Hin as [->|Hin]; [congruence|].
    rewrite IH; auto. intros a' e'' Hin' Hf. apply (Hall a' e''); [right|]; assumption.
  - cbn [bind]. f_equal. apply (Hall x e'); [left; reflexivity | assumption].
Qed.

(** ** [str.replace] *)

Module PyStrFacts.
Import PyStr.

Lemma startswith_app (p s : string) : startswith p (p ++ s)%string = true.
Proof.
  induction p as [|a p IH]; simpl; [reflexivity|].
  rewrite Ascii.eqb_refl. exact IH.
Qed.

Lemma contains_app_l (p a s : string) :
  contains p s = true -> contains p (a ++ s)%string = true.
Proof.
  intros H. induction a as [|c a IH]; simpl; [exact H|].
  rewrite IH. apply orb_true_r.
Qed.

Lemma length_append (a b : string) :
  String.length (a ++ b)%string = (String.length a + String.length b)%nat.
Proof. induction a as [|c a IH]; simpl; [reflexivity | rewrite IH; reflexivity]. Qed.

Lemma contains_head (p s : string) : startswith p s = true -> contains p s = true.
Proof. destruct s; simpl; intros ->; reflexivity. Qed.

Lemma contains_occurrence (p a b : string) :
  contains p (a ++ p ++ b)%string = true.
Proof. apply contains_app_l, contains_head, startswith_app. Qed.

End PyStrFacts.

Module ReplaceFacts.
Import PyStr PyStrFacts.

(** A string without an occurrence of the pattern is returned as it is. *)
Lemma replace_no_match (old new s : string) :
  contains old s = false -> replace_from old new 0 s = s.
Proof.
  induction s as [|c s IH]; intros H; [reflexivity|].
  cbn [contains] in H. apply orb_false_iff in H. destruct H as [H1 H2].
  cbn [replace_from]. rewrite H1, IH by assumption. reflexivity.
Qed.

Lemma replace_from_length (old new s : string) :
  (String.length old <= String.length new)%nat ->
  forall k, (String.length s - k <= String.length (replace_from old new k s))%nat
            \/ old = ""%string.
Proof.
  intros Hlen. destruct old as [|o old']; [right; reflexivity|]. left. revert k.
  induction s as [|c s IH]; intros k; [simpl; lia|].
  cbn [replace_from]. destruct k as [|k].
  - destruct (startswith (String o old') (String c s)).
    + rewrite length_append. specialize (IH (String.length (String o old') - 1)%nat).
      simpl in *. lia.
    + specialize (IH 0%nat). simpl in *. lia.
  - specialize (IH k). simpl. lia.
Qed.

(** No match of ["9+"] starts in [a]: written on [a] followed by a nine. *)
Lemma no_plus_before (x : ascii) (a b : string) :
  startswith "9+" (String x a ++ "9")%string = false ->
  startswith "9+" (String x a ++ "9+" ++ b)%string = false.
Proof.
  destruct a as [|y a]; cbn [append startswith]; intros H.
  - destruct (Ascii.eqb "9" x); reflexivity.
  - exact H.
Qed.

Lemma no_plus_before_inv (x : ascii) (a b : string) :
  startswith "9+" (String x a ++ "9+" ++ b)%string = false ->
  startswith "9+" (String x a ++ "9")%string = false.
Proof.
  destruct a as [|y a]; cbn [append startswith]; intros H.
  - destruct (Ascii.eqb "9" x); reflexivity.
  - exact H.
Qed.

(** The first occurrence is rewritten and the scan goes on after it. *)
Lemma replace_plus_first (a b : string) :
  contains "9+" (a ++ "9")%string = false ->
  replace "9+" "9.9" (a ++ "9+" ++ b)%string
  = (a ++ "9.9" ++ replace "9+" "9.9" b)%string.
Proof.
  unfold replace. induction a as [|x a IH]; intros H.
  - cbn. reflexivity.
  - change (contains "9+" (String x a ++ "9")%string)
      with (startswith "9+" (String x a ++ "9")%string
            || contains "9+" (a ++ "9")%string) in H.
    apply orb_false_iff in H. destruct H as [H1 H2].
    apply (no_plus_before x a b) in H1.
    change (String x a ++ "9+" ++ b)%string
      with (String x (a ++ "9+" ++ b)%string) in *.
    cbn [replace_from]. rewrite H1. rewrite IH by assumption. reflexivity.
Qed.

(** A string that contains ["9+"] has a first occurrence. *)
Lemma contains_plus_split (s : string) :
  contains "9+" s = true ->
  exists a b, s = (a ++ "9+" ++ b)%string /\ contains "9+" (a ++ "9")%string = false.
Proof.
  induction s as [|c s IH]; intros H; [discriminate|].
  destruct (startswith "9+" (String c s)) eqn:E.
  - exists ""%string. cbn [startswith] in E.
    apply andb_true_iff in E. destruct E as [Ec E].
    apply Ascii.eqb_eq in Ec. subst c.
    destruct s as [|d s]; [discriminate|]. cbn [startswith] in E.
    apply andb_true_iff in E. destruct E as [Ed _].
    apply Ascii.eqb_eq in Ed. subst d. exists s. split; reflexivity.
  - cbn [contains] in H. rewrite E in H. cbn [orb] in H.
    destruct (IH H) as (a & b & -> & Ha).
    exists (String c a), b. split; [reflexivity|].
    change (contains "9+" (String c a ++ "9")%string)
      with (startswith "9+" (String c a ++ "9")%string
            || contains "9+" (a ++ "9")%string).
    rewrite Ha, orb_false_r. exact (no_plus_before_inv c a b E).
Qed.

End ReplaceFacts.

(** ** Dictionaries and column updates *)

Lemma dict_get_set_same {V : Type} (d : list (string * V)) (k : string) (v : V) :
  dict_get (dict_set d k v) k = Some v.
Proof.
  induction d as [|[k' v'] d IH]; simpl.
  - rewrite String.eqb_refl. reflexivity.
  - destruct (String.eqb k' k) eqn:E; simpl; rewrite E; [reflexivity | exact IH].
Qed.

Lemma dict_get_set_other {V : Type} (d : list (string * V)) (k k' : string) (v : V) :
  k <> k' -> dict_get (dict_set d k v) k' = dict_get d k'.
Proof.
  intros Hne. induction d as [|[k0 v0] d IH]; simpl.
  - destruct (String.eqb k k') eqn:E; [apply String.eqb_eq in E; contradiction | reflexivity].
  - destruct (String.eqb k0 k) eqn:E; simpl.
    + apply String.eqb_eq in E. subst k0.
      destruct (String.eqb k k') eqn:E'; [apply String.eqb_eq in E'; contradiction | reflexivity].
    + destruct (String.eqb k0 k'); [reflexivity | exact IH].
Qed.

Lemma getitem_setitem_same (df : DataFrame) (c : string) (vs : list value) :
  getitem (setitem df c vs) c = OK vs.
Proof. unfold getitem, setitem. simpl. rewrite dict_get_set_same. reflexivity. Qed.

Lemma getitem_setitem_other (df : DataFrame) (c c' : string) (vs : list value) :
  c <> c' -> getitem (setitem df c vs) c' = getitem df c'.
Proof.
  intros H. unfold getitem, setitem. simpl.
  rewrite dict_get_set_other by assumption. reflexivity.
Qed.

(** A loop that applies [f] to the named columns, all of them present
    and named once: it cannot fail, rewrites those columns cell by cell
    and leaves the others and the index alone. *)
Lemma for_each_apply_column (f : value -> value) (names : list string) :
  NoDup names ->
  forall df,
    (forall n, In n names -> exists vs, getitem df n = OK vs) ->
    exists df',
      for_each (apply_column f) names df = OK df'
      /\ index df' = index df
      /\ (forall n vs, In n names -> getitem df n = OK vs ->
                       getitem df' n = OK (map f vs))
      /\ (forall n, ~ In n names -> getitem df' n = getitem df n).
Proof.
  induction 1 as [|c names Hc Hnd IH]; intros df Hall.
  - exists df. simpl. repeat split; auto. intros n vs [].
  - destruct (Hall c (or_introl eq_refl)) as [vc Hvc].
    cbn [for_each]. unfold apply_column at 1. rewrite Hvc. cbn [bind].
    destruct (IH (setitem df c (map f vc))) as (df' & Hrun & Hidx & Hin & Hout).
    { intros n Hn. destruct (Hall n (or_intror Hn)) as [vs Hvs].
      exists vs. rewrite getitem_setitem_other; [assumption|].
      intros ->. contradiction. }
    exists df'. split; [exact Hrun|]. split; [rewrite Hidx; reflexivity|]. split.
    + intros n vs [<-|Hn] Hvs.
      * rewrite Hout by assumption. rewrite getitem_setitem_same. congruence.
      * apply Hin; [assumption|]. rewrite getitem_setitem_other; [assumption|].
        intros ->. contradiction.
    + intros n Hn. rewrite Hout by (intros Hin'; apply Hn; right; assumption).
      apply getitem_setitem_other. intros ->. apply Hn. left. reflexivity.
Qed.

(** ** The plus substitution *)

(** C3. On the columns CT and CA the plus substitution returns unchanged
    every value that is not a string and every string without ["9+"];
    in a string that contains ["9+"] the first occurrence becomes ["9.9"]
    and the rest of the string is rewritten in the same way; the loop of
    [dex2ds] applies it to every cell of CT and of CA. *)
Theorem strip_plus_spec :
  (forall x, (forall s, x = Str s -> PyStr.contains "9+" s = false) ->
             _strip_plus x = x)
  /\ (forall s, PyStr.contains "9+" s = true ->
        exists a b,
          s = (a ++ "9+" ++ b)%string
          /\ PyStr.contains "9+" (a ++ "9")%string = false
          /\ _strip_plus (Str s)
             = Str (a ++ "9.9" ++ PyStr.replace "9+" "9.9" b)%string)
  /\ _strip_plus (Str "9+") = Str "9.9"
  /\ (forall df vct vca,
        getitem df "CT" = OK vct -> getitem df "CA" = OK vca ->
        exists df',
          for_each (apply_column _strip_plus) ["CT"; "CA"] df = OK df'
          /\ getitem df' "CT" = OK (map _strip_plus vct)
          /\ getitem df' "CA" = OK (map _strip_plus vca)).
Proof.
  split; [|split; [|split]].
  - intros [s| |] H; try reflexivity.
    simpl. unfold PyStr.replace. rewrite ReplaceFacts.replace_no_match; auto.
  - intros s H. destruct (ReplaceFacts.contains_plus_split s H) as (a & b & -> & Ha).
    exists a, b. repeat split; auto.
    unfold _strip_plus. rewrite ReplaceFacts.replace_plus_first by assumption.
    reflexivity.
  - reflexivity.
  - intros df vct vca Hct Hca.
    destruct (for_each_apply_column _strip_plus ["CT"; "CA"]) with (df := df)
      as (df' & Hrun & _ & Hin & _).
    + repeat constructor; simpl; intuition discriminate.
    + intros n [<-|[<-|[]]]; eauto.
    + exists df'. split; [exact Hrun|]. split; apply Hin; simpl; auto.
Qed.

Lemma strip_plus_spec_witness :
  _strip_plus (Str "Fast-ice") = Str "Fast-ice"
  /\ (exists a b,
        "39+9+"%string = (a ++ "9+" ++ b)%string
        /\ PyStr.contains "9+" (a ++ "9")%string = false
        /\ _strip_plus (Str "39+9+")
           = Str (a ++ "9.9" ++ PyStr.replace "9+" "9.9" b)%string)
  /\ (exists df',
        for_each (apply_column _strip_plus) ["CT"; "CA"]
          {| index := [(1, 2)]; columns := [("CT", [Str "9+"]); ("CA", [NaN])] |}
        = OK df'
        /\ getitem df' "CT" = OK (map _strip_plus [Str "9+"])
        /\ getitem df' "CA" = OK (map _strip_plus [NaN])).
Proof.
  split; [|split].
  - apply (proj1 strip_plus_spec). intros s [= <-]. reflexivity.
  - apply (proj1 (proj2 strip_plus_spec)). reflexivity.
  - apply (proj2 (proj2 (proj2 strip_plus_spec))); reflexivity.
Defined.

(** ** The columns through the pipeline *)

Lemma egg_columns_NoDup : NoDup egg_columns.
Proof.
  unfold egg_columns. cbn.
  repeat (constructor; [simpl; intuition discriminate|]). constructor.
Qed.

Lemma read_csv_inv (rows : list dex_row) (df : DataFrame) :
  read_csv rows = OK df ->
  rows <> []
  /\ index df = map (fun r => (lon r, lat r)) rows
  /\ map fst (columns df) = egg_columns
  /\ (forall n, In n egg_columns ->
        exists vs,
          getitem df n = OK vs
          /\ Forall2 (fun r v => read_cell (dict_get types n) (field n r) = OK v)
                     rows vs).
Proof.
  intros H. assert (Hne : rows <> []) by (intros ->; discriminate H).
  split; [assumption|].
  assert (E : exists cols,
             mapM (read_column rows) egg_columns = OK cols
             /\ df = {| index := map (fun r => (lon r, lat r)) rows;
                        columns := cols |}).
  { destruct rows; [congruence|]. unfold read_csv in H.
    monad_inv H. injection H as <-. eexists; split; [eassumption | reflexivity]. }
  destruct E as (cols & Hcols & ->). cbn [index columns].
  split; [reflexivity|]. apply mapM_Forall2 in Hcols.
  assert (Hcol : Forall2 (fun n c => fst c = n /\
                  Forall2 (fun r v => read_cell (dict_get types n) (field n r) = OK v)
                          rows (snd c)) egg_columns cols).
  { eapply Forall2_impl; [|exact Hcols]. intros n c Hc. unfold read_column in Hc.
    monad_inv Hc. injection Hc as <-. split; [reflexivity|].
    apply mapM_Forall2. assumption. }
  clear Hcols H. generalize egg_columns_NoDup. revert Hcol.
  generalize egg_columns as names. intros names Hcol Hnd. split.
  - induction Hcol as [|n c ns cs [Hn _] _ IH]; simpl.
    + reflexivity.
    + inversion Hnd; subst. rewrite IH by assumption. reflexivity.
  - intros n Hn. unfold getitem. cbn [columns].
    induction Hcol as [|n0 [n1 vs0] ns cs [Hn0 Hvs] _ IH]; [destruct Hn|].
    simpl in Hn0. subst n1. inversion Hnd as [|? ? Hnotin Hnd']; subst.
    cbn [dict_get]. destruct (String.eqb n0 n) eqn:E.
    + apply String.eqb_eq in E. subst n0. exists vs0. split; [reflexivity | exact Hvs].
    + destruct Hn as [->|Hn]; [rewrite String.eqb_refl in E; discriminate|].
      apply IH; assumption.
Qed.

Lemma dict_get_map {V W : Type} (f : V -> W) (d : list (string * V)) (k : string) :
  dict_get (map (fun '(n, v) => (n, f v)) d) k = option_map f (dict_get d k).
Proof.
  induction d as [|[k' v] d IH]; simpl; [reflexivity|].
  destruct (String.eqb k' k); [reflexivity | exact IH].
Qed.

(** One loop over columns of the file: what it does to the frame, and
    what it does to one column. *)
Lemma stage_column (f : value -> value) (names : list string)
      (df df' : DataFrame) :
  NoDup names -> incl names egg_columns -> all_present df ->
  for_each (apply_column f) names df = OK df' ->
  index df' = index df
  /\ all_present df'
  /\ (forall n vs, getitem df n = OK vs ->
        getitem df' n = OK (if existsb (String.eqb n) names then map f vs else vs)).
Proof.
  intros Hnd Hincl Hall Hrun.
  destruct (for_each_apply_column f names Hnd df) as (df2 & Hrun2 & Hidx & Hin & Hout).
  { intros m Hm. apply Hall, Hincl, Hm. }
  rewrite Hrun in Hrun2. injection Hrun2 as <-.
  split; [exact Hidx|]. split.
  - intros m Hm. destruct (Hall m Hm) as [ws Hws].
    destruct (in_dec string_dec m names) as [Hin'|Hout'].
    + exists (map f ws). apply Hin; assumption.
    + exists ws. rewrite Hout; assumption.
  - intros n vs Hn. destruct (existsb (String.eqb n) names) eqn:E.
    + apply existsb_exists in E. destruct E as (m & Hm & E).
      apply String.eqb_eq in E. subst m. apply Hin; assumption.
    + rewrite Hout; [assumption|]. intros Hm.
      assert (existsb (String.eqb n) names = true); [|congruence].
      apply existsb_exists. exists n. split; [assumption | apply String.eqb_refl].
Qed.

Lemma getitem_OK (df : DataFrame) (n : string) (vs : list value) :
  getitem df n = OK vs -> dict_get (columns df) n = Some vs.
Proof. unfold getitem. destruct (dict_get (columns df) n); congruence. Qed.

Lemma Forall2_map_left {A B C : Type} (f : A -> B) (P : B -> C -> Prop)
      (l : list A) (l' : list C) :
  Forall2 P (map f l) l' -> Forall2 (fun a c => P (f a) c) l l'.
Proof.
  revert l'. induction l as [|a l IH]; intros l' H; inversion H; subst;
    constructor; auto.
Qed.

Lemma incl_egg (names : list string) :
  forallb (fun n => existsb (String.eqb n) egg_columns) names = true ->
  incl names egg_columns.
Proof.
  intros H n Hn. rewrite forallb_forall in H. specialize (H n Hn).
  apply existsb_exists in H. destruct H as (m & Hm & E).
  apply String.eqb_eq in E. subst m. exact Hm.
Qed.

Lemma NoDup_strings (names : list string) :
  nodupb names = true ->
  NoDup names.
Proof.
  induction names as [|x l IH]; intros H; [constructor|].
  apply andb_true_iff in H. destruct H as [H1 H2]. constructor; [|auto].
  intros Hin. apply negb_true_iff in H1.
  assert (existsb (String.eqb x) l = true); [|congruence].
  apply existsb_exists. exists x. split; [assumption | apply String.eqb_refl].
Qed.

Lemma substitution_stages (n : string) (vs : list value) :
  In n egg_columns ->
  map to_numeric_coerce
    ((if existsb (String.eqb n) ["SA"; "SB"; "SC"] then map _strip_dots else fun l => l)
       ((if existsb (String.eqb n) ["CT"; "CA"] then map _strip_plus else fun l => l) vs))
  = map (fun v => to_numeric_coerce (substitution n v)) vs.
Proof.
  intros Hn. cbn in Hn.
  repeat (destruct Hn as [<-|Hn]; [cbn; rewrite ?map_map; reflexivity|]).
  destruct Hn.
Qed.

Lemma dex2ds_inv (file_ : string) (rows : list dex_row) (ds : Dataset) :
  dex2ds file_ rows = OK ds ->
  let ix := map (fun r => (lon r, lat r)) rows in
  let G := grid_of (ds_lon ds) (ds_lat ds) ix in
  rows <> []
  /\ is_unique ix = true
  /\ ds_lon ds = levels (map fst ix)
  /\ ds_lat ds = levels (map snd ix)
  /\ (exists date_str rest date,
        re_findall_digits 8 file_ = date_str :: rest
        /\ pd_Timestamp (iso_of date_str) = OK date
        /\ ds_time ds = [date])
  /\ (forall n, In n egg_columns ->
        exists vs,
          Forall2 (fun r v => read_cell (dict_get types n) (field n r) = OK v) rows vs
          /\ dict_get (data_vars ds) n
             = Some [G (map (fun v => to_numeric_coerce (substitution n v)) vs)])
  /\ (exists vs flags,
        Forall2 (fun r v => read_cell (Some str) (CT r) = OK v) rows vs
        /\ Forall2 (fun v f => _num_flags (_strip_plus v) = OK f) vs flags
        /\ dict_get (data_vars ds) "flag" = Some [where_notnull (G flags) (Num 4)]).
Proof.
  intros H ix G. unfold dex2ds in H.
  apply bind_OK_inv in H. destruct H as (df & Hread & H).
  apply bind_OK_inv in H. destruct H as (df0 & Hplus & H).
  apply bind_OK_inv in H. destruct H as (df1 & Hdots & H).
  apply bind_OK_inv in H. destruct H as (ct & Hct & H).
  apply bind_OK_inv in H. destruct H as (flags & Hflags & H).
  apply bind_OK_inv in H. destruct H as (df2 & Hnum & H).
  apply bind_OK_inv in H. destruct H as (g & Hgrid & H).
  apply bind_OK_inv in H. destruct H as (flag & Hflag & H).
  apply bind_OK_inv in H. destruct H as (date_str & Hfirst & H).
  apply bind_OK_inv in H. destruct H as (date & Hdate & H).
  injection H as <-.
  destruct (read_csv_inv _ _ Hread) as (Hne & Hix & _ & Hcols).
  assert (Hall : all_present df).
  { intros m Hm. destruct (Hcols m Hm) as (ws & Hws & _). eauto. }
  destruct (stage_column _strip_plus ["CT"; "CA"] df df0
              (NoDup_strings ["CT"; "CA"] eq_refl)
              (incl_egg ["CT"; "CA"] eq_refl) Hall Hplus) as (Hix0 & Hall0 & Hcol0).
  destruct (stage_column _strip_dots ["SA"; "SB"; "SC"] df0 df1
              (NoDup_strings ["SA"; "SB"; "SC"] eq_refl)
              (incl_egg ["SA"; "SB"; "SC"] eq_refl) Hall0 Hdots) as (Hix1 & Hall1 & Hcol1).
  assert (Hall1' : all_present (setitem df1 "flag" flags)).
  { intros m Hm. destruct (Hall1 m Hm) as [ws Hws]. exists ws.
    rewrite getitem_setitem_other; [assumption|].
    intros <-. cbn in Hm. intuition discriminate. }
  destruct (stage_column to_numeric_coerce egg_columns _ df2
              egg_columns_NoDup (incl_refl _) Hall1' Hnum) as (Hix2 & _ & Hcol2).
  cbn [setitem index] in Hix2.
  assert (Hidx : index df2 = ix).
  { unfold ix. rewrite Hix2, Hix1, Hix0. exact Hix. }
  unfold to_xarray in Hgrid. rewrite Hidx in Hgrid.
  destruct (is_unique ix) eqn:Hu; [|discriminate]. injection Hgrid as <-.
  cbn [expand_dims grid_setitem ds_lon ds_lat ds_time data_vars g_lon g_lat g_vars] in *.
  fold ix in G.
  split; [assumption|]. split; [reflexivity|]. split; [reflexivity|].
  split; [reflexivity|]. split; [|split].
  - unfold first in Hfirst. destruct (re_findall_digits 8 file_) as [|d rest]; [discriminate|].
    injection Hfirst as ->. exists date_str, rest, date. auto.
  - intros n Hn. destruct (Hcols n Hn) as (vs & Hvs & Hread_n). exists vs.
    split; [exact Hread_n|].
    rewrite dict_get_map, dict_get_set_other.
    2:{ intros <-. cbn in Hn. intuition discriminate. }
    rewrite dict_get_map.
    assert (Hfin : getitem df2 n
                   = OK (map (fun v => to_numeric_coerce (substitution n v)) vs)).
    { rewrite <- substitution_stages by assumption.
      erewrite Hcol2.
      2:{ rewrite getitem_setitem_other.
          - erewrite Hcol1; [reflexivity|]. erewrite Hcol0; [reflexivity | exact Hvs].
          - intros <-. cbn in Hn. intuition discriminate. }
      assert (E : existsb (String.eqb n) egg_columns = true).
      { apply existsb_exists. exists n. split; [assumption | apply String.eqb_refl]. }
      rewrite E. f_equal. f_equal.
      destruct (existsb (String.eqb n) ["SA"; "SB"; "SC"]),
               (existsb (String.eqb n) ["CT"; "CA"]); reflexivity. }
    apply getitem_OK in Hfin. rewrite Hfin. reflexivity.
  - destruct (Hcols "CT") as (vs & Hvs & Hread_ct); [cbn; auto|].
    exists vs, flags. split; [exact Hread_ct|].
    assert (Hct' : ct = map _strip_plus vs).
    { erewrite Hcol1 in Hct; [|erewrite Hcol0; [reflexivity | exact Hvs]].
      cbn in Hct. congruence. }
    subst ct. split.
    + apply (Forall2_map_left _strip_plus (fun v f => _num_flags v = OK f)).
      apply mapM_Forall2. exact Hflags.
    + assert (Hf2 : getitem df2 "flag" = OK flags).
      { erewrite Hcol2; [|apply getitem_setitem_same]. reflexivity. }
      apply getitem_OK in Hf2.
      unfold grid_getitem in Hflag. cbn [g_vars] in Hflag.
      rewrite dict_get_map, Hf2 in Hflag. cbn in Hflag. injection Hflag as <-.
      rewrite dict_get_map, dict_get_set_same. reflexivity.
Qed.

(** ** The grid *)

Lemma coord_eqb_sym (a b : Q * Q) : coord_eqb a b = coord_eqb b a.
Proof.
  unfold coord_eqb. rewrite (Qeq_bool_comm (fst a)), (Qeq_bool_comm (snd a)).
  reflexivity.
Qed.

Lemma coord_eqb_trans (a b c : Q * Q) :
  coord_eqb a b = true -> coord_eqb b c = true -> coord_eqb a c = true.
Proof.
  unfold coord_eqb. intros H1 H2.
  apply andb_true_iff in H1. apply andb_true_iff in H2.
  destruct H1, H2. apply andb_true_iff.
  split; eapply Qeq_bool_trans; eassumption.
Qed.

Lemma coord_eqb_iff (a b : Q * Q) :
  coord_eqb a b = true <-> fst a == fst b /\ snd a == snd b.
Proof.
  unfold coord_eqb. rewrite andb_true_iff, !Qeq_bool_iff. tauto.
Qed.

(** No row at the point: nothing is found. *)
Lemma locate_none {V : Type} (k : Q * Q) (ix : list (Q * Q)) (vs : list V) :
  (forall c, In c ix -> coord_eqb c k = false) -> locate k ix vs = None.
Proof.
  revert vs. induction ix as [|a ix IH]; intros vs H; [reflexivity|].
  destruct vs as [|v vs]; [reflexivity|]. cbn [locate].
  rewrite (H a (or_introl eq_refl)). apply IH.
  intros c Hc. apply H. right. exact Hc.
Qed.

(** In a frame without repeated index, the row at the point is found. *)
Lemma locate_some {V : Type} (k c : Q * Q) (ix : list (Q * Q)) (vs : list V)
      (i : nat) (v : V) :
  is_unique ix = true ->
  nth_error ix i = Some c -> nth_error vs i = Some v ->
  coord_eqb c k = true ->
  locate k ix vs = Some v.
Proof.
  revert vs i. induction ix as [|a ix IH]; intros vs i Hu Hc Hv Hk.
  - destruct i; discriminate.
  - destruct vs as [|w vs]; [destruct i; discriminate|].
    cbn [is_unique] in Hu. apply andb_true_iff in Hu. destruct Hu as [Ha Hu].
    cbn [locate]. destruct i as [|i]; simpl in Hc, Hv.
    + injection Hc as ->. injection Hv as ->. rewrite Hk. reflexivity.
    + destruct (coord_eqb a k) eqn:Eak.
      * exfalso. apply negb_true_iff in Ha.
        assert (existsb (coord_eqb a) ix = true); [|congruence].
        apply existsb_exists. exists c. split; [eapply nth_error_In; eassumption|].
        eapply coord_eqb_trans; [exact Eak|]. rewrite coord_eqb_sym. exact Hk.
      * eapply IH; eassumption.
Qed.

Lemma cell_grid_of (lons lats : list Q) (ix : list (Q * Q)) (vs : list value)
      (i j : nat) (x y : Q) :
  nth_error lons i = Some x -> nth_error lats j = Some y ->
  cell (grid_of lons lats ix vs) i j
  = Some (match locate (x, y) ix vs with Some v => v | None => NaN end).
Proof.
  intros Hx Hy. unfold cell, grid_of.
  rewrite nth_error_map, Hx. cbn [option_map].
  rewrite nth_error_map, Hy. reflexivity.
Qed.

Lemma cell_where_notnull (a : array2) (other v : value) (i j : nat) :
  cell a i j = Some v ->
  cell (where_notnull a other) i j = Some (if negb (isnull v) then v else other).
Proof.
  unfold cell, where_notnull. intros H. rewrite nth_error_map.
  destruct (nth_error a i) as [line|]; [|discriminate]. cbn [option_map].
  rewrite nth_error_map, H. reflexivity.
Qed.

Lemma Forall2_nth_error_l {A B : Type} (P : A -> B -> Prop) (l : list A)
      (l' : list B) (k : nat) (a : A) :
  Forall2 P l l' -> nth_error l k = Some a ->
  exists b, nth_error l' k = Some b /\ P a b.
Proof.
  intros H. revert k. induction H as [|x y l l' Hxy _ IH]; intros k Hk.
  - destruct k; discriminate.
  - destruct k as [|k]; simpl in *.
    + injection Hk as ->. eauto.
    + apply IH, Hk.
Qed.

(** The cell of a column at a grid point on which the row number [k] lies. *)
Lemma cell_at_row (rows : list dex_row) (vs : list value) (k i j : nat)
      (r : dex_row) (v : value) (lons lats : list Q) (x y : Q) :
  let ix := map (fun r => (lon r, lat r)) rows in
  is_unique ix = true ->
  nth_error rows k = Some r -> nth_error vs k = Some v ->
  nth_error lons i = Some x -> nth_error lats j = Some y ->
  lon r == x -> lat r == y ->
  cell (grid_of lons lats ix vs) i j = Some v.
Proof.
  intros ix Hu Hr Hv Hx Hy Hlon Hlat.
  rewrite (cell_grid_of _ _ _ _ _ _ _ _ Hx Hy).
  erewrite locate_some; [reflexivity | exact Hu | | exact Hv | ].
  - unfold ix. rewrite nth_error_map, Hr. reflexivity.
  - apply coord_eqb_iff. split; assumption.
Qed.

(** The cell of a column at a grid point on which no row lies. *)
Lemma cell_off_rows (rows : list dex_row) (vs : list value) (i j : nat)
      (lons lats : list Q) (x y : Q) :
  let ix := map (fun r => (lon r, lat r)) rows in
  nth_error lons i = Some x -> nth_error lats j = Some y ->
  ~ on_row rows x y ->
  cell (grid_of lons lats ix vs) i j = Some NaN.
Proof.
  intros ix Hx Hy Hoff.
  rewrite (cell_grid_of _ _ _ _ _ _ _ _ Hx Hy).
  rewrite locate_none; [reflexivity|].
  intros c Hc. unfold ix in Hc. apply in_map_iff in Hc.
  destruct Hc as (r & <- & Hr).
  destruct (coord_eqb (lon r, lat r) (x, y)) eqn:E; [|reflexivity].
  exfalso. apply Hoff. exists r. apply coord_eqb_iff in E. tauto.
Qed.

Lemma index_of_cons (x y : Q) (l : list Q) :
  index_of x (y :: l) <> None <-> Qeq_bool y x = true \/ index_of x l <> None.
Proof.
  cbn [index_of]. destruct (Qeq_bool y x); split.
  - left. reflexivity.
  - discriminate.
  - intros H. right. destruct (index_of x l); [discriminate | contradiction].
  - intros [H|H]; [discriminate|]. destruct (index_of x l); [discriminate | contradiction].
Qed.

(** The levels hold every value of the index, once up to equality. *)
Lemma index_of_insert (x y : Q) (l : list Q) :
  (Qeq_bool y x = true \/ index_of x l <> None) ->
  index_of x (insert_level y l) <> None.
Proof.
  induction l as [|z l IH]; intros H.
  - apply index_of_cons. exact H.
  - cbn [insert_level]. destruct (Qcompare y z) eqn:E.
    + destruct H as [H|H]; [|exact H]. apply index_of_cons. left.
      apply Qeq_alt in E. apply Qeq_bool_iff in E. apply Qeq_bool_sym in E.
      exact (Qeq_bool_trans _ _ _ E H).
    + apply index_of_cons. exact H.
    + apply index_of_cons. destruct H as [H|H].
      * right. apply IH. left. exact H.
      * apply index_of_cons in H. destruct H as [H|H]; [left; exact H|].
        right. apply IH. right. exact H.
Qed.

Lemma index_of_levels (x : Q) (xs : list Q) :
  In x xs -> index_of x (levels xs) <> None.
Proof.
  induction xs as [|y xs IH]; intros H; [destruct H|].
  cbn [levels fold_right]. apply index_of_insert. destruct H as [->|H].
  - left. apply Qeq_bool_refl.
  - right. apply IH, H.
Qed.

Lemma index_of_nth (x : Q) (l : list Q) (i : nat) :
  index_of x l = Some i -> exists x', nth_error l i = Some x' /\ x' == x.
Proof.
  revert i. induction l as [|y l IH]; intros i H; [discriminate|].
  cbn [index_of] in H. destruct (Qeq_bool y x) eqn:E.
  - injection H as <-. exists y. split; [reflexivity | apply Qeq_bool_iff, E].
  - destruct (index_of x l) as [i'|]; [|discriminate]. injection H as <-.
    destruct (IH i' eq_refl) as (x' & Hx' & Hq). exists x'. auto.
Qed.

(** Every row of the file has its point on the grid. *)
Lemma row_on_grid (rows : list dex_row) (r : dex_row) :
  In r rows ->
  let ix := map (fun r => (lon r, lat r)) rows in
  exists i j x y,
    index_of (lon r) (levels (map fst ix)) = Some i
    /\ index_of (lat r) (levels (map snd ix)) = Some j
    /\ nth_error (levels (map fst ix)) i = Some x
    /\ nth_error (levels (map snd ix)) j = Some y
    /\ lon r == x /\ lat r == y.
Proof.
  intros Hr ix.
  assert (Hx : index_of (lon r) (levels (map fst ix)) <> None).
  { apply index_of_levels. unfold ix. rewrite map_map. cbn [fst].
    apply in_map_iff. eauto. }
  assert (Hy : index_of (lat r) (levels (map snd ix)) <> None).
  { apply index_of_levels. unfold ix. rewrite map_map. cbn [snd].
    apply in_map_iff. eauto. }
  destruct (index_of (lon r) (levels (map fst ix))) as [i|] eqn:Ei; [|contradiction].
  destruct (index_of (lat r) (levels (map snd ix))) as [j|] eqn:Ej; [|contradiction].
  destruct (index_of_nth _ _ _ Ei) as (x & Hnx & Hqx).
  destruct (index_of_nth _ _ _ Ej) as (y & Hny & Hqy).
  exists i, j, x, y. repeat split; auto; symmetry; assumption.
Qed.

(** The value the dataset holds for an egg code column at the point of
    a row: the cell as read, substituted, then coerced to a number. *)
Lemma dex2ds_sel (file_ : string) (rows : list dex_row) (ds : Dataset)
      (n : string) (r : dex_row) :
  dex2ds file_ rows = OK ds -> In n egg_columns -> In r rows ->
  exists v,
    read_cell (dict_get types n) (field n r) = OK v
    /\ sel ds n (lon r) (lat r) = Some (to_numeric_coerce (substitution n v)).
Proof.
  intros H Hn Hr.
  destruct (dex2ds_inv _ _ _ H) as (_ & Hu & Hlon & Hlat & _ & Hcols & _).
  destruct (Hcols n Hn) as (vs & Hvs & Hvar).
  destruct (In_nth_error _ _ Hr) as [k Hk].
  destruct (Forall2_nth_error_l _ _ _ _ _ Hvs Hk) as (v & Hv & Hread).
  exists v. split; [exact Hread|].
  destruct (row_on_grid rows r Hr) as (i & j & x & y & Hi & Hj & Hx & Hy & Hqx & Hqy).
  unfold sel, isel. rewrite Hlon, Hlat, Hi, Hj, Hvar.
  rewrite Hlon, Hlat.
  eapply cell_at_row; try eassumption.
  rewrite nth_error_map, Hv. reflexivity.
Qed.

(** ** Flags *)

Lemma dict_get_In {V : Type} (d : list (string * V)) (k : string) (v : V) :
  dict_get d k = Some v -> In (k, v) d.
Proof.
  induction d as [|[k' v'] d IH]; simpl; [discriminate|].
  destruct (String.eqb k' k) eqn:E.
  - apply String.eqb_eq in E. intros [= ->]. left. congruence.
  - intros H. right. apply IH, H.
Qed.

Lemma In_dict_get {V : Type} (d : list (string * V)) (k : string) (v : V) :
  In (k, v) d -> exists v', dict_get d k = Some v'.
Proof.
  induction d as [|[k' v'] d IH]; simpl; [intros []|].
  intros [H|H].
  - injection H as -> ->. rewrite String.eqb_refl. eauto.
  - destruct (String.eqb k' k); eauto.
Qed.

(** The lookup only produces the flags 0, 1, 2 and 3. *)
Lemma num_flags_range (x f : value) :
  _num_flags x = OK f -> In f [Num 0; Num 1; Num 2; Num 3].
Proof.
  destruct x as [s|q|]; try discriminate. unfold _num_flags.
  destruct (dict_get conv s) as [z|] eqn:E; [|discriminate].
  intros [= <-]. apply dict_get_In in E. unfold conv in E.
  repeat (destruct E as [E|E]; [injection E as <- <-; simpl; tauto|]).
  destruct E.
Qed.

Lemma num_flags_not_null (x f : value) : _num_flags x = OK f -> isnull f = false.
Proof.
  intros H. apply num_flags_range in H.
  repeat (destruct H as [<-|H]; [reflexivity|]). destruct H.
Qed.

(** The flag of the dataset at the grid points, by position. *)
Lemma dex2ds_flag_cells (file_ : string) (rows : list dex_row) (ds : Dataset) :
  dex2ds file_ rows = OK ds ->
  forall i j x y,
    nth_error (ds_lon ds) i = Some x -> nth_error (ds_lat ds) j = Some y ->
    (~ on_row rows x y -> isel ds "flag" i j = Some (Num 4))
    /\ (forall r, In r rows -> lon r == x -> lat r == y ->
          exists v f,
            read_cell (Some str) (CT r) = OK v
            /\ _num_flags (_strip_plus v) = OK f
            /\ isel ds "flag" i j = Some f).
Proof.
  intros H i j x y Hx Hy.
  destruct (dex2ds_inv _ _ _ H) as (_ & Hu & _ & _ & _ & _ & Hflag).
  destruct Hflag as (vs & flags & Hvs & Hflags & Hvar).
  unfold isel. rewrite Hvar. split.
  - intros Hoff.
    erewrite cell_where_notnull by (eapply cell_off_rows; eassumption).
    reflexivity.
  - intros r Hr Hlon Hlat. destruct (In_nth_error _ _ Hr) as [k Hk].
    destruct (Forall2_nth_error_l _ _ _ _ _ Hvs Hk) as (v & Hv & Hread).
    destruct (Forall2_nth_error_l _ _ _ _ _ Hflags Hv) as (f & Hf & Hlook).
    exists v, f. split; [exact Hread|]. split; [exact Hlook|].
    erewrite cell_where_notnull by (eapply cell_at_row; eassumption).
    rewrite (num_flags_not_null _ _ Hlook). reflexivity.
Qed.

(** The flag of the dataset at the point of a row. *)
Lemma dex2ds_sel_flag (file_ : string) (rows : list dex_row) (ds : Dataset)
      (r : dex_row) :
  dex2ds file_ rows = OK ds -> In r rows ->
  exists v f,
    read_cell (Some str) (CT r) = OK v
    /\ _num_flags (_strip_plus v) = OK f
    /\ sel ds "flag" (lon r) (lat r) = Some f.
Proof.
  intros H Hr.
  destruct (dex2ds_inv _ _ _ H) as (_ & _ & Hlon & Hlat & _ & _ & _).
  destruct (row_on_grid rows r Hr) as (i & j & x & y & Hi & Hj & Hx & Hy & Hqx & Hqy).
  rewrite <- Hlon in Hi, Hx. rewrite <- Hlat in Hj, Hy.
  destruct (dex2ds_flag_cells _ _ _ H i j x y Hx Hy) as [_ Hon].
  destruct (Hon r Hr Hqx Hqy) as (v & f & Hread & Hlook & Hcell).
  exists v, f. unfold sel. rewrite Hi, Hj. auto.
Qed.

(** C4. After the fill step every grid cell on which no row of the input
    lies holds the flag 4 (land), and every cell on which a row lies
    holds the flag the lookup gave for the CT cell of that row, one of
    0, 1, 2 and 3. *)
Theorem land_flag_fill (file_ : string) (rows : list dex_row) (ds : Dataset) :
  dex2ds file_ rows = OK ds ->
  forall i j x y,
    nth_error (ds_lon ds) i = Some x -> nth_error (ds_lat ds) j = Some y ->
    (~ on_row rows x y -> isel ds "flag" i j = Some (Num 4))
    /\ (forall r, In r rows -> lon r == x -> lat r == y ->
          exists v f,
            read_cell (Some str) (CT r) = OK v
            /\ _num_flags (_strip_plus v) = OK f
            /\ isel ds "flag" i j = Some f
            /\ In f [Num 0; Num 1; Num 2; Num 3]).
Proof.
  intros H i j x y Hx Hy.
  destruct (dex2ds_flag_cells _ _ _ H i j x y Hx Hy) as [Hoff Hon].
  split; [exact Hoff|]. intros r Hr Hlon Hlat.
  destruct (Hon r Hr Hlon Hlat) as (v & f & Hread & Hlook & Hcell).
  exists v, f. repeat split; auto. eapply num_flags_range, Hlook.
Qed.

Lemma land_flag_fill_witness :
  isel sparse_ds "flag" 0 0 = Some (Num 4)
  /\ (exists v f,
        read_cell (Some str) (CT row_ice_free) = OK v
        /\ _num_flags (_strip_plus v) = OK f
        /\ isel sparse_ds "flag" 0 1 = Some f
        /\ In f [Num 0; Num 1; Num 2; Num 3]).
Proof.
  assert (H : dex2ds sample_file sparse_rows = OK sparse_ds)
    by (vm_compute; reflexivity).
  split.
  - apply (proj1 (land_flag_fill _ _ _ H 0 0 (-61) 48 eq_refl eq_refl)).
    intros (r & Hr & Hx & Hy). simpl in Hr.
    destruct Hr as [<-|[<-|[<-|[]]]];
      (vm_compute in Hx; discriminate Hx) || (vm_compute in Hy; discriminate Hy).
  - apply (proj2 (land_flag_fill _ _ _ H 0 1 (-61) 49 eq_refl eq_refl) row_ice_free).
    + simpl. tauto.
    + reflexivity.
    + reflexivity.
Defined.

(** ** The date in the file name *)

Module DateFacts.
Import PyStr PyStrFacts.

Lemma take_app_exact (d b : string) : take (String.length d) (d ++ b)%string = d.
Proof.
  induction d as [|c d IH]; simpl.
  - destruct b; reflexivity.
  - rewrite IH. reflexivity.
Qed.

Lemma take_drop (n : nat) (s : string) : (take n s ++ drop n s)%string = s.
Proof.
  revert s. induction n as [|n IH]; intros s; [reflexivity|].
  destruct s as [|c s]; simpl; [reflexivity|]. rewrite IH. reflexivity.
Qed.

Lemma length_take (n : nat) (s : string) :
  (n <= String.length s)%nat -> String.length (take n s) = n.
Proof.
  revert s. induction n as [|n IH]; intros s H; [reflexivity|].
  destruct s as [|c s]; simpl in *; [lia|]. rewrite IH by lia. reflexivity.
Qed.

Lemma matches_here_app (d b : string) :
  all_digits d = true -> matches_here (String.length d) (d ++ b)%string = true.
Proof.
  intros H. unfold matches_here. rewrite take_app_exact, H, length_append.
  rewrite andb_true_r. apply Nat.leb_le. lia.
Qed.

(** The first match is a run of [n] digits of the string, and no such
    run starts before it. *)
Lemma findall_first (n : nat) (s d : string) (rest : list string) :
  findall_from n 0 s = d :: rest ->
  exists a b,
    s = (a ++ d ++ b)%string
    /\ String.length d = n /\ all_digits d = true
    /\ (forall a' d' b',
          s = (a' ++ d' ++ b')%string -> String.length d' = n ->
          all_digits d' = true -> (String.length a <= String.length a')%nat).
Proof.
  induction s as [|c s IH]; intros H; [discriminate|].
  cbn [findall_from] in H.
  destruct (matches_here n (String c s)) eqn:E.
  - injection H as <- _. unfold matches_here in E.
    apply andb_true_iff in E. destruct E as [E1 E2]. apply Nat.leb_le in E1.
    exists ""%string, (drop n (String c s)). split; [|split; [|split]].
    + cbn [append]. symmetry. apply take_drop.
    + apply length_take, E1.
    + exact E2.
    + intros. simpl. lia.
  - destruct (IH H) as (a & b & -> & Hlen & Hdig & Hleft).
    exists (String c a), b. split; [reflexivity|]. split; [assumption|].
    split; [assumption|]. intros a' d' b' Hs Hlen' Hdig'.
    destruct a' as [|c' a'].
    + exfalso. cbn [append] in Hs. rewrite Hs, <- Hlen' in E.
      rewrite matches_here_app in E by assumption. discriminate.
    + cbn [append] in Hs. injection Hs as _ Hs.
      specialize (Hleft a' d' b' Hs Hlen' Hdig'). simpl. lia.
Qed.

(** A string with a run of [n] digits has a match. *)
Lemma findall_complete (n : nat) (a d b : string) :
  (0 < n)%nat -> String.length d = n -> all_digits d = true ->
  findall_from n 0 (a ++ d ++ b)%string <> [].
Proof.
  intros Hn Hlen Hdig. induction a as [|c a IH].
  - cbn [append]. destruct (d ++ b)%string as [|c s] eqn:Es.
    + destruct d; [simpl in Hlen; lia | discriminate].
    + cbn [findall_from].
      rewrite <- Es, <- Hlen, matches_here_app by assumption. discriminate.
  - cbn [append findall_from].
    destruct (matches_here n (String c (a ++ d ++ b))); [discriminate|].
    exact IH.
Qed.

Lemma iso_of_parts (d : string) :
  String.length d = 8%nat ->
  String.length (iso_of d) = 10%nat
  /\ slice 0 4 (iso_of d) = take 4 d
  /\ slice 4 5 (iso_of d) = "-"%string
  /\ slice 5 7 (iso_of d) = slice 4 6 d
  /\ slice 7 8 (iso_of d) = "-"%string
  /\ slice 8 10 (iso_of d) = drop 6 d.
Proof.
  intros H.
  do 8 (destruct d as [|? d]; [discriminate H|]).
  destruct d; [|discriminate H]. repeat split.
Qed.

(** The timestamp of an eight digit string has its first four digits as
    year, the next two as month and the last two as day. *)
Lemma timestamp_fields (d : string) (date : Timestamp) :
  String.length d = 8%nat ->
  pd_Timestamp (iso_of d) = OK date ->
  date = {| year := digits_val 0 (take 4 d);
            month := digits_val 0 (slice 4 6 d);
            day := digits_val 0 (drop 6 d) |}.
Proof.
  intros Hlen H. unfold pd_Timestamp in H.
  destruct (iso_of_parts d Hlen) as (H0 & H1 & H2 & H3 & H4 & H5).
  rewrite H0, H1, H2, H3, H4, H5 in H.
  destruct (_ && _ && _ && _ && _ && _) in H; [|discriminate].
  destruct (_ && _ && _ && _ && _)%Z in H; [|discriminate].
  injection H as <-. reflexivity.
Qed.

End DateFacts.

(** The file name only decides the time coordinate: where the conversion
    succeeds under one name, under another name it succeeds or aborts
    with the date of that name. *)
Lemma dex2ds_file_name (file_ file' : string) (rows : list dex_row) (ds' : Dataset) :
  dex2ds file' rows = OK ds' ->
  dex2ds file_ rows
  = (date_str <- first (re_findall_digits 8 file_) ;;
     date <- pd_Timestamp (iso_of date_str) ;;
     OK {| ds_time := [date]; ds_lon := ds_lon ds'; ds_lat := ds_lat ds';
           data_vars := data_vars ds' |}).
Proof.
  intros H. unfold dex2ds in *.
  apply bind_OK_inv in H. destruct H as (df & E & H). rewrite E. cbn [bind].
  apply bind_OK_inv in H. destruct H as (df0 & E0 & H). rewrite E0. cbn [bind].
  apply bind_OK_inv in H. destruct H as (df1 & E1 & H). rewrite E1. cbn [bind].
  apply bind_OK_inv in H. destruct H as (ct & E2 & H). rewrite E2. cbn [bind].
  apply bind_OK_inv in H. destruct H as (flags & E3 & H). rewrite E3. cbn [bind].
  apply bind_OK_inv in H. destruct H as (df2 & E4 & H). rewrite E4. cbn [bind].
  apply bind_OK_inv in H. destruct H as (g & E5 & H). rewrite E5. cbn [bind].
  apply bind_OK_inv in H. destruct H as (flag & E6 & H). rewrite E6. cbn [bind].
  apply bind_OK_inv in H. destruct H as (date_str & _ & H).
  apply bind_OK_inv in H. destruct H as (date & _ & H).
  injection H as <-. reflexivity.
Qed.

Lemma mapM_exists {A B : Type} (f : A -> result B) (l : list A) :
  (forall a, In a l -> exists b, f a = OK b) -> exists bs, mapM f l = OK bs.
Proof.
  induction l as [|a l IH]; intros H; [exists []; reflexivity|].
  destruct (H a (or_introl eq_refl)) as [b Hb].
  destruct IH as [bs Hbs]; [intros; apply H; right; assumption|].
  exists (b :: bs). simpl. rewrite Hb. cbn [bind]. rewrite Hbs. reflexivity.
Qed.

Lemma code_flag_defined (s : string) :
  In s (map fst conv) ->
  is_na s = false /\ exists f, _num_flags (_strip_plus (Str s)) = OK f.
Proof.
  intros H. cbn [map fst conv] in H.
  repeat (destruct H as [<-|H]; [split; [reflexivity | eexists; reflexivity]|]).
  destruct H.
Qed.

Lemma read_cell_accepted (r : dex_row) (n : string) :
  row_accepted r -> In n egg_columns ->
  exists v, read_cell (dict_get types n) (field n r) = OK v.
Proof.
  intros [_ Hfloat] Hn. unfold read_cell.
  destruct (is_na (field n r)) eqn:E; [eauto|].
  destruct (dict_get types n) as [[|]|] eqn:Et; [|eauto|eauto].
  assert (Hin : In n ["CC"; "SC"; "FC"]).
  { cbn in Hn.
    repeat (destruct Hn as [<-|Hn];
            [first [vm_compute in Et; discriminate Et | simpl; tauto]|]).
    destruct Hn. }
  destruct (Hfloat n Hin) as [Hc|Hc]; [congruence|].
  destruct (str_to_float (field n r)); [eauto | congruence].
Qed.

(** On accepted rows the read, the substitutions and the lookup go
    through: what is left to decide the outcome is whether a grid point
    is repeated and what the file name holds. *)
Lemma dex2ds_accepted_form (file_ : string) (rows : list dex_row) :
  rows <> [] -> Forall row_accepted rows ->
  exists g,
    dex2ds file_ rows
    = if is_unique (map (fun r => (lon r, lat r)) rows)
      then (date_str <- first (re_findall_digits 8 file_) ;;
            date <- pd_Timestamp (iso_of date_str) ;;
            OK (expand_dims g date))
      else Err ValueError.
Proof.
  intros Hne Hacc. rewrite Forall_forall in Hacc.
  assert (Hread : exists df, read_csv rows = OK df).
  { destruct (mapM_exists (read_column rows) egg_columns) as [cols Hcols].
    - intros n Hn. unfold read_column.
      destruct (mapM_exists (fun r => read_cell (dict_get types n) (field n r)) rows)
        as [vs Hvs].
      + intros r Hr. apply read_cell_accepted; auto.
      + rewrite Hvs. cbn [bind]. eauto.
    - destruct rows; [congruence|]. unfold read_csv. fold egg_columns.
      rewrite Hcols. cbn [bind]. eauto. }
  destruct Hread as [df Hread].
  destruct (read_csv_inv _ _ Hread) as (_ & Hix & _ & Hcols).
  assert (Hall : all_present df).
  { intros m Hm. destruct (Hcols m Hm) as (ws & Hws & _). eauto. }
  destruct (Hcols "CT") as (vs & Hvs & Hread_ct); [cbn; auto|].
  destruct (for_each_apply_column _strip_plus ["CT"; "CA"]
              (NoDup_strings ["CT"; "CA"] eq_refl) df) as (df0 & Hrun0 & _).
  { intros m Hm. apply Hall. revert m Hm. apply (incl_egg ["CT"; "CA"] eq_refl). }
  destruct (stage_column _strip_plus ["CT"; "CA"] df df0
              (NoDup_strings ["CT"; "CA"] eq_refl)
              (incl_egg ["CT"; "CA"] eq_refl) Hall Hrun0) as (Hix0 & Hall0 & Hcol0).
  destruct (for_each_apply_column _strip_dots ["SA"; "SB"; "SC"]
              (NoDup_strings ["SA"; "SB"; "SC"] eq_refl) df0) as (df1 & Hrun1 & _).
  { intros m Hm. apply Hall0. revert m Hm.
    apply (incl_egg ["SA"; "SB"; "SC"] eq_refl). }
  destruct (stage_column _strip_dots ["SA"; "SB"; "SC"] df0 df1
              (NoDup_strings ["SA"; "SB"; "SC"] eq_refl)
              (incl_egg ["SA"; "SB"; "SC"] eq_refl) Hall0 Hrun1) as (Hix1 & Hall1 & Hcol1).
  assert (Hct : getitem df1 "CT" = OK (map _strip_plus vs)).
  { erewrite Hcol1; [|erewrite Hcol0; [reflexivity | exact Hvs]]. reflexivity. }
  destruct (mapM_exists _num_flags (map _strip_plus vs)) as [flags Hflags].
  { intros x Hx. apply in_map_iff in Hx. destruct Hx as (v & <- & Hv).
    destruct (In_nth_error _ _ Hv) as [k Hk].
    assert (Hrow : exists r, nth_error rows k = Some r
                             /\ read_cell (Some str) (CT r) = OK v).
    { clear - Hread_ct Hk. revert k Hk.
      induction Hread_ct as [|r v0 rs vs0 Hrv _ IH]; intros k Hk.
      - destruct k; discriminate.
      - destruct k as [|k]; simpl in Hk.
        + injection Hk as ->. exists r. split; [reflexivity | exact Hrv].
        + destruct (IH k Hk) as (r' & Hr' & Hv'). exists r'. auto. }
    destruct Hrow as (r & Hr & Hrv). apply nth_error_In in Hr.
    destruct (Hacc r Hr) as [Hcode _].
    destruct (code_flag_defined _ Hcode) as [Hna Hf].
    unfold read_cell in Hrv. rewrite Hna in Hrv. injection Hrv as <-. exact Hf. }
  assert (Hall1' : all_present (setitem df1 "flag" flags)).
  { intros m Hm. destruct (Hall1 m Hm) as [ws Hws]. exists ws.
    rewrite getitem_setitem_other; [assumption|].
    intros <-. cbn in Hm. intuition discriminate. }
  destruct (for_each_apply_column to_numeric_coerce egg_columns
              egg_columns_NoDup (setitem df1 "flag" flags) Hall1')
    as (df2 & Hrun2 & Hix2 & _ & Hout2).
  assert (Hidx : index df2 = map (fun r => (lon r, lat r)) rows).
  { rewrite Hix2. cbn [setitem index]. rewrite Hix1, Hix0. exact Hix. }
  assert (Hf2 : getitem df2 "flag" = OK flags).
  { rewrite Hout2; [apply getitem_setitem_same|]. cbn. intuition discriminate. }
  apply getitem_OK in Hf2.
  unfold dex2ds. rewrite Hread. cbn [bind]. rewrite Hrun0. cbn [bind].
  rewrite Hrun1. cbn [bind]. rewrite Hct. cbn [bind]. rewrite Hflags. cbn [bind].
  fold egg_columns. rewrite Hrun2. cbn [bind].
  unfold to_xarray. rewrite Hidx.
  destruct (is_unique (map (fun r => (lon r, lat r)) rows)).
  - cbn [bind]. unfold grid_getitem. cbn [g_vars].
    rewrite dict_get_map, Hf2. cbn [option_map bind]. eexists. reflexivity.
  - exists {| g_lon := []; g_lat := []; g_vars := [] |}. reflexivity.
Qed.


(** C5. In a dataset the conversion returns, the single time coordinate
    is the date written by the leftmost run of eight digits of the file
    name, read as year, month and day; a file name without eight digits
    in a row makes the conversion abort; and rows that convert under one
    name convert under every name that holds a date. *)
Theorem time_coordinate_from_file_name (file_ : string) (rows : list dex_row) :
  (forall ds,
     dex2ds file_ rows = OK ds ->
     exists a d b date,
       file_ = (a ++ d ++ b)%string
       /\ String.length d = 8%nat /\ PyStr.all_digits d = true
       /\ (forall a' d' b',
             file_ = (a' ++ d' ++ b')%string -> String.length d' = 8%nat ->
             PyStr.all_digits d' = true ->
             (String.length a <= String.length a')%nat)
       /\ pd_Timestamp (iso_of d) = OK date
       /\ date = {| year := PyStr.digits_val 0 (PyStr.take 4 d);
                    month := PyStr.digits_val 0 (PyStr.slice 4 6 d);
                    day := PyStr.digits_val 0 (PyStr.drop 6 d) |}
       /\ ds_time ds = [date])
  /\ ((forall a d b,
         file_ = (a ++ d ++ b)%string -> String.length d = 8%nat ->
         PyStr.all_digits d = false) ->
      (exists e, dex2ds file_ rows = Err e)
      /\ (forall file' ds', dex2ds file' rows = OK ds' ->
                            dex2ds file_ rows = Err IndexError))
  /\ (forall file' ds' d rest date,
        dex2ds file' rows = OK ds' ->
        re_findall_digits 8 file_ = d :: rest ->
        pd_Timestamp (iso_of d) = OK date ->
        exists ds, dex2ds file_ rows = OK ds /\ ds_time ds = [date]).
Proof.
  split; [|split].
  - intros ds H.
    destruct (dex2ds_inv _ _ _ H) as (_ & _ & _ & _ & Hdate & _).
    destruct Hdate as (d & rest & date & Hfind & Hts & Htime).
    destruct (DateFacts.findall_first _ _ _ _ Hfind) as (a & b & Hs & Hlen & Hdig & Hleft).
    exists a, d, b, date. repeat split; auto.
    apply DateFacts.timestamp_fields; assumption.
  - intros Hno.
    assert (Hnil : re_findall_digits 8 file_ = []).
    { unfold re_findall_digits. destruct (findall_from 8 0 file_) as [|d rest] eqn:E; [reflexivity|].
      destruct (DateFacts.findall_first _ _ _ _ E) as (a & b & Hs & Hlen & Hdig & _).
      rewrite (Hno a d b Hs Hlen) in Hdig. discriminate. }
    split.
    + destruct (dex2ds file_ rows) as [ds|e] eqn:E; [|eauto].
      destruct (dex2ds_inv _ _ _ E) as (_ & _ & _ & _ & Hdate & _).
      destruct Hdate as (d & rest & date & Hfind & _). congruence.
    + intros file' ds' H'. rewrite (dex2ds_file_name _ _ _ _ H'), Hnil. reflexivity.
  - intros file' ds' d rest date H' Hfind Hdate.
    rewrite (dex2ds_file_name _ _ _ _ H'), Hfind. cbn [first bind].
    rewrite Hdate. cbn [bind]. eexists. split; reflexivity.
Qed.

Lemma no_digit_run_GEC_H (a d b : string) :
  "GEC_H.dex"%string = (a ++ d ++ b)%string -> String.length d = 8%nat ->
  PyStr.all_digits d = false.
Proof.
  intros Hs Hlen. destruct (PyStr.all_digits d) eqn:E; [|reflexivity].
  exfalso. apply (DateFacts.findall_complete 8 a d b); [lia | assumption | assumption |].
  rewrite <- Hs. reflexivity.
Qed.

Lemma time_coordinate_from_file_name_witness :
  (exists a d b date,
     sample_file = (a ++ d ++ b)%string
     /\ String.length d = 8%nat /\ PyStr.all_digits d = true
     /\ (forall a' d' b',
           sample_file = (a' ++ d' ++ b')%string -> String.length d' = 8%nat ->
           PyStr.all_digits d' = true ->
           (String.length a <= String.length a')%nat)
     /\ pd_Timestamp (iso_of d) = OK date
     /\ date = {| year := PyStr.digits_val 0 (PyStr.take 4 d);
                  month := PyStr.digits_val 0 (PyStr.slice 4 6 d);
                  day := PyStr.digits_val 0 (PyStr.drop 6 d) |}
     /\ ds_time sparse_ds = [date])
  /\ dex2ds "GEC_H.dex" sparse_rows = Err IndexError.
Proof.
  split.
  - apply (proj1 (time_coordinate_from_file_name sample_file sparse_rows) sparse_ds).
    vm_compute. reflexivity.
  - apply (proj2 (proj1 (proj2 (time_coordinate_from_file_name "GEC_H.dex" sparse_rows))
                    no_digit_run_GEC_H) sample_file sparse_ds).
    vm_compute. reflexivity.
Defined.

(** ** The numeric conversion *)



(** ** Aborts of the conversion *)


Lemma num_flags_err (x : value) (e : exn) : _num_flags x = Err e -> e = KeyError.
Proof.
  destruct x as [s|q|]; unfold _num_flags; try congruence.
  destruct (dict_get conv s); [discriminate | congruence].
Qed.

Lemma dex2ds_read_abort (file_ : string) (rows : list dex_row) (e : exn) :
  read_csv rows = Err e -> dex2ds file_ rows = Err e.
Proof. intros H. unfold dex2ds. rewrite H. reflexivity. Qed.


(** A CT cell the lookup refuses makes the conversion abort, with
    [KeyError] when the read went through. *)
Lemma dex2ds_lookup_abort (file_ : string) (rows : list dex_row) (r : dex_row) :
  In r rows ->
  (forall v, read_cell (Some str) (CT r) = OK v ->
             _num_flags (_strip_plus v) = Err KeyError) ->
  (exists e, dex2ds file_ rows = Err e)
  /\ (forall df, read_csv rows = OK df -> dex2ds file_ rows = Err KeyError).
Proof.
  intros Hr Hbad.
  assert (Hmain : forall df, read_csv rows = OK df -> dex2ds file_ rows = Err KeyError).
  { intros df Hread.
    destruct (read_csv_inv _ _ Hread) as (_ & _ & _ & Hcols).
    assert (Hall : all_present df).
    { intros m Hm. destruct (Hcols m Hm) as (ws & Hws & _). eauto. }
    destruct (Hcols "CT") as (vs & Hvs & Hread_ct); [cbn; auto|].
    destruct (for_each_apply_column _strip_plus ["CT"; "CA"]
                (NoDup_strings ["CT"; "CA"] eq_refl) df) as (df0 & Hrun0 & _).
    { intros m Hm. apply Hall. revert m Hm. apply (incl_egg ["CT"; "CA"] eq_refl). }
    destruct (stage_column _strip_plus ["CT"; "CA"] df df0
                (NoDup_strings ["CT"; "CA"] eq_refl)
                (incl_egg ["CT"; "CA"] eq_refl) Hall Hrun0) as (_ & Hall0 & Hcol0).
    destruct (for_each_apply_column _strip_dots ["SA"; "SB"; "SC"]
                (NoDup_strings ["SA"; "SB"; "SC"] eq_refl) df0) as (df1 & Hrun1 & _).
    { intros m Hm. apply Hall0. revert m Hm.
      apply (incl_egg ["SA"; "SB"; "SC"] eq_refl). }
    destruct (stage_column _strip_dots ["SA"; "SB"; "SC"] df0 df1
                (NoDup_strings ["SA"; "SB"; "SC"] eq_refl)
                (incl_egg ["SA"; "SB"; "SC"] eq_refl) Hall0 Hrun1) as (_ & _ & Hcol1).
    assert (Hct : getitem df1 "CT" = OK (map _strip_plus vs)).
    { erewrite Hcol1; [|erewrite Hcol0; [reflexivity | exact Hvs]]. reflexivity. }
    unfold dex2ds. rewrite Hread. cbn [bind]. rewrite Hrun0. cbn [bind].
    rewrite Hrun1. cbn [bind]. rewrite Hct. cbn [bind].
    apply bind_Err.
    destruct (In_nth_error _ _ Hr) as [k Hk].
    destruct (Forall2_nth_error_l _ _ _ _ _ Hread_ct Hk) as (v & Hv & Hrv).
    apply (mapM_Err _ _ (_strip_plus v)).
    - apply in_map. eapply nth_error_In, Hv.
    - apply Hbad. exact Hrv.
    - intros a e _ He. eapply num_flags_err, He. }
  split; [|exact Hmain].
  destruct (read_csv rows) as [df|e] eqn:E.
  - exists KeyError. eapply Hmain. reflexivity.
  - exists e. apply dex2ds_read_abort, E.
Qed.

(** C9. A CT cell that holds the null sentinel is read as a missing
    value, which the plus substitution returns as it is and the lookup
    refuses: the conversion of the file aborts and no flag 2 comes out. *)
Theorem null_CT_aborts :
  read_cell (dict_get types "CT") "X" = OK NaN
  /\ (forall x, (forall s, x <> Str s) -> _strip_plus x = x)
  /\ _num_flags NaN = Err KeyError
  /\ (forall file_ rows,
        (exists r, In r rows /\ CT r = "X"%string) ->
        (exists e, dex2ds file_ rows = Err e)
        /\ (forall df, read_csv rows = OK df -> dex2ds file_ rows = Err KeyError)).
Proof.
  split; [reflexivity|]. split; [|split; [reflexivity|]].
  - intros [s| |] H; [destruct (H s eq_refl) | reflexivity | reflexivity].
  - intros file_ rows (r & Hr & Hx). apply (dex2ds_lookup_abort file_ rows r Hr).
    intros v Hv. rewrite Hx in Hv. cbn in Hv. injection Hv as <-. reflexivity.
Qed.

Lemma null_CT_aborts_witness :
  _strip_plus NaN = NaN
  /\ (exists e,
        dex2ds sample_file
          [row_plus; mk_row (-59) 48 "X" "X" "X" "X" "X" "X" "X" "X" "X" "X"]
        = Err e).
Proof.
  split.
  - apply (proj1 (proj2 null_CT_aborts)). intros s. discriminate.
  - apply (proj2 (proj2 (proj2 null_CT_aborts))).
    eexists. split; [right; left; reflexivity | reflexivity].
Defined.

(** ** Dot codes *)

Lemma digit_cases (d : ascii) :
  PyStr.is_digit d = true ->
  In d ["0"; "1"; "2"; "3"; "4"; "5"; "6"; "7"; "8"; "9"]%char.
Proof.
  destruct d as [[] [] [] [] [] [] [] []]; intros H;
    try discriminate H; simpl; tauto.
Qed.

(** An embedded-dot code as a string: one pass of the substitution gives
    the digit followed by a zero, a second pass changes nothing, and the
    result is read as ten times the digit; read as a float literal the
    code itself is the digit. *)
Lemma dot_code_facts (d : ascii) :
  PyStr.is_digit d = true ->
  _strip_dots (Str (String d ".")) = Str (String d "0")
  /\ _strip_dots (Str (String d "0")) = Str (String d "0")
  /\ str_to_float (String d "0") = Some (inject_Z (10 * PyStr.digit_val d))
  /\ is_na (String d ".") = false
  /\ str_to_float (String d ".") = Some (inject_Z (PyStr.digit_val d)).
Proof.
  intros H. apply digit_cases in H.
  repeat (destruct H as [<-|H]; [repeat split|]). destruct H.
Qed.

(** The dataset at the point of a row with a dot code: the digit for SC,
    ten times the digit for SA and SB. *)
Lemma dot_code_sel (file_ : string) (rows : list dex_row) (ds : Dataset)
      (r : dex_row) (d : ascii) :
  dex2ds file_ rows = OK ds -> In r rows -> PyStr.is_digit d = true ->
  (SC r = String d "." ->
   sel ds "SC" (lon r) (lat r) = Some (Num (inject_Z (PyStr.digit_val d))))
  /\ (SA r = String d "." ->
      sel ds "SA" (lon r) (lat r)
      = Some (Num (inject_Z (10 * PyStr.digit_val d))))
  /\ (SB r = String d "." ->
      sel ds "SB" (lon r) (lat r)
      = Some (Num (inject_Z (10 * PyStr.digit_val d)))).
Proof.
  intros H Hr Hd.
  destruct (dot_code_facts d Hd) as (Hsub & _ & Hten & Hna & Hparse).
  split; [|split]; intros Hcode.
  + destruct (dex2ds_sel _ _ _ "SC" r H) as (v & Hv & Hsel); [cbn; tauto | assumption |].
    change (field "SC" r) with (SC r) in Hv.
    change (dict_get types "SC") with (Some float) in Hv.
    rewrite Hcode in Hv. unfold read_cell in Hv.
    rewrite Hna, Hparse in Hv. injection Hv as <-. exact Hsel.
  + destruct (dex2ds_sel _ _ _ "SA" r H) as (v & Hv & Hsel); [cbn; tauto | assumption |].
    change (field "SA" r) with (SA r) in Hv.
    change (dict_get types "SA") with (Some str) in Hv.
    rewrite Hcode in Hv. unfold read_cell in Hv.
    rewrite Hna in Hv. injection Hv as <-. rewrite Hsel.
    change (substitution "SA" (Str (String d "."))) with (_strip_dots (Str (String d "."))).
    rewrite Hsub. unfold to_numeric_coerce. rewrite Hten. reflexivity.
  + destruct (dex2ds_sel _ _ _ "SB" r H) as (v & Hv & Hsel); [cbn; tauto | assumption |].
    change (field "SB" r) with (SB r) in Hv.
    change (dict_get types "SB") with (Some str) in Hv.
    rewrite Hcode in Hv. unfold read_cell in Hv.
    rewrite Hna in Hv. injection Hv as <-. rewrite Hsel.
    change (substitution "SB" (Str (String d "."))) with (_strip_dots (Str (String d "."))).
    rewrite Hsub. unfold to_numeric_coerce. rewrite Hten. reflexivity.
Qed.



(** C2. A dot code in the column SC is not rewritten: in the sample file
    the row with the stage code ["4."] in both SA and SC comes out with
    40 for SA and with 4 for SC. *)
Theorem dot_code_in_SC_not_rewritten :
  dex2ds sample_file sparse_rows = OK sparse_ds
  /\ In row_dot sparse_rows
  /\ SA row_dot = "4."%string /\ SC row_dot = "4."%string
  /\ sel sparse_ds "SA" (lon row_dot) (lat row_dot) = Some (Num 40)
  /\ sel sparse_ds "SC" (lon row_dot) (lat row_dot) = Some (Num 4)
  /\ _strip_dots (Str "4.") = Str "40"
  /\ _strip_dots (Num 4) = Num 4.
Proof.
  repeat split; try (vm_compute; reflexivity). simpl. tauto.
Qed.

(** ** The lookup of flags *)

Lemma replace_empty_inv (s : string) :
  PyStr.replace "9+" "9.9" s = ""%string -> s = ""%string.
Proof.
  intros H. unfold PyStr.replace in H.
  destruct (ReplaceFacts.replace_from_length "9+" "9.9" s) with (k := 0%nat)
    as [Hlen|Hemp]; [simpl; lia | | discriminate].
  rewrite H in Hlen. destruct s; [reflexivity | simpl in Hlen; lia].
Qed.

(** The plus substitution brings no string from outside the dictionary
    into it. *)
Lemma strip_plus_code_inv (s : string) :
  In (PyStr.replace "9+" "9.9" s) (map fst conv) -> In s (map fst conv).
Proof.
  intros H. destruct (PyStr.contains "9+" s) eqn:E.
  - destruct (ReplaceFacts.contains_plus_split s E) as (a & b & -> & Ha).
    rewrite ReplaceFacts.replace_plus_first in H by assumption.
    assert (Hc : PyStr.contains "9.9" (a ++ "9.9" ++ PyStr.replace "9+" "9.9" b)%string = true)
      by apply PyStrFacts.contains_occurrence.
    cbn [map fst conv] in H.
    repeat (destruct H as [H|H];
            [try (rewrite <- H in Hc; discriminate Hc)|]); [|destruct H].
    destruct a as [|c a].
    + cbn [append] in H. injection H as H.
      symmetry in H. apply replace_empty_inv in H. subst b. simpl. tauto.
    + exfalso. assert (Hl := f_equal String.length H).
      rewrite PyStrFacts.length_append in Hl. simpl in Hl. lia.
  - unfold PyStr.replace in H. rewrite ReplaceFacts.replace_no_match in H; assumption.
Qed.

Lemma num_flags_outside (x : value) :
  (forall s, x = Str s -> ~ In s (map fst conv)) -> _num_flags x = Err KeyError.
Proof.
  intros H. destruct x as [s|q|]; try reflexivity. unfold _num_flags.
  destruct (dict_get conv s) as [f|] eqn:E; [|reflexivity].
  exfalso. apply (H s eq_refl). apply dict_get_In in E.
  apply in_map_iff. exists (s, f). auto.
Qed.

Lemma conv_keys_NoDup : NoDup (map fst conv).
Proof. apply NoDup_strings. reflexivity. Qed.

Lemma num_flags_defined (s : string) :
  In s (map fst conv) <-> exists f, _num_flags (Str s) = OK f.
Proof.
  split.
  - intros H. apply in_map_iff in H. destruct H as ([k z] & <- & H).
    apply In_dict_get in H. destruct H as [z' Hz]. unfold _num_flags.
    cbn [fst]. rewrite Hz. eauto.
  - intros [f Hf]. destruct (in_dec string_dec s (map fst conv)) as [Hin|Hout]; [exact Hin|].
    rewrite num_flags_outside in Hf; [discriminate|].
    intros s' [= <-]. exact Hout.
Qed.

(** C1, as it is written, counts fourteen codes; no list of fourteen
    strings is the domain of the lookup. *)
Lemma num_flags_domain_not_fourteen :
  ~ exists codes : list string,
      List.length codes = 14%nat
      /\ forall s, In s codes <-> exists f, _num_flags (Str s) = OK f.
Proof.
  intros (codes & Hlen & Hdom).
  assert (Hincl : incl (map fst conv) codes).
  { intros s Hs. apply Hdom, num_flags_defined, Hs. }
  pose proof (NoDup_incl_length conv_keys_NoDup Hincl) as Hle.
  rewrite Hlen in Hle. simpl in Hle. lia.
Qed.

(** C1. The lookup returns a flag for exactly the fifteen codes IF,
    missing, Fast-ice, 1 to 9, 9+, 9.9 and 10: 1 for IF, 2 for missing,
    3 for Fast-ice and 0 for the others; on any other value it raises
    [KeyError], and a file with a CT cell outside the codes is not
    converted. *)
Theorem num_flags_domain :
  map fst conv
  = ["IF"; "missing"; "Fast-ice"; "1"; "2"; "3"; "4"; "5"; "6"; "7"; "8"; "9";
     "9+"; "9.9"; "10"]%string
  /\ List.length (map fst conv) = 15%nat
  /\ NoDup (map fst conv)
  /\ _num_flags (Str "IF") = OK (Num 1)
  /\ _num_flags (Str "missing") = OK (Num 2)
  /\ _num_flags (Str "Fast-ice") = OK (Num 3)
  /\ (forall s,
        In s ["1"; "2"; "3"; "4"; "5"; "6"; "7"; "8"; "9"; "9+"; "9.9"; "10"]%string ->
        _num_flags (Str s) = OK (Num 0))
  /\ (forall s, In s (map fst conv) <-> exists f, _num_flags (Str s) = OK f)
  /\ (forall x, (forall s, x = Str s -> ~ In s (map fst conv)) ->
                _num_flags x = Err KeyError)
  /\ (forall file_ rows r,
        In r rows -> ~ In (CT r) (map fst conv) ->
        (exists e, dex2ds file_ rows = Err e)
        /\ (forall df, read_csv rows = OK df -> dex2ds file_ rows = Err KeyError)).
Proof.
  split; [reflexivity|]. split; [reflexivity|]. split; [exact conv_keys_NoDup|].
  split; [reflexivity|]. split; [reflexivity|]. split; [reflexivity|].
  split; [|split; [exact num_flags_defined|split; [exact num_flags_outside|]]].
  - intros s H. repeat (destruct H as [<-|H]; [reflexivity|]). destruct H.
  - intros file_ rows r Hr Hout. apply (dex2ds_lookup_abort file_ rows r Hr).
    intros v Hv. apply num_flags_outside. intros s Hs.
    unfold read_cell in Hv. destruct (is_na (CT r)).
    + injection Hv as <-. discriminate Hs.
    + injection Hv as <-. simpl in Hs. injection Hs as <-.
      intros Hin. apply Hout, strip_plus_code_inv, Hin.
Qed.

Lemma num_flags_domain_witness :
  _num_flags (Str "9.9") = OK (Num 0)
  /\ _num_flags (Str "garbled") = Err KeyError
  /\ (exists e,
        dex2ds sample_file
          [row_plus; mk_row (-59) 48 "9++" "X" "X" "X" "X" "X" "X" "X" "X" "X"]
        = Err e).
Proof.
  pose proof num_flags_domain as (_ & _ & _ & _ & _ & _ & Hice & _ & Hout & Habort).
  split; [|split].
  - apply Hice. simpl. tauto.
  - apply Hout. intros s [= <-]. simpl. intuition discriminate.
  - apply (Habort sample_file _
             (mk_row (-59) 48 "9++" "X" "X" "X" "X" "X" "X" "X" "X" "X")).
    + simpl. tauto.
    + simpl. intuition discriminate.
Defined.

(** ** Three rows on one line of the grid *)

Lemma levels_same (a : Q) (xs : list Q) :
  xs <> [] -> Forall (fun x => x == a) xs ->
  exists a', levels xs = [a'] /\ a' == a.
Proof.
  induction xs as [|x xs IH]; intros Hne Hall; [congruence|].
  inversion Hall as [|? ? Hx Hxs]; subst. cbn [levels fold_right].
  destruct xs as [|x' xs].
  - exists x. split; [reflexivity | exact Hx].
  - destruct IH as (a' & Hl & Ha'); [discriminate | exact Hxs|].
    fold (levels (x' :: xs)). rewrite Hl. cbn [insert_level].
    assert (E : Qcompare x a' = Eq).
    { apply Qeq_alt. rewrite Hx, Ha'. reflexivity. }
    rewrite E. exists a'. auto.
Qed.

Lemma levels_three_distinct (a b c : Q) :
  ~ a == b -> ~ a == c -> ~ b == c -> List.length (levels [a; b; c]) = 3%nat.
Proof.
  intros Hab Hac Hbc. cbn [levels fold_right insert_level].
  destruct (Qcompare b c) eqn:Ebc;
    [apply Qeq_alt in Ebc; contradiction | |]; cbn [insert_level].
  - destruct (Qcompare a b) eqn:Eab;
      [apply Qeq_alt in Eab; contradiction | reflexivity |].
    cbn [insert_level].
    destruct (Qcompare a c) eqn:Eac;
      [apply Qeq_alt in Eac; contradiction | reflexivity | reflexivity].
  - destruct (Qcompare a c) eqn:Eac;
      [apply Qeq_alt in Eac; contradiction | reflexivity |].
    cbn [insert_level].
    destruct (Qcompare a b) eqn:Eab;
      [apply Qeq_alt in Eab; contradiction | reflexivity | reflexivity].
Qed.

Lemma coord_distinct_lon (x1 y1 x2 y2 : Q) :
  coord_eqb (x1, y1) (x2, y2) = false -> y1 == y2 -> ~ x1 == x2.
Proof.
  unfold coord_eqb. cbn [fst snd]. intros H Hy Hx.
  apply Qeq_bool_iff in Hx, Hy. rewrite Hx, Hy in H. discriminate.
Qed.

Lemma coord_distinct_lat (x1 y1 x2 y2 : Q) :
  coord_eqb (x1, y1) (x2, y2) = false -> x1 == x2 -> ~ y1 == y2.
Proof.
  unfold coord_eqb. cbn [fst snd]. intros H Hx Hy.
  apply Qeq_bool_iff in Hx, Hy. rewrite Hx, Hy in H. discriminate.
Qed.

Lemma unique_three (p1 p2 p3 : Q * Q) :
  is_unique [p1; p2; p3] = true ->
  coord_eqb p1 p2 = false /\ coord_eqb p1 p3 = false /\ coord_eqb p2 p3 = false.
Proof.
  cbn [is_unique existsb]. intros Hu.
  apply andb_true_iff in Hu. destruct Hu as [Hu1 Hu2].
  apply andb_true_iff in Hu2. destruct Hu2 as [Hu2 _].
  apply negb_true_iff in Hu1, Hu2.
  apply orb_false_iff in Hu1. destruct Hu1 as [U12 U13].
  apply orb_false_iff in U13. destruct U13 as [U13 _].
  apply orb_false_iff in Hu2. destruct Hu2 as [U23 _]. auto.
Qed.

Lemma levels_three_same (a b c : Q) :
  a == b -> b == c -> List.length (levels [a; b; c]) = 1%nat.
Proof.
  intros Hab Hbc.
  destruct (levels_same c [a; b; c]) as (a' & -> & _); [discriminate | | reflexivity].
  constructor; [rewrite Hab; exact Hbc|].
  constructor; [exact Hbc|]. constructor; [reflexivity | constructor].
Qed.

Lemma ice_code_flag (s : string) :
  In s ice_codes -> _num_flags (_strip_plus (Str s)) = OK (Num 0).
Proof.
  intros H. unfold ice_codes in H.
  repeat (destruct H as [<-|H]; [reflexivity|]). destruct H.
Qed.

Lemma ice_code_not_na (s : string) : In s ice_codes -> is_na s = false.
Proof.
  intros H. unfold ice_codes in H.
  repeat (destruct H as [<-|H]; [reflexivity|]). destruct H.
Qed.

(** C6. Three rows on one line of the grid, the first and the second
    with an ice code in CT and the third with ["missing"]: the dataset is
    a grid of three points; a ["9+"] in CT or CA of the first row comes
    out as 9.9, a dot code in SA or SB of the second row as ten times its
    digit, and the flags of the three rows are 0, 0 and 2. *)
Theorem end_to_end_three_rows (file_ : string) (r1 r2 r3 : dex_row) (d : ascii)
        (ds : Dataset) :
  dex2ds file_ [r1; r2; r3] = OK ds ->
  on_one_line r1 r2 r3 ->
  In (CT r1) ice_codes -> In (CT r2) ice_codes -> CT r3 = "missing"%string ->
  PyStr.is_digit d = true ->
  (List.length (ds_lon ds) * List.length (ds_lat ds) = 3)%nat
  /\ (CT r1 = "9+"%string -> sel ds "CT" (lon r1) (lat r1) = Some (Num 9.9))
  /\ (CA r1 = "9+"%string -> sel ds "CA" (lon r1) (lat r1) = Some (Num 9.9))
  /\ (SA r2 = String d "." ->
      sel ds "SA" (lon r2) (lat r2) = Some (Num (inject_Z (10 * PyStr.digit_val d))))
  /\ (SB r2 = String d "." ->
      sel ds "SB" (lon r2) (lat r2) = Some (Num (inject_Z (10 * PyStr.digit_val d))))
  /\ sel ds "flag" (lon r1) (lat r1) = Some (Num 0)
  /\ sel ds "flag" (lon r2) (lat r2) = Some (Num 0)
  /\ sel ds "flag" (lon r3) (lat r3) = Some (Num 2).
Proof.
  intros H Hline Hc1 Hc2 Hc3 Hd.
  destruct (dex2ds_inv _ _ _ H) as (_ & Hu & Hlon & Hlat & _ & _ & _).
  assert (In1 : In r1 [r1; r2; r3]) by (simpl; tauto).
  assert (In2 : In r2 [r1; r2; r3]) by (simpl; tauto).
  assert (In3 : In r3 [r1; r2; r3]) by (simpl; tauto).
  assert (Hflag : forall r f, In r [r1; r2; r3] -> is_na (CT r) = false ->
                    _num_flags (_strip_plus (Str (CT r))) = OK f ->
                    sel ds "flag" (lon r) (lat r) = Some f).
  { intros r f Hr Hna Hf.
    destruct (dex2ds_sel_flag _ _ _ r H Hr) as (v & f' & Hv & Hf' & Hsel).
    unfold read_cell in Hv. rewrite Hna in Hv. injection Hv as <-. congruence. }
  assert (Hplus : forall n, In n ["CT"; "CA"] -> field n r1 = "9+"%string ->
                    sel ds n (lon r1) (lat r1) = Some (Num 9.9)).
  { intros n Hn Hcode.
    destruct (dex2ds_sel _ _ _ n r1 H) as (v & Hv & Hsel);
      [destruct Hn as [<-|[<-|[]]]; cbn; tauto | assumption |].
    rewrite Hcode in Hv. rewrite Hsel.
    destruct Hn as [<-|[<-|[]]]; cbn in Hv; injection Hv as <-; reflexivity. }
  assert (Hdot : forall n, In n ["SA"; "SB"] -> field n r2 = String d "." ->
                   sel ds n (lon r2) (lat r2)
                   = Some (Num (inject_Z (10 * PyStr.digit_val d)))).
  { intros n Hn Hcode.
    pose proof (dot_code_sel _ _ _ r2 d H In2 Hd) as (_ & Ha & Hb).
    destruct Hn as [<-|[<-|[]]]; [apply Ha | apply Hb]; exact Hcode. }
  split.
  - rewrite Hlon, Hlat. cbn [map fst snd].
    apply unique_three in Hu. destruct Hu as (U12 & U13 & U23).
    destruct Hline as [[H12 H23]|[H12 H23]].
    + rewrite levels_three_distinct, levels_three_same; auto.
      * eapply coord_distinct_lon; eassumption.
      * eapply coord_distinct_lon; [eassumption|]. rewrite H12. exact H23.
      * eapply coord_distinct_lon; eassumption.
    + rewrite levels_three_same, levels_three_distinct; auto.
      * eapply coord_distinct_lat; eassumption.
      * eapply coord_distinct_lat; [eassumption|]. rewrite H12. exact H23.
      * eapply coord_distinct_lat; eassumption.
  - split; [apply (Hplus "CT"); simpl; tauto|].
    split; [apply (Hplus "CA"); simpl; tauto|].
    split; [apply (Hdot "SA"); simpl; tauto|].
    split; [apply (Hdot "SB"); simpl; tauto|].
    split; [|split].
    + apply Hflag; [assumption | apply ice_code_not_na, Hc1 | apply ice_code_flag, Hc1].
    + apply Hflag; [assumption | apply ice_code_not_na, Hc2 | apply ice_code_flag, Hc2].
    + apply Hflag; [assumption | rewrite Hc3; reflexivity | rewrite Hc3; reflexivity].
Qed.

(** The whole dataset of the three sample rows. *)
Example three_rows_dataset :
  dex2ds sample_file three_rows
  = OK {| ds_time := [{| year := 2019; month := 3; day := 25 |}];
          ds_lon := [-60; -59.5; -59];
          ds_lat := [48];
          data_vars :=
            [("CT", [[[Num 9.9]; [Num 8]; [NaN]]]);
             ("CA", [[[Num 9.9]; [Num 6]; [NaN]]]);
             ("SA", [[[Num 6]; [Num 40]; [NaN]]]);
             ("FA", [[[Num 5]; [Num 5]; [NaN]]]);
             ("CB", [[[NaN]; [Num 2]; [NaN]]]);
             ("SB", [[[NaN]; [Num 10]; [NaN]]]);
             ("FB", [[[NaN]; [Num 4]; [NaN]]]);
             ("CC", [[[NaN]; [Num 1]; [NaN]]]);
             ("SC", [[[NaN]; [Num 4]; [NaN]]]);
             ("FC", [[[NaN]; [Num 3]; [NaN]]]);
             ("flag", [[[Num 0]; [Num 0]; [Num 2]]])] |}.
Proof. vm_compute. reflexivity. Qed.

Lemma end_to_end_three_rows_witness :
  (List.length (ds_lon three_ds) * List.length (ds_lat three_ds) = 3)%nat
  /\ (CT row_plus = "9+"%string ->
      sel three_ds "CT" (lon row_plus) (lat row_plus) = Some (Num 9.9))
  /\ (CA row_plus = "9+"%string ->
      sel three_ds "CA" (lon row_plus) (lat row_plus) = Some (Num 9.9))
  /\ (SA row_dot = "4."%string ->
      sel three_ds "SA" (lon row_dot) (lat row_dot)
      = Some (Num (inject_Z (10 * PyStr.digit_val "4"))))
  /\ (SB row_dot = "4."%string ->
      sel three_ds "SB" (lon row_dot) (lat row_dot)
      = Some (Num (inject_Z (10 * PyStr.digit_val "4"))))
  /\ sel three_ds "flag" (lon row_plus) (lat row_plus) = Some (Num 0)
  /\ sel three_ds "flag" (lon row_dot) (lat row_dot) = Some (Num 0)
  /\ sel three_ds "flag" (lon row_missing) (lat row_missing) = Some (Num 2).
Proof.
  apply (end_to_end_three_rows sample_file row_plus row_dot row_missing "4").
  - vm_compute. reflexivity.
  - left. split; reflexivity.
  - simpl. tauto.
  - simpl. tauto.
  - reflexivity.
  - reflexivity.
Defined.

(** C6, as it is written, speaks of every file of three such rows; on a
    diagonal the three rows come out as a grid of nine points, six of
    them with the land flag. *)
Lemma three_rows_off_line_grid :
  exists r1 r2 r3,
    diagonal_rows = [r1; r2; r3]
    /\ CT r1 = "9+"%string /\ SA r2 = "4."%string /\ CT r3 = "missing"%string
    /\ dex2ds sample_file diagonal_rows = OK diagonal_ds
    /\ (List.length (ds_lon diagonal_ds) * List.length (ds_lat diagonal_ds) = 9)%nat
    /\ isel diagonal_ds "flag" 0 1 = Some (Num 4)
    /\ ~ on_row diagonal_rows (-60) 48.5.
Proof.
  do 3 eexists. split; [reflexivity|].
  repeat split; try (vm_compute; reflexivity).
  intros (r & Hr & Hx & Hy). simpl in Hr.
  destruct Hr as [<-|[<-|[<-|[]]]];
    (vm_compute in Hx; discriminate Hx) || (vm_compute in Hy; discriminate Hy).
Qed.

(** ** The command line driver *)

Example splitext_dex :
  os_path.splitext (os_path.basename "data/GEC_H_20190325.dex")
  = ("GEC_H_20190325", ".dex")%string.
Proof. reflexivity. Qed.

Section Driver.

Variable args : Args.
Variable fs : string -> option (list dex_row).

Lemma main_loop_ok (todo : list string) :
  (forall f, In f todo ->
             exists rows ds, fs f = Some rows /\ dex2ds f rows = OK ds) ->
  forall done,
  exists outs,
    main_loop args fs todo done = (done ++ outs, None)
    /\ Forall2 (written_for args fs) todo outs.
Proof.
  induction todo as [|f todo IH]; intros Hall done.
  - exists []. rewrite app_nil_r. split; [reflexivity | constructor].
  - destruct (Hall f (or_introl eq_refl)) as (rows & ds & Hfs & Hds).
    cbn [main_loop]. unfold open_dex. rewrite Hfs. cbn [bind]. rewrite Hds.
    destruct (IH (fun g Hg => Hall g (or_intror Hg))
                 (done ++ [{| nc_path := outname_of args f; nc_data := ds;
                              nc_encoding :=
                                map (fun v => (fst v, {| zlib := true; complevel := 5 |}))
                                    (data_vars ds) |}]))
      as (outs & Hrun & Houts).
    eexists (_ :: outs). split.
    + rewrite Hrun, <- app_assoc. reflexivity.
    + constructor; [|exact Houts]. repeat split. exists rows. auto.
Qed.

Lemma written_paths (todo : list string) (outs : list nc_write) :
  Forall2 (written_for args fs) todo outs ->
  map nc_path outs = map (outname_of args) todo.
Proof.
  induction 1 as [|f w todo outs (Hp & _) _ IH]; simpl; [reflexivity|].
  rewrite Hp, IH. reflexivity.
Qed.

Lemma written_encodings (todo : list string) (outs : list nc_write) :
  Forall2 (written_for args fs) todo outs ->
  Forall (fun w => Forall (fun ve => zlib (snd ve) = true) (nc_encoding w)
                   /\ map fst (nc_encoding w) = map fst (data_vars (nc_data w)))
         outs.
Proof.
  induction 1 as [|f w todo outs (_ & _ & He) _ IH]; constructor; [|exact IH].
  rewrite He. split.
  - apply Forall_forall. intros ve Hve. apply in_map_iff in Hve.
    destruct Hve as (v & <- & _). reflexivity.
  - rewrite map_map. reflexivity.
Qed.

End Driver.

(** C8. When every input converts, the driver writes one compressed file
    per input, in the order of the inputs, each holding the dataset of
    its input; the name of an output is the stem of the input followed
    by [.nc] when no output name is given or when there is more than one
    input, and the given output name when there is exactly one input. *)
Theorem main_writes_one_file_per_input (args : Args)
        (fs : string -> option (list dex_row)) :
  (forall f, In f (filename args) ->
             exists rows ds, fs f = Some rows /\ dex2ds f rows = OK ds) ->
  (exists outs,
     main args fs = (outs, None)
     /\ List.length outs = List.length (filename args)
     /\ map nc_path outs = map (outname_of args) (filename args)
     /\ Forall2 (written_for args fs) (filename args) outs
     /\ Forall (fun w => Forall (fun ve => zlib (snd ve) = true) (nc_encoding w)
                         /\ map fst (nc_encoding w) = map fst (data_vars (nc_data w)))
               outs)
  /\ (forall f,
        outname args = None \/ (1 < List.length (filename args))%nat ->
        outname_of args f = (stem f ++ ".nc")%string)
  /\ (forall f o,
        outname args = Some o -> List.length (filename args) = 1%nat ->
        outname_of args f = o).
Proof.
  intros Hall. split; [|split].
  - destruct (main_loop_ok args fs (filename args) Hall []) as (outs & Hrun & Houts).
    exists outs. split; [exact Hrun|].
    split; [symmetry; eapply Forall2_length, Houts|]. split; [|split; [exact Houts|]].
    + eapply written_paths, Houts.
    + eapply written_encodings, Houts.
  - intros f H. unfold outname_of, stem. destruct (outname args) as [o|].
    + destruct H as [H|H]; [discriminate|].
      apply Nat.ltb_lt in H. rewrite H. reflexivity.
    + reflexivity.
  - intros f o Ho Hlen. unfold outname_of. rewrite Ho, Hlen. reflexivity.
Qed.

Lemma main_writes_one_file_per_input_witness :
  (exists outs,
     main {| filename := [sample_file; "ice/GEC_H_20190401.dex"%string];
             outname := Some "out.nc"%string |} sample_fs = (outs, None)
     /\ map nc_path outs = ["GEC_H_20190325.nc"; "GEC_H_20190401.nc"]%string)
  /\ (exists outs,
        main {| filename := [sample_file]; outname := Some "out.nc"%string |}
             sample_fs = (outs, None)
        /\ map nc_path outs = ["out.nc"%string]).
Proof.
  split.
  - destruct (main_writes_one_file_per_input
                {| filename := [sample_file; "ice/GEC_H_20190401.dex"%string];
                   outname := Some "out.nc"%string |} sample_fs)
      as ((outs & Hrun & _ & Hpaths & _) & _).
    + intros f [<-|[<-|[]]].
      * exists three_rows, three_ds. split; vm_compute; reflexivity.
      * exists sparse_rows,
          (result_or empty_dataset (dex2ds "ice/GEC_H_20190401.dex" sparse_rows)).
        split; vm_compute; reflexivity.
    + exists outs. split; [exact Hrun | exact Hpaths].
  - destruct (main_writes_one_file_per_input
                {| filename := [sample_file]; outname := Some "out.nc"%string |}
                sample_fs)
      as ((outs & Hrun & _ & Hpaths & _) & _).
    + intros f [<-|[]]. exists three_rows, three_ds. split; vm_compute; reflexivity.
    + exists outs. split; [exact Hrun | exact Hpaths].
Defined.

(** * Further properties of the conversion *)

(** ** When the conversion succeeds *)

(** A file that converts holds accepted rows only. *)
Lemma dex2ds_OK_accepted (file_ : string) (rows : list dex_row) (ds : Dataset) :
  dex2ds file_ rows = OK ds -> Forall row_accepted rows.
Proof.
  intros H. apply Forall_forall. intros r Hr. split.
  - destruct (dex2ds_sel_flag _ _ _ r H Hr) as (v & f & Hv & Hf & _).
    unfold read_cell in Hv. destruct (is_na (CT r)).
    + injection Hv as <-. discriminate Hf.
    + injection Hv as <-. apply strip_plus_code_inv.
      apply num_flags_defined. exists f. exact Hf.
  - intros n Hn.
    destruct (dex2ds_sel _ _ _ n r H) as (v & Hv & _); [|exact Hr|].
    { cbn. simpl in Hn. tauto. }
    unfold read_cell in Hv. destruct (is_na (field n r)); [left; reflexivity|].
    right. destruct Hn as [<-|[<-|[<-|[]]]];
      (change (dict_get types _) with (Some float) in Hv;
       destruct (str_to_float _); [discriminate | discriminate Hv]).
Qed.


Ltac rows_accepted :=
  let r := fresh "r" in
  let Hr := fresh "Hr" in
  apply Forall_forall; intros r Hr; simpl in Hr;
  repeat (destruct Hr as [<-|Hr];
          [split;
           [simpl; tauto
           |let n := fresh "n" in
            intros n [<-|[<-|[<-|[]]]];
            first [left; reflexivity | right; discriminate]]|]);
  destruct Hr.

Lemma three_rows_accepted : Forall row_accepted three_rows.
Proof. rows_accepted. Qed.


(** X2. On accepted rows the outcome is decided in this order: a grid
    point that two rows share is refused with [ValueError], whatever the
    file name; then a file name without eight digits in a row raises
    [IndexError]; then eight digits that are no date raise the error of
    the timestamp. *)
Theorem dex2ds_abort_order (file_ : string) (rows : list dex_row) :
  rows <> [] -> Forall row_accepted rows ->
  (is_unique (map (fun r => (lon r, lat r)) rows) = false ->
   dex2ds file_ rows = Err ValueError)
  /\ (is_unique (map (fun r => (lon r, lat r)) rows) = true ->
      re_findall_digits 8 file_ = [] ->
      dex2ds file_ rows = Err IndexError)
  /\ (forall d rest e,
        is_unique (map (fun r => (lon r, lat r)) rows) = true ->
        re_findall_digits 8 file_ = d :: rest ->
        pd_Timestamp (iso_of d) = Err e ->
        dex2ds file_ rows = Err e /\ e = ValueError).
Proof.
  intros Hne Hacc. destruct (dex2ds_accepted_form file_ rows Hne Hacc) as [g Hg].
  split; [|split].
  - intros Hu. rewrite Hg, Hu. reflexivity.
  - intros Hu Hfind. rewrite Hg, Hu, Hfind. reflexivity.
  - intros d rest e Hu Hfind Hdate. rewrite Hg, Hu, Hfind. cbn [first bind].
    rewrite Hdate. split; [reflexivity|].
    unfold pd_Timestamp in Hdate.
    destruct (_ && _ && _ && _ && _ && _) in Hdate;
      [destruct (_ && _ && _ && _ && _)%Z in Hdate|]; congruence.
Qed.

Lemma twice_row_plus_accepted : Forall row_accepted [row_plus; row_plus].
Proof. rows_accepted. Qed.

Lemma dex2ds_abort_order_witness :
  dex2ds "GEC_H.dex" [row_plus; row_plus] = Err ValueError
  /\ dex2ds "GEC_H.dex" three_rows = Err IndexError
  /\ dex2ds "GEC_H_20190230.dex" three_rows = Err ValueError.
Proof.
  assert (Hne2 : [row_plus; row_plus] <> []) by discriminate.
  assert (Hne3 : three_rows <> []) by discriminate.
  split; [|split].
  - apply (proj1 (dex2ds_abort_order "GEC_H.dex" _ Hne2 twice_row_plus_accepted)).
    reflexivity.
  - apply (proj1 (proj2 (dex2ds_abort_order "GEC_H.dex" _ Hne3 three_rows_accepted)));
      reflexivity.
  - apply (proj2 (proj2 (dex2ds_abort_order "GEC_H_20190230.dex" _ Hne3
                           three_rows_accepted))
             "20190230"%string [] ValueError); reflexivity.
Defined.

(** ** The coordinates of the grid *)

Lemma insert_level_In (x y : Q) (l : list Q) :
  In x (insert_level y l) -> x = y \/ In x l.
Proof.
  induction l as [|z l IH]; simpl.
  - intros [<-|[]]. left. reflexivity.
  - destruct (Qcompare y z).
    + intros H. right. exact H.
    + intros [<-|H]; [left; reflexivity | right; exact H].
    + intros [<-|H]; [right; left; reflexivity|].
      destruct (IH H) as [->|Hin]; [left; reflexivity | right; right; exact Hin].
Qed.

Lemma levels_In (x : Q) (xs : list Q) : In x (levels xs) -> In x xs.
Proof.
  induction xs as [|y xs IH]; [intros []|].
  cbn [levels fold_right]. intros H. apply insert_level_In in H.
  destruct H as [->|H]; [left; reflexivity | right; apply IH, H].
Qed.

Lemma insert_level_above (b x : Q) (l : list Q) :
  b < x -> Forall (Qlt b) l -> Forall (Qlt b) (insert_level x l).
Proof.
  intros Hb Hl. apply Forall_forall. intros z Hz.
  apply insert_level_In in Hz. destruct Hz as [->|Hz]; [exact Hb|].
  rewrite Forall_forall in Hl. apply Hl, Hz.
Qed.

Lemma insert_level_sorted (x : Q) (l : list Q) :
  StronglySorted Qlt l -> StronglySorted Qlt (insert_level x l).
Proof.
  induction 1 as [|z l Hs IH Hz]; cbn [insert_level].
  - repeat constructor.
  - destruct (Qcompare x z) eqn:E.
    + constructor; assumption.
    + apply Qlt_alt in E. constructor; [constructor; assumption|].
      constructor; [exact E|].
      eapply Forall_impl; [|exact Hz]. intros a Ha. eapply Qlt_trans; eassumption.
    + apply Qgt_alt in E. constructor; [exact IH|].
      apply insert_level_above; assumption.
Qed.

Lemma levels_sorted (xs : list Q) : StronglySorted Qlt (levels xs).
Proof.
  induction xs as [|x xs IH]; [constructor|].
  cbn [levels fold_right]. apply insert_level_sorted, IH.
Qed.

(** X3. The longitudes and the latitudes of the dataset are strictly
    increasing, so none is repeated; each of them is the longitude or
    latitude of a row, and each row finds its own among them. *)
Theorem grid_coordinates_sorted (file_ : string) (rows : list dex_row)
        (ds : Dataset) :
  dex2ds file_ rows = OK ds ->
  StronglySorted Qlt (ds_lon ds)
  /\ StronglySorted Qlt (ds_lat ds)
  /\ (forall x, In x (ds_lon ds) -> exists r, In r rows /\ lon r = x)
  /\ (forall y, In y (ds_lat ds) -> exists r, In r rows /\ lat r = y)
  /\ (forall r, In r rows ->
        exists x y, In x (ds_lon ds) /\ In y (ds_lat ds)
                    /\ x == lon r /\ y == lat r).
Proof.
  intros H. destruct (dex2ds_inv _ _ _ H) as (_ & _ & Hlon & Hlat & _).
  rewrite Hlon, Hlat, !map_map. cbn [fst snd].
  split; [apply levels_sorted|]. split; [apply levels_sorted|].
  split; [|split].
  - intros x Hx. apply levels_In, in_map_iff in Hx.
    destruct Hx as (r & <- & Hr). eauto.
  - intros y Hy. apply levels_In, in_map_iff in Hy.
    destruct Hy as (r & <- & Hr). eauto.
  - intros r Hr.
    destruct (row_on_grid rows r Hr) as (i & j & x & y & _ & _ & Hx & Hy & Hqx & Hqy).
    rewrite !map_map in Hx, Hy. cbn [fst snd] in Hx, Hy.
    exists x, y. repeat split.
    + eapply nth_error_In, Hx.
    + eapply nth_error_In, Hy.
    + symmetry. exact Hqx.
    + symmetry. exact Hqy.
Qed.

Lemma grid_coordinates_sorted_witness :
  StronglySorted Qlt (ds_lon sparse_ds)
  /\ StronglySorted Qlt (ds_lat sparse_ds)
  /\ (forall x, In x (ds_lon sparse_ds) -> exists r, In r sparse_rows /\ lon r = x)
  /\ (forall y, In y (ds_lat sparse_ds) -> exists r, In r sparse_rows /\ lat r = y)
  /\ (forall r, In r sparse_rows ->
        exists x y, In x (ds_lon sparse_ds) /\ In y (ds_lat sparse_ds)
                    /\ x == lon r /\ y == lat r).
Proof.
  apply (grid_coordinates_sorted sample_file sparse_rows sparse_ds).
  vm_compute. reflexivity.
Defined.

(** ** The variables of the dataset and their shape *)

Lemma dict_set_keys_present {V : Type} (d : list (string * V)) (k : string)
      (v0 v : V) :
  dict_get d k = Some v0 -> map fst (dict_set d k v) = map fst d.
Proof.
  induction d as [|[k' v'] d IH]; simpl; [discriminate|].
  destruct (String.eqb k' k); simpl; intros H; [reflexivity|].
  rewrite IH by assumption. reflexivity.
Qed.

Lemma dict_set_keys_absent {V : Type} (d : list (string * V)) (k : string) (v : V) :
  dict_get d k = None -> map fst (dict_set d k v) = map fst d ++ [k].
Proof.
  induction d as [|[k' v'] d IH]; simpl; [reflexivity|].
  destruct (String.eqb k' k); simpl; intros H; [discriminate|].
  rewrite IH by assumption. reflexivity.
Qed.

Lemma dict_get_absent {V : Type} (d : list (string * V)) (k : string) :
  ~ In k (map fst d) -> dict_get d k = None.
Proof.
  intros H. destruct (dict_get d k) as [v|] eqn:E; [|reflexivity].
  exfalso. apply H. apply dict_get_In in E. apply in_map_iff. exists (k, v). auto.
Qed.

Lemma map_fst_map_snd {V W : Type} (f : V -> W) (d : list (string * V)) :
  map fst (map (fun '(n, v) => (n, f v)) d) = map fst d.
Proof.
  induction d as [|[k v] d IH]; simpl; [reflexivity|]. rewrite IH. reflexivity.
Qed.

Lemma for_each_apply_column_keys (f : value -> value) (names : list string) :
  forall df df',
    for_each (apply_column f) names df = OK df' ->
    map fst (columns df') = map fst (columns df).
Proof.
  induction names as [|c names IH]; intros df df' H.
  - injection H as <-. reflexivity.
  - cbn [for_each] in H. apply bind_OK_inv in H. destruct H as (df1 & H1 & H).
    unfold apply_column in H1. apply bind_OK_inv in H1.
    destruct H1 as (vs & Hvs & H1). injection H1 as <-.
    rewrite (IH _ _ H). unfold setitem. cbn [columns].
    eapply dict_set_keys_present, getitem_OK, Hvs.
Qed.

(** The names of the variables, in the order of the dataset. *)
Lemma dex2ds_names (file_ : string) (rows : list dex_row) (ds : Dataset) :
  dex2ds file_ rows = OK ds ->
  map fst (data_vars ds) = egg_columns ++ ["flag"].
Proof.
  intros H. unfold dex2ds in H.
  apply bind_OK_inv in H. destruct H as (df & Hread & H).
  apply bind_OK_inv in H. destruct H as (df0 & Hplus & H).
  apply bind_OK_inv in H. destruct H as (df1 & Hdots & H).
  apply bind_OK_inv in H. destruct H as (ct & Hct & H).
  apply bind_OK_inv in H. destruct H as (flags & Hflags & H).
  apply bind_OK_inv in H. destruct H as (df2 & Hnum & H).
  apply bind_OK_inv in H. destruct H as (g & Hgrid & H).
  apply bind_OK_inv in H. destruct H as (flag & Hflag & H).
  apply bind_OK_inv in H. destruct H as (date_str & Hfirst & H).
  apply bind_OK_inv in H. destruct H as (date & Hdate & H).
  injection H as <-.
  destruct (read_csv_inv _ _ Hread) as (_ & _ & Hnames & _).
  apply for_each_apply_column_keys in Hplus, Hdots, Hnum.
  assert (Hk : map fst (columns df2) = egg_columns ++ ["flag"]).
  { rewrite Hnum. unfold setitem. cbn [columns].
    rewrite dict_set_keys_absent; [congruence|].
    apply dict_get_absent. rewrite Hdots, Hplus, Hnames.
    cbn. intuition discriminate. }
  unfold to_xarray in Hgrid. destruct (is_unique (index df2)); [|discriminate].
  injection Hgrid as <-. unfold grid_getitem in Hflag. cbn [g_vars] in Hflag.
  cbn [expand_dims grid_setitem data_vars g_vars].
  rewrite map_fst_map_snd.
  destruct (dict_get _ "flag") as [a|] eqn:E in Hflag; [|discriminate].
  erewrite dict_set_keys_present by exact E.
  rewrite map_fst_map_snd. exact Hk.
Qed.

Lemma grid_of_shape (lons lats : list Q) (ix : list (Q * Q)) (vs : list value) :
  List.length (grid_of lons lats ix vs) = List.length lons
  /\ Forall (fun line => List.length line = List.length lats)
            (grid_of lons lats ix vs).
Proof.
  unfold grid_of. split; [apply length_map|].
  apply Forall_forall. intros line Hl. apply in_map_iff in Hl.
  destruct Hl as (x & <- & _). apply length_map.
Qed.

Lemma where_notnull_shape (a : array2) (other : value) (n m : nat) :
  List.length a = n /\ Forall (fun line => List.length line = m) a ->
  List.length (where_notnull a other) = n
  /\ Forall (fun line => List.length line = m) (where_notnull a other).
Proof.
  intros [Hn Hm]. unfold where_notnull. split; [rewrite length_map; exact Hn|].
  apply Forall_forall. intros line Hl. apply in_map_iff in Hl.
  destruct Hl as (l0 & <- & Hl0). rewrite length_map.
  rewrite Forall_forall in Hm. apply Hm, Hl0.
Qed.

(** Every variable of the dataset is one grid, made from a column by
    [grid_of], with the fill step on top for the flag. *)
Lemma dex2ds_var (file_ : string) (rows : list dex_row) (ds : Dataset)
      (n : string) (a : list array2) :
  dex2ds file_ rows = OK ds ->
  dict_get (data_vars ds) n = Some a ->
  let G := grid_of (ds_lon ds) (ds_lat ds) (map (fun r => (lon r, lat r)) rows) in
  (In n egg_columns
   /\ exists vs,
        Forall2 (fun r v => read_cell (dict_get types n) (field n r) = OK v) rows vs
        /\ a = [G (map (fun v => to_numeric_coerce (substitution n v)) vs)])
  \/ (n = "flag"%string
      /\ exists vs flags,
           Forall2 (fun r v => read_cell (Some str) (CT r) = OK v) rows vs
           /\ Forall2 (fun v f => _num_flags (_strip_plus v) = OK f) vs flags
           /\ a = [where_notnull (G flags) (Num 4)]).
Proof.
  intros H Ha G.
  pose proof (dex2ds_names _ _ _ H) as Hnames.
  destruct (dex2ds_inv _ _ _ H) as (_ & _ & _ & _ & _ & Hcols & Hflag).
  assert (Hin : In n (egg_columns ++ ["flag"])).
  { rewrite <- Hnames. apply dict_get_In in Ha. apply in_map_iff.
    exists (n, a). auto. }
  apply in_app_or in Hin. destruct Hin as [Hin|[<-|[]]].
  - left. split; [exact Hin|]. destruct (Hcols n Hin) as (vs & Hvs & Hvar).
    exists vs. split; [exact Hvs|]. unfold G. rewrite Hvar in Ha.
    injection Ha as <-. reflexivity.
  - right. split; [reflexivity|]. destruct Hflag as (vs & flags & Hvs & Hf & Hvar).
    exists vs, flags. split; [exact Hvs|]. split; [exact Hf|].
    unfold G. rewrite Hvar in Ha. injection Ha as <-. reflexivity.
Qed.

(** X4. The dataset holds exactly the eleven variables CT, CA, SA, FA,
    CB, SB, FB, CC, SC, FC and flag, in this order, and each of them has
    one time step, one line per longitude and one cell per latitude. *)
Theorem dataset_variables_and_shape (file_ : string) (rows : list dex_row)
        (ds : Dataset) :
  dex2ds file_ rows = OK ds ->
  map fst (data_vars ds)
  = ["CT"; "CA"; "SA"; "FA"; "CB"; "SB"; "FB"; "CC"; "SC"; "FC"; "flag"]%string
  /\ List.length (ds_time ds) = 1%nat
  /\ (forall n a,
        dict_get (data_vars ds) n = Some a ->
        exists g,
          a = [g]
          /\ List.length g = List.length (ds_lon ds)
          /\ Forall (fun line => List.length line = List.length (ds_lat ds)) g).
Proof.
  intros H. split; [exact (dex2ds_names _ _ _ H)|]. split.
  - destruct (dex2ds_inv _ _ _ H) as (_ & _ & _ & _ & Hdate & _).
    destruct Hdate as (d & rest & date & _ & _ & ->). reflexivity.
  - intros n a Ha. destruct (dex2ds_var _ _ _ n a H Ha) as [[_ Hv]|[_ Hv]].
    + destruct Hv as (vs & _ & ->). eexists. split; [reflexivity|].
      apply grid_of_shape.
    + destruct Hv as (vs & flags & _ & _ & ->). eexists. split; [reflexivity|].
      apply where_notnull_shape, grid_of_shape.
Qed.

Lemma dataset_variables_and_shape_witness :
  map fst (data_vars diagonal_ds)
  = ["CT"; "CA"; "SA"; "FA"; "CB"; "SB"; "FB"; "CC"; "SC"; "FC"; "flag"]%string
  /\ List.length (ds_time diagonal_ds) = 1%nat
  /\ (forall n a,
        dict_get (data_vars diagonal_ds) n = Some a ->
        exists g,
          a = [g]
          /\ List.length g = List.length (ds_lon diagonal_ds)
          /\ Forall (fun line => List.length line = List.length (ds_lat diagonal_ds)) g).
Proof.
  apply (dataset_variables_and_shape sample_file diagonal_rows diagonal_ds).
  vm_compute. reflexivity.
Defined.

(** ** The cells of the dataset *)

Lemma locate_In {V : Type} (k : Q * Q) (ix : list (Q * Q)) (vs : list V) (v : V) :
  locate k ix vs = Some v -> In v vs.
Proof.
  revert vs. induction ix as [|a ix IH]; intros vs H; [discriminate|].
  destruct vs as [|w vs]; [discriminate|]. cbn [locate] in H.
  destruct (coord_eqb a k).
  - injection H as ->. left. reflexivity.
  - right. apply IH, H.
Qed.

Lemma grid_of_Forall (P : value -> Prop) (lons lats : list Q)
      (ix : list (Q * Q)) (vs : list value) :
  Forall P vs -> P NaN -> Forall (Forall P) (grid_of lons lats ix vs).
Proof.
  intros Hvs Hnan. unfold grid_of. apply Forall_forall. intros line Hl.
  apply in_map_iff in Hl. destruct Hl as (x & <- & _).
  apply Forall_forall. intros v Hv. apply in_map_iff in Hv.
  destruct Hv as (y & <- & _).
  destruct (locate (x, y) ix vs) as [w|] eqn:E; [|exact Hnan].
  rewrite Forall_forall in Hvs. apply Hvs. eapply locate_In, E.
Qed.

Lemma cells_single (g : array2) : cells [g] = List.concat g.
Proof. unfold cells. cbn [List.concat]. rewrite app_nil_r. reflexivity. Qed.

Lemma to_numeric_coerce_not_string (v : value) :
  is_string (to_numeric_coerce v) = false.
Proof.
  destruct v as [s|q|]; simpl; [|reflexivity|reflexivity].
  destruct (str_to_float s); reflexivity.
Qed.

Lemma Forall2_Forall_r {A B : Type} (P : A -> B -> Prop) (Q : B -> Prop)
      (l : list A) (l' : list B) :
  Forall2 P l l' -> (forall a b, P a b -> Q b) -> Forall Q l'.
Proof.
  intros H HPQ. induction H as [|a b l l' Hab _ IH]; constructor; eauto.
Qed.

(** X5. No cell of the dataset is a string: after the conversion to
    numbers every cell of every variable is a number or [nan], and every
    cell of the flag is one of 0, 1, 2, 3 and 4. *)
Theorem dataset_cells_numeric (file_ : string) (rows : list dex_row)
        (ds : Dataset) :
  dex2ds file_ rows = OK ds ->
  (forall n a v,
     dict_get (data_vars ds) n = Some a -> In v (cells a) -> is_string v = false)
  /\ (forall a v,
        dict_get (data_vars ds) "flag" = Some a -> In v (cells a) ->
        In v [Num 0; Num 1; Num 2; Num 3; Num 4]).
Proof.
  intros H.
  assert (Hflag : forall a v,
             dict_get (data_vars ds) "flag" = Some a -> In v (cells a) ->
             In v [Num 0; Num 1; Num 2; Num 3; Num 4]).
  { intros a v Ha Hv. destruct (dex2ds_var _ _ _ _ a H Ha) as [[Hin _]|[_ Hf]].
    - cbn in Hin. intuition discriminate.
    - destruct Hf as (vs & flags & _ & Hlook & ->).
      rewrite cells_single in Hv. apply in_concat in Hv.
      destruct Hv as (line & Hline & Hv). unfold where_notnull in Hline.
      apply in_map_iff in Hline. destruct Hline as (line0 & <- & Hline0).
      apply in_map_iff in Hv. destruct Hv as (c & <- & Hc).
      assert (Hc' : In c [Num 0; Num 1; Num 2; Num 3] \/ c = NaN).
      { assert (HF : Forall (Forall (fun c => In c [Num 0; Num 1; Num 2; Num 3]
                                              \/ c = NaN))
                            (grid_of (ds_lon ds) (ds_lat ds)
                               (map (fun r => (lon r, lat r)) rows) flags)).
        { apply grid_of_Forall; [|right; reflexivity].
          eapply Forall2_Forall_r; [exact Hlook|].
          intros a b Hab. left. eapply num_flags_range, Hab. }
        rewrite Forall_forall in HF. specialize (HF _ Hline0).
        rewrite Forall_forall in HF. apply HF, Hc. }
      destruct Hc' as [Hc' | ->]; [|simpl; tauto].
      simpl in Hc'. destruct Hc' as [<-|[<-|[<-|[<-|[]]]]]; simpl; tauto. }
  split; [|exact Hflag].
  intros n a v Ha Hv. destruct (dex2ds_var _ _ _ _ a H Ha) as [[_ Hc]|[Hn _]]; [|subst n].
  - destruct Hc as (vs & _ & ->). rewrite cells_single in Hv.
    apply in_concat in Hv. destruct Hv as (line & Hline & Hv).
    assert (HF : Forall (Forall (fun c => is_string c = false))
                        (grid_of (ds_lon ds) (ds_lat ds)
                           (map (fun r => (lon r, lat r)) rows)
                           (map (fun v => to_numeric_coerce (substitution n v)) vs))).
    { apply grid_of_Forall; [|reflexivity]. apply Forall_forall.
      intros c Hc. apply in_map_iff in Hc. destruct Hc as (w & <- & _).
      apply to_numeric_coerce_not_string. }
    rewrite Forall_forall in HF. specialize (HF _ Hline).
    rewrite Forall_forall in HF. apply HF, Hv.
  - specialize (Hflag a v Ha Hv). simpl in Hflag.
    destruct Hflag as [<-|[<-|[<-|[<-|[<-|[]]]]]]; reflexivity.
Qed.

Lemma dataset_cells_numeric_witness :
  (forall n a v,
     dict_get (data_vars diagonal_ds) n = Some a -> In v (cells a) ->
     is_string v = false)
  /\ (forall a v,
        dict_get (data_vars diagonal_ds) "flag" = Some a -> In v (cells a) ->
        In v [Num 0; Num 1; Num 2; Num 3; Num 4]).
Proof.
  apply (dataset_cells_numeric sample_file diagonal_rows diagonal_ds).
  vm_compute. reflexivity.
Defined.

(** X6. A grid point on which no row of the file lies holds [nan] in
    every one of the ten egg code variables. *)
Theorem land_cells_are_nan (file_ : string) (rows : list dex_row) (ds : Dataset)
        (i j : nat) (x y : Q) (n : string) :
  dex2ds file_ rows = OK ds ->
  nth_error (ds_lon ds) i = Some x -> nth_error (ds_lat ds) j = Some y ->
  ~ on_row rows x y -> In n egg_columns ->
  isel ds n i j = Some NaN.
Proof.
  intros H Hx Hy Hoff Hn.
  destruct (dex2ds_inv _ _ _ H) as (_ & _ & _ & _ & _ & Hcols & _).
  destruct (Hcols n Hn) as (vs & _ & Hvar).
  unfold isel. rewrite Hvar. eapply cell_off_rows; eassumption.
Qed.

Lemma land_cells_are_nan_witness : isel diagonal_ds "SA" 0 1 = Some NaN.
Proof.
  apply (land_cells_are_nan sample_file diagonal_rows diagonal_ds 0 1 (-60) 48.5).
  - vm_compute. reflexivity.
  - reflexivity.
  - reflexivity.
  - intros (r & Hr & Hx & Hy). simpl in Hr.
    destruct Hr as [<-|[<-|[<-|[]]]];
      (vm_compute in Hx; discriminate Hx) || (vm_compute in Hy; discriminate Hy).
  - cbn. tauto.
Defined.

(** ** The substitutions on every value *)

(** X7. The lookup of flags gives the same result before and after the
    plus substitution, on every value: the same flag, or [KeyError] in
    both cases. *)
Theorem num_flags_after_strip_plus (x : value) :
  _num_flags (_strip_plus x) = _num_flags x.
Proof.
  destruct x as [s|q|]; [|reflexivity|reflexivity].
  destruct (in_dec string_dec s (map fst conv)) as [Hin|Hout].
  - cbn [map fst conv] in Hin.
    repeat (destruct Hin as [<-|Hin]; [reflexivity|]). destruct Hin.
  - rewrite (num_flags_outside (Str s)) by (intros s' [= <-]; exact Hout).
    apply num_flags_outside. intros s' Hs' Hin. simpl in Hs'.
    injection Hs' as <-. apply Hout, strip_plus_code_inv, Hin.
Qed.

Lemma replace_dot_cons (c : ascii) (s : string) :
  PyStr.replace "." "0" (String c s)
  = String (if Ascii.eqb "." c then "0"%char else c) (PyStr.replace "." "0" s).
Proof.
  unfold PyStr.replace. cbn [PyStr.replace_from PyStr.startswith].
  rewrite andb_true_r. destruct (Ascii.eqb "." c); reflexivity.
Qed.

(** X8. On every string the dot substitution keeps the length, leaves no
    dot, changes nothing when applied a second time, and returns a
    string without a dot as it is. *)
Theorem strip_dots_every_string (s : string) :
  exists t,
    _strip_dots (Str s) = Str t
    /\ String.length t = String.length s
    /\ PyStr.contains "." t = false
    /\ _strip_dots (Str t) = Str t
    /\ (PyStr.contains "." s = false -> t = s).
Proof.
  exists (PyStr.replace "." "0" s). split; [reflexivity|].
  assert (Hno : PyStr.contains "." (PyStr.replace "." "0" s) = false).
  { induction s as [|c s IH]; [reflexivity|]. rewrite replace_dot_cons.
    cbn [PyStr.contains PyStr.startswith]. rewrite IH, andb_true_r, orb_false_r.
    destruct (Ascii.eqb "." c) eqn:E; [reflexivity | exact E]. }
  split; [|split; [exact Hno|split]].
  - clear Hno. induction s as [|c s IH]; [reflexivity|]. rewrite replace_dot_cons.
    cbn [String.length]. rewrite IH. reflexivity.
  - unfold _strip_dots. f_equal. unfold PyStr.replace at 1.
    apply ReplaceFacts.replace_no_match, Hno.
  - intros H. unfold PyStr.replace. apply ReplaceFacts.replace_no_match, H.
Qed.

Lemma strip_dots_every_string_witness :
  exists t,
    _strip_dots (Str "7") = Str t
    /\ String.length t = String.length "7"
    /\ PyStr.contains "." t = false
    /\ _strip_dots (Str t) = Str t
    /\ (PyStr.contains "." "7" = false -> t = "7"%string).
Proof. exact (strip_dots_every_string "7"). Defined.

(** ** The cells of a row in the dataset *)

Lemma substitution_not_string (n : string) (v : value) :
  is_string v = false -> substitution n v = v.
Proof.
  intros H. unfold substitution.
  destruct (existsb (String.eqb n) ["CT"; "CA"]);
    [|destruct (existsb (String.eqb n) ["SA"; "SB"; "SC"])];
    destruct v; try discriminate; reflexivity.
Qed.

(** X9. A cell that holds the null sentinel [X], or another string that
    the read takes for a missing value, comes out as [nan] at the point
    of its row, in every egg code variable. *)
Theorem null_cells_are_nan (file_ : string) (rows : list dex_row) (ds : Dataset)
        (r : dex_row) (n : string) :
  dex2ds file_ rows = OK ds -> In r rows -> In n egg_columns ->
  is_na (field n r) = true ->
  sel ds n (lon r) (lat r) = Some NaN.
Proof.
  intros H Hr Hn Hna.
  destruct (dex2ds_sel _ _ _ n r H Hn Hr) as (v & Hv & Hsel).
  unfold read_cell in Hv. rewrite Hna in Hv. injection Hv as <-.
  rewrite Hsel, substitution_not_string by reflexivity. reflexivity.
Qed.

Lemma null_cells_are_nan_witness :
  sel three_ds "CB" (lon row_plus) (lat row_plus) = Some NaN.
Proof.
  apply (null_cells_are_nan sample_file three_rows three_ds row_plus "CB").
  - vm_compute. reflexivity.
  - simpl. tauto.
  - cbn. tauto.
  - reflexivity.
Defined.



(** X11. At the point of every row the flag and the total concentration
    agree: where the flag is 0 the variable CT holds a number from 1 to
    10, and where the flag is 1, 2 or 3 it holds [nan]. *)
Theorem flag_and_total_concentration (file_ : string) (rows : list dex_row)
        (ds : Dataset) (r : dex_row) :
  dex2ds file_ rows = OK ds -> In r rows ->
  exists f c,
    sel ds "flag" (lon r) (lat r) = Some f
    /\ sel ds "CT" (lon r) (lat r) = Some c
    /\ ((f = Num 0 /\ exists q, c = Num q /\ 1 <= q /\ q <= 10)
        \/ (In f [Num 1; Num 2; Num 3] /\ c = NaN)).
Proof.
  intros H Hr.
  pose proof (dex2ds_OK_accepted _ _ _ H) as Hacc.
  rewrite Forall_forall in Hacc. destruct (Hacc r Hr) as [Hcode _].
  destruct (code_flag_defined _ Hcode) as [Hna _].
  destruct (dex2ds_sel_flag _ _ _ r H Hr) as (v & f & Hv & Hf & Hsf).
  destruct (dex2ds_sel _ _ _ "CT" r H) as (v' & Hv' & Hsc); [cbn; tauto | exact Hr |].
  change (field "CT" r) with (CT r) in Hv'.
  change (dict_get types "CT") with (Some str) in Hv'.
  rewrite Hv in Hv'. injection Hv' as <-.
  unfold read_cell in Hv. rewrite Hna in Hv. injection Hv as <-.
  exists f, (to_numeric_coerce (substitution "CT" (Str (CT r)))).
  split; [exact Hsf|]. split; [exact Hsc|].
  cbn [map fst conv] in Hcode.
  destruct Hcode as [E|[E|[E|Hice]]].
  - right. rewrite <- E in Hf |- *. injection Hf as <-. split; [simpl; tauto | reflexivity].
  - right. rewrite <- E in Hf |- *. injection Hf as <-. split; [simpl; tauto | reflexivity].
  - right. rewrite <- E in Hf |- *. injection Hf as <-. split; [simpl; tauto | reflexivity].
  - left.
    repeat (destruct Hice as [E|Hice];
            [rewrite <- E in Hf |- *; injection Hf as <-;
             split; [reflexivity|]; eexists; split; [reflexivity|];
             split; discriminate|]).
    destruct Hice.
Qed.

Lemma flag_and_total_concentration_witness :
  exists f c,
    sel three_ds "flag" (lon row_plus) (lat row_plus) = Some f
    /\ sel three_ds "CT" (lon row_plus) (lat row_plus) = Some c
    /\ ((f = Num 0 /\ exists q, c = Num q /\ 1 <= q /\ q <= 10)
        \/ (In f [Num 1; Num 2; Num 3] /\ c = NaN)).
Proof.
  apply (flag_and_total_concentration sample_file three_rows three_ds row_plus).
  - vm_compute. reflexivity.
  - simpl. tauto.
Defined.

(** ** Counting the cells that hold a row *)

Section Counting.

Lemma list_sum_add {A : Type} (g h : A -> nat) (l : list A) :
  list_sum (map (fun a => g a + h a)%nat l)
  = (list_sum (map g l) + list_sum (map h l))%nat.
Proof.
  induction l as [|a l IH]; [reflexivity|].
  cbn [map list_sum fold_right]. fold (list_sum (map (fun a => g a + h a)%nat l)).
  fold (list_sum (map g l)). fold (list_sum (map h l)). rewrite IH. lia.
Qed.

Lemma list_sum_swap {A B : Type} (f : A -> B -> nat) (la : list A) (lb : list B) :
  list_sum (map (fun a => list_sum (map (fun b => f a b) lb)) la)
  = list_sum (map (fun b => list_sum (map (fun a => f a b) la)) lb).
Proof.
  induction la as [|a la IH].
  - cbn [map list_sum fold_right].
    induction lb as [|b lb IHb]; [reflexivity|].
    cbn [map list_sum fold_right]. exact IHb.
  - cbn [map].
    change (list_sum (?x :: ?l)) with (x + list_sum l)%nat.
    rewrite IH.
    rewrite <- (list_sum_add (fun b => f a b)
                  (fun b => list_sum (map (fun a0 => f a0 b) la))).
    reflexivity.
Qed.

Lemma list_sum_ones {A : Type} (l : list A) :
  list_sum (map (fun _ => 1%nat) l) = List.length l.
Proof. induction l as [|a l IH]; simpl; [reflexivity | rewrite IH; reflexivity]. Qed.

Lemma list_sum_and {A : Type} (q : A -> bool) (b : bool) (l : list A) :
  list_sum (map (fun a => if b && q a then 1%nat else 0%nat) l)
  = ((if b then 1 else 0)
     * list_sum (map (fun a => if q a then 1%nat else 0%nat) l))%nat.
Proof.
  destruct b; cbn [andb]; [rewrite Nat.mul_1_l; reflexivity|]. rewrite Nat.mul_0_l.
  induction l as [|a l IH]; [reflexivity | exact IH].
Qed.

Lemma count_grid (p : value -> bool) (f : Q -> Q -> value) (lons lats : list Q) :
  List.length (filter p (List.concat (map (fun x => map (f x) lats) lons)))
  = list_sum (map (fun x =>
                     list_sum (map (fun y => if p (f x y) then 1%nat else 0%nat) lats))
                  lons).
Proof.
  induction lons as [|x lons IH]; [reflexivity|].
  cbn [map List.concat]. change (list_sum (?x :: ?l)) with (x + list_sum l)%nat.
  rewrite filter_app, length_app, IH. f_equal.
  clear IH. induction lats as [|y lats IHy]; [reflexivity|].
  cbn [map filter]. change (list_sum (?x :: ?l)) with (x + list_sum l)%nat.
  destruct (p (f x y)); cbn [List.length]; rewrite IHy; reflexivity.
Qed.

(** In an index without repetition at most one entry lies on a point. *)
Lemma unique_count (ix : list (Q * Q)) (p : Q * Q) :
  is_unique ix = true ->
  list_sum (map (fun c => if coord_eqb c p then 1%nat else 0%nat) ix)
  = if existsb (fun c => coord_eqb c p) ix then 1%nat else 0%nat.
Proof.
  induction ix as [|a ix IH]; intros Hu; [reflexivity|].
  cbn [is_unique] in Hu. apply andb_true_iff in Hu. destruct Hu as [Ha Hu].
  cbn [map existsb]. change (list_sum (?x :: ?l)) with (x + list_sum l)%nat.
  rewrite (IH Hu).
  destruct (coord_eqb a p) eqn:E; [|reflexivity].
  destruct (existsb (fun c => coord_eqb c p) ix) eqn:Ex; [|reflexivity].
  exfalso. apply negb_true_iff in Ha.
  apply existsb_exists in Ex. destruct Ex as (c & Hc & Ecp).
  assert (existsb (coord_eqb a) ix = true); [|congruence].
  apply existsb_exists. exists c. split; [exact Hc|].
  eapply coord_eqb_trans; [exact E|]. rewrite coord_eqb_sym. exact Ecp.
Qed.

Lemma locate_existsb {V : Type} (p : Q * Q) (ix : list (Q * Q)) (vs : list V) :
  List.length vs = List.length ix ->
  existsb (fun c => coord_eqb c p) ix
  = match locate p ix vs with Some _ => true | None => false end.
Proof.
  revert vs. induction ix as [|a ix IH]; intros vs Hlen.
  - destruct vs; reflexivity.
  - destruct vs as [|v vs]; [discriminate|]. cbn [existsb locate].
    destruct (coord_eqb a p); [reflexivity|]. apply IH. simpl in Hlen. lia.
Qed.

(** In a strictly increasing list at most one entry equals a number. *)
Lemma sorted_count (t : Q) (l : list Q) :
  StronglySorted Qlt l ->
  list_sum (map (fun x => if Qeq_bool t x then 1%nat else 0%nat) l)
  = match index_of t l with Some _ => 1%nat | None => 0%nat end.
Proof.
  induction 1 as [|z l Hs IH Hz]; [reflexivity|].
  cbn [map index_of]. change (list_sum (?x :: ?l)) with (x + list_sum l)%nat.
  rewrite IH.
  rewrite (Qeq_bool_comm z t). destruct (Qeq_bool t z) eqn:E.
  - destruct (index_of t l) as [i|] eqn:Ei; [|reflexivity].
    exfalso. destruct (index_of_nth _ _ _ Ei) as (x' & Hx' & Hq).
    apply nth_error_In in Hx'. rewrite Forall_forall in Hz.
    specialize (Hz _ Hx'). apply Qeq_bool_iff in E.
    rewrite Hq, E in Hz. exact (Qlt_irrefl _ Hz).
  - destruct (index_of t l); reflexivity.
Qed.

Lemma levels_count (t : Q) (xs : list Q) :
  In t xs ->
  list_sum (map (fun x => if Qeq_bool t x then 1%nat else 0%nat) (levels xs))
  = 1%nat.
Proof.
  intros H. rewrite sorted_count by apply levels_sorted.
  pose proof (index_of_levels t xs H) as Hi.
  destruct (index_of t (levels xs)); [reflexivity | contradiction].
Qed.

(** The points of the grid that hold an entry of the index are as many
    as the entries. *)
Lemma grid_points_count (ix : list (Q * Q)) :
  is_unique ix = true ->
  list_sum (map (fun x =>
                   list_sum (map (fun y =>
                                    if existsb (fun c => coord_eqb c (x, y)) ix
                                    then 1%nat else 0%nat)
                                 (levels (map snd ix))))
                (levels (map fst ix)))
  = List.length ix.
Proof.
  intros Hu.
  erewrite map_ext.
  2:{ intros x. erewrite map_ext.
      2:{ intros y. symmetry. apply (unique_count ix (x, y) Hu). }
      apply list_sum_swap. }
  rewrite list_sum_swap.
  erewrite map_ext_in.
  2:{ intros c Hc. unfold coord_eqb. cbn [fst snd].
      erewrite map_ext.
      2:{ intros x.
          apply (list_sum_and (fun y => Qeq_bool (snd c) y) (Qeq_bool (fst c) x)). }
      rewrite (levels_count (snd c)) by (apply in_map; exact Hc).
      erewrite map_ext.
      2:{ intros x. apply Nat.mul_1_r. }
      apply levels_count. apply in_map. exact Hc. }
  apply list_sum_ones.
Qed.

End Counting.

Lemma flag_cell_not_land (ix : list (Q * Q)) (flags : list value) (p : Q * Q) :
  List.length flags = List.length ix ->
  Forall (fun f => In f [Num 0; Num 1; Num 2; Num 3]) flags ->
  negb (is_land
          ((fun v => if negb (isnull v) then v else Num 4)
             match locate p ix flags with Some v => v | None => NaN end))
  = existsb (fun c => coord_eqb c p) ix.
Proof.
  intros Hlen Hrange. rewrite (locate_existsb p ix flags Hlen).
  destruct (locate p ix flags) as [f|] eqn:E; [|reflexivity].
  apply locate_In in E. rewrite Forall_forall in Hrange.
  specialize (Hrange f E). simpl in Hrange.
  destruct Hrange as [<-|[<-|[<-|[<-|[]]]]]; reflexivity.
Qed.

(** X12. The reshaping neither loses nor repeats a row: the cells of the
    flag that are not land are exactly as many as the rows of the
    file. *)
Theorem rows_and_cells_with_data (file_ : string) (rows : list dex_row)
        (ds : Dataset) (a : list array2) :
  dex2ds file_ rows = OK ds ->
  dict_get (data_vars ds) "flag" = Some a ->
  List.length (filter (fun v => negb (is_land v)) (cells a)) = List.length rows.
Proof.
  intros H Ha.
  destruct (dex2ds_inv _ _ _ H) as (_ & Hu & Hlon & Hlat & _ & _ & Hflag).
  destruct Hflag as (vs & flags & Hvs & Hlook & Hvar).
  rewrite Hvar in Ha. injection Ha as <-.
  assert (Hlen : List.length flags
                 = List.length (map (fun r => (lon r, lat r)) rows)).
  { rewrite length_map. apply Forall2_length in Hvs, Hlook. congruence. }
  assert (Hrange : Forall (fun f => In f [Num 0; Num 1; Num 2; Num 3]) flags).
  { eapply Forall2_Forall_r; [exact Hlook|].
    intros v f Hf. eapply num_flags_range, Hf. }
  rewrite cells_single. unfold where_notnull, grid_of.
  rewrite map_map.
  erewrite map_ext by (intros x; apply map_map).
  rewrite (count_grid (fun v => negb (is_land v))
             (fun x y => (fun v => if negb (isnull v) then v else Num 4)
                           match locate (x, y) (map (fun r => (lon r, lat r)) rows) flags
                           with Some v => v | None => NaN end)).
  erewrite map_ext.
  2:{ intros x. erewrite map_ext.
      2:{ intros y. rewrite (flag_cell_not_land _ _ (x, y) Hlen Hrange). reflexivity. }
      reflexivity. }
  rewrite Hlon, Hlat, (grid_points_count _ Hu). apply length_map.
Qed.

Lemma rows_and_cells_with_data_witness :
  exists a,
    dict_get (data_vars diagonal_ds) "flag" = Some a
    /\ List.length (filter (fun v => negb (is_land v)) (cells a))
       = List.length diagonal_rows.
Proof.
  eexists. split; [reflexivity|].
  apply (rows_and_cells_with_data sample_file diagonal_rows diagonal_ds).
  - vm_compute. reflexivity.
  - reflexivity.
Defined.

(** ** File names *)

Module PathFacts.
Import PyStr os_path.

Lemma has_char_cons (c a : ascii) (s : string) :
  contains (String c "") (String a s) = Ascii.eqb c a || contains (String c "") s.
Proof. cbn [contains startswith]. rewrite andb_true_r. reflexivity. Qed.

Lemma has_char_app (c : ascii) (a b : string) :
  contains (String c "") (a ++ b)%string
  = contains (String c "") a || contains (String c "") b.
Proof.
  induction a as [|x a IH].
  - cbn [append]. destruct b; reflexivity.
  - cbn [append]. rewrite !has_char_cons, IH, orb_assoc. reflexivity.
Qed.

Lemma has_char_drop (c : ascii) (n : nat) (s : string) :
  contains (String c "") s = false -> contains (String c "") (drop n s) = false.
Proof.
  revert s. induction n as [|n IH]; intros s H; [exact H|].
  destruct s as [|a s]; [reflexivity|]. cbn [drop]. apply IH.
  rewrite has_char_cons in H. apply orb_false_iff in H. tauto.
Qed.

Lemma has_char_take (c : ascii) (n : nat) (s : string) :
  contains (String c "") s = false -> contains (String c "") (take n s) = false.
Proof.
  revert s. induction n as [|n IH]; intros s H; [reflexivity|].
  destruct s as [|a s]; [reflexivity|]. cbn [take].
  rewrite has_char_cons in *. apply orb_false_iff in H. destruct H as [H1 H2].
  rewrite H1, IH by assumption. reflexivity.
Qed.

Lemma drop_drop (n m : nat) (s : string) : drop n (drop m s) = drop (m + n) s.
Proof.
  revert s. induction m as [|m IH]; intros s; [reflexivity|].
  destruct s as [|a s]; [destruct n; reflexivity|]. cbn [drop Nat.add]. apply IH.
Qed.

(** [rfind] returns the position of the last occurrence: the character
    stands there and does not occur after it; or it occurs nowhere. *)
Lemma rfind_from_spec (c : ascii) (s : string) (i last : Z) :
  (rfind_from c s i last = last /\ contains (String c "") s = false)
  \/ (i <= rfind_from c s i last < i + Z.of_nat (String.length s)
      /\ exists e,
           drop (Z.to_nat (rfind_from c s i last - i)) s = String c e
           /\ contains (String c "") e = false)%Z.
Proof.
  revert i last. induction s as [|a s IH]; intros i last.
  - left. split; reflexivity.
  - cbn [rfind_from].
    destruct (IH (i + 1)%Z (if Ascii.eqb a c then i else last))
      as [[Hk Hno]|(Hk & e & He & Hno)].
    + rewrite Hk. destruct (Ascii.eqb a c) eqn:E.
      * right. apply Ascii.eqb_eq in E. subst a. split.
        { cbn [String.length]. lia. }
        exists s. rewrite Z.sub_diag. split; [reflexivity | exact Hno].
      * left. split; [reflexivity|]. rewrite has_char_cons, Hno.
        rewrite Ascii.eqb_sym, E. reflexivity.
    + right. split; [cbn [String.length]; lia|]. exists e. split; [|exact Hno].
      replace (Z.to_nat (rfind_from c s (i + 1) (if Ascii.eqb a c then i else last) - i))
        with (S (Z.to_nat (rfind_from c s (i + 1) (if Ascii.eqb a c then i else last)
                           - (i + 1)))) by lia.
      cbn [drop]. exact He.
Qed.

Lemma rfind_spec (c : ascii) (s : string) :
  (rfind c s = (-1)%Z /\ contains (String c "") s = false)
  \/ (0 <= rfind c s < Z.of_nat (String.length s)
      /\ exists e,
           drop (Z.to_nat (rfind c s)) s = String c e
           /\ contains (String c "") e = false)%Z.
Proof.
  unfold rfind. destruct (rfind_from_spec c s 0 (-1)) as [H|(Hk & e & He & Hno)].
  - left. exact H.
  - right. split; [lia|]. exists e. rewrite Z.sub_0_r in He. auto.
Qed.

(** Nothing after the last separator holds a separator. *)
Lemma no_sep_after (p : string) (n : nat) :
  (rfind "/" p < Z.of_nat n)%Z -> contains "/" (drop n p) = false.
Proof.
  intros Hn. destruct (rfind_spec "/" p) as [[_ Hno]|(Hk & e & He & Hno)].
  - apply has_char_drop, Hno.
  - replace n with (Z.to_nat (rfind "/" p) + S (n - S (Z.to_nat (rfind "/" p))))%nat
      by lia.
    rewrite <- drop_drop, He. cbn [drop]. apply has_char_drop, Hno.
Qed.

Lemma basename_no_sep (p : string) : contains "/" (basename p) = false.
Proof. unfold basename. apply no_sep_after. lia. Qed.

Lemma append_empty_r (s : string) : (s ++ "")%string = s.
Proof. induction s as [|a s IH]; simpl; [reflexivity | rewrite IH; reflexivity]. Qed.

Lemma splitext_join (p : string) :
  (fst (splitext p) ++ snd (splitext p))%string = p.
Proof.
  unfold splitext. destruct (_ && _); cbn [fst snd].
  - apply DateFacts.take_drop.
  - apply append_empty_r.
Qed.

End PathFacts.

(** X13. [splitext] cuts a path in two parts that give the path back;
    the second part is empty, or it starts with a dot and holds no other
    dot and no separator. *)
Theorem splitext_parts (p : string) :
  (fst (os_path.splitext p) ++ snd (os_path.splitext p))%string = p
  /\ (snd (os_path.splitext p) = ""%string
      \/ exists e,
           snd (os_path.splitext p) = String "." e
           /\ PyStr.contains "." e = false
           /\ PyStr.contains "/" e = false).
Proof.
  unfold os_path.splitext.
  destruct ((os_path.rfind "." p >? os_path.rfind "/" p)%Z
            && negb (os_path.all_dots
                       (PyStr.slice (Z.to_nat (os_path.rfind "/" p + 1))
                                    (Z.to_nat (os_path.rfind "." p)) p))) eqn:E;
    cbn [fst snd].
  - split; [exact (DateFacts.take_drop _ p)|]. right.
    apply andb_true_iff in E. destruct E as [E _]. apply Z.gtb_lt in E.
    destruct (PathFacts.rfind_spec "." p) as [[Hk _]|(Hk & e & He & Hno)].
    + exfalso. destruct (PathFacts.rfind_spec "/" p) as [[Hs _]|(Hs & _)]; lia.
    + exists e. split; [exact He|]. split; [exact Hno|].
      assert (Hsep : PyStr.contains "/" (PyStr.drop (Z.to_nat (os_path.rfind "." p)) p)
                     = false) by (apply PathFacts.no_sep_after; lia).
      rewrite He, PathFacts.has_char_cons in Hsep.
      apply orb_false_iff in Hsep. tauto.
  - split; [apply PathFacts.append_empty_r | left; reflexivity].
Qed.

(** X14. An output name made from an input holds no directory separator
    and ends in [.nc]: with more than one input, or without an output
    name, every output is written into the current directory, whatever
    the directory of its input. *)
Theorem output_name_has_no_directory (args : Args) (file_ : string) :
  outname args = None \/ (1 < List.length (filename args))%nat ->
  PyStr.contains "/" (outname_of args file_) = false
  /\ exists s, outname_of args file_ = (s ++ ".nc")%string
               /\ (s ++ snd (os_path.splitext (os_path.basename file_)))%string
                  = os_path.basename file_.
Proof.
  intros H.
  assert (E : outname_of args file_ = (stem file_ ++ ".nc")%string).
  { unfold outname_of, stem. destruct (outname args) as [o|]; [|reflexivity].
    destruct H as [H|H]; [discriminate|]. apply Nat.ltb_lt in H. rewrite H.
    reflexivity. }
  rewrite E. split.
  - rewrite PathFacts.has_char_app, orb_false_iff. split; [|reflexivity].
    unfold stem, os_path.splitext.
    destruct (_ && _); cbn [fst].
    + apply PathFacts.has_char_take, PathFacts.basename_no_sep.
    + apply PathFacts.basename_no_sep.
  - exists (stem file_). split; [reflexivity|]. unfold stem.
    apply PathFacts.splitext_join.
Qed.

Lemma output_name_has_no_directory_witness :
  PyStr.contains "/"
    (outname_of {| filename := ["a/x_20190101.dex"; "b/y_20190102.dex"]%string;
                   outname := Some "out/all.nc"%string |} "a/x_20190101.dex")
  = false
  /\ exists s,
       outname_of {| filename := ["a/x_20190101.dex"; "b/y_20190102.dex"]%string;
                     outname := Some "out/all.nc"%string |} "a/x_20190101.dex"
       = (s ++ ".nc")%string
       /\ (s ++ snd (os_path.splitext (os_path.basename "a/x_20190101.dex")))%string
          = os_path.basename "a/x_20190101.dex".
Proof.
  apply output_name_has_no_directory. right. simpl. lia.
Defined.

(** ** The driver on a file that does not convert *)

Lemma main_loop_app (args : Args) (fs : string -> option (list dex_row))
      (pre rest : list string) :
  (forall f, In f pre ->
             exists rows ds, fs f = Some rows /\ dex2ds f rows = OK ds) ->
  forall done,
  exists outs,
    main_loop args fs (pre ++ rest) done = main_loop args fs rest (done ++ outs)
    /\ Forall2 (written_for args fs) pre outs.
Proof.
  induction pre as [|f pre IH]; intros Hall done.
  - exists []. rewrite app_nil_r. split; [reflexivity | constructor].
  - destruct (Hall f (or_introl eq_refl)) as (rows & ds & Hfs & Hds).
    cbn [app main_loop]. unfold open_dex. rewrite Hfs. cbn [bind]. rewrite Hds.
    destruct (IH (fun g Hg => Hall g (or_intror Hg))
                 (done ++ [{| nc_path := outname_of args f; nc_data := ds;
                              nc_encoding :=
                                map (fun v => (fst v, {| zlib := true; complevel := 5 |}))
                                    (data_vars ds) |}]))
      as (outs & Hrun & Houts).
    eexists (_ :: outs). split.
    + rewrite Hrun, <- app_assoc. reflexivity.
    + constructor; [|exact Houts]. repeat split. exists rows. auto.
Qed.

(** X15. The driver stops at the first input that does not convert: the
    inputs before it are written, one file each, the error ends the run,
    and nothing is written for that input nor for the inputs after it. *)
Theorem main_stops_at_first_failure (args : Args)
        (fs : string -> option (list dex_row))
        (pre post : list string) (f : string) (e : exn) :
  filename args = pre ++ f :: post ->
  (forall g, In g pre ->
             exists rows ds, fs g = Some rows /\ dex2ds g rows = OK ds) ->
  (fs f = None /\ e = FileNotFoundError)
  \/ (exists rows, fs f = Some rows /\ dex2ds f rows = Err e) ->
  exists outs,
    main args fs = (outs, Some e)
    /\ Forall2 (written_for args fs) pre outs
    /\ List.length outs = List.length pre.
Proof.
  intros Hfiles Hpre Hfail. unfold main. rewrite Hfiles.
  destruct (main_loop_app args fs pre (f :: post) Hpre []) as (outs & Hrun & Houts).
  exists outs. split; [|split; [exact Houts|]].
  - rewrite Hrun. cbn [app main_loop]. unfold open_dex.
    destruct Hfail as [[Hnone ->]|(rows & Hsome & Herr)].
    + rewrite Hnone. reflexivity.
    + rewrite Hsome. cbn [bind]. rewrite Herr. reflexivity.
  - symmetry. eapply Forall2_length, Houts.
Qed.

Lemma main_stops_at_first_failure_witness :
  exists outs,
    main {| filename := [sample_file; "missing_20190101.dex"; "ice/GEC_H_20190401.dex"]%string;
            outname := None |} sample_fs
    = (outs, Some FileNotFoundError)
    /\ Forall2 (written_for
                  {| filename := [sample_file; "missing_20190101.dex";
                                  "ice/GEC_H_20190401.dex"]%string;
                     outname := None |} sample_fs)
               [sample_file] outs
    /\ List.length outs = List.length [sample_file].
Proof.
  apply (main_stops_at_first_failure _ sample_fs [sample_file]
           ["ice/GEC_H_20190401.dex"%string] "missing_20190101.dex").
  - reflexivity.
  - intros g [<-|[]]. exists three_rows, three_ds. split; vm_compute; reflexivity.
  - left. split; reflexivity.
Defined.

(** ** Metadata *)

Lemma In_keys_dict_get {V : Type} (d : list (string * V)) (k : string) :
  In k (map fst d) -> exists v, dict_get d k = Some v.
Proof.
  intros H. apply in_map_iff in H. destruct H as ([k' v] & Hk & Hin).
  simpl in Hk. subst k'. eapply In_dict_get, Hin.
Qed.

Lemma for_each_app {A S : Type} (body : S -> A -> result S) (l1 l2 : list A) (s : S) :
  for_each body (l1 ++ l2) s = (s1 <- for_each body l1 s ;; for_each body l2 s1).
Proof.
  revert s. induction l1 as [|a l1 IH]; intros s; [reflexivity|].
  cbn [app for_each]. destruct (body s a) as [s'|e]; cbn [bind]; [apply IH | reflexivity].
Qed.

Lemma get_attr_set (st : list (string * attrs)) (v' k' : string) (a : attr)
      (at_ : attrs) (v k : string) :
  dict_get st v' = Some at_ ->
  get_attr (dict_set st v' (dict_set at_ k' a)) v k
  = if String.eqb v' v && String.eqb k' k then Some a else get_attr st v k.
Proof.
  intros Hat. unfold get_attr. destruct (String.eqb v' v) eqn:Ev.
  - apply String.eqb_eq in Ev. subst v'. rewrite dict_get_set_same, Hat.
    destruct (String.eqb k' k) eqn:Ek; cbn [andb].
    + apply String.eqb_eq in Ek. subst k'. apply dict_get_set_same.
    + apply dict_get_set_other. intros ->. rewrite String.eqb_refl in Ek. discriminate.
  - cbn [andb]. rewrite dict_get_set_other; [reflexivity|].
    intros ->. rewrite String.eqb_refl in Ev. discriminate.
Qed.

(** A run of assignments on names of the dataset does not fail, keeps
    the names, and leaves for each attribute what was written last. *)
Lemma for_each_set_attr (l : list (string * string * attr)) :
  forall st,
    (forall v k a, In (v, k, a) l -> In v (map fst st)) ->
    exists st',
      for_each set_attr l st = OK st'
      /\ map fst st' = map fst st
      /\ (forall v k,
            get_attr st' v k
            = match last_assigned v k l with
              | Some a => Some a
              | None => get_attr st v k
              end).
Proof.
  induction l as [|[[v' k'] a] l IH]; intros st Hall.
  - exists st. repeat split; reflexivity.
  - destruct (In_keys_dict_get st v' (Hall v' k' a (or_introl eq_refl))) as [at_ Hat].
    cbn [for_each]. unfold set_attr at 1. rewrite Hat. cbn [bind].
    assert (Hkeys : map fst (dict_set st v' (dict_set at_ k' a)) = map fst st)
      by (eapply dict_set_keys_present, Hat).
    destruct (IH (dict_set st v' (dict_set at_ k' a))) as (st' & Hrun & Hk & Hget).
    { intros v k b Hin. rewrite Hkeys. eapply Hall. right. exact Hin. }
    exists st'. split; [exact Hrun|]. split; [congruence|].
    intros v k. rewrite Hget. cbn [last_assigned].
    destruct (last_assigned v k l); [reflexivity|].
    rewrite (get_attr_set _ _ _ _ _ v k Hat).
    destruct (String.eqb v' v && String.eqb k' k); reflexivity.
Qed.

Lemma range_as_assignments (ds : Dataset) (names : list string) :
  (forall v, In v names -> exists vals, values_of ds v = OK vals) ->
  forall st,
    for_each (range_attrs ds) names st
    = for_each set_attr (flat_map (range_pairs ds) names) st.
Proof.
  induction names as [|v names IH]; intros Hall st; [reflexivity|].
  destruct (Hall v (or_introl eq_refl)) as [vals Hv].
  cbn [for_each flat_map]. unfold range_attrs at 1, range_pairs at 1.
  rewrite Hv. cbn [bind app for_each].
  destruct (set_attr st (v, "data_min"%string, AVal (nanmin vals))) as [st1|e];
    cbn [bind]; [|reflexivity].
  destruct (set_attr st1 (v, "data_max"%string, AVal (nanmax vals))) as [st2|e];
    cbn [bind]; [|reflexivity].
  apply IH. intros w Hw. apply Hall. right. exact Hw.
Qed.

Lemma last_assigned_In (v k : string) (a : attr) (l : list (string * string * attr)) :
  last_assigned v k l = Some a -> In (v, k, a) l.
Proof.
  induction l as [|[[v' k'] b] l IH]; [discriminate|]. cbn [last_assigned].
  destruct (last_assigned v k l) as [c|].
  - intros [= ->]. right. apply IH. reflexivity.
  - destruct (String.eqb v' v) eqn:Ev; [|discriminate].
    destruct (String.eqb k' k) eqn:Ek; [|discriminate].
    apply String.eqb_eq in Ev, Ek. intros [= ->]. left. congruence.
Qed.

Lemma get_attr_init (ds : Dataset) (v k : string) :
  get_attr (init_attrs ds) v k = None.
Proof.
  unfold get_attr, init_attrs.
  generalize (["time"; "lon"; "lat"]%string ++ map fst (data_vars ds)).
  intros l. induction l as [|n l IH]; [reflexivity|].
  cbn [map dict_get]. destruct (String.eqb n v); [reflexivity | exact IH].
Qed.

Lemma values_of_ranged (file_ : string) (rows : list dex_row) (ds : Dataset)
      (v : string) :
  dex2ds file_ rows = OK ds -> In v ranged_names ->
  exists vals, values_of ds v = OK vals.
Proof.
  intros H Hv. pose proof (dex2ds_names _ _ _ H) as Hnames.
  unfold values_of. destruct (dict_get (data_vars ds) v) as [a|] eqn:E; [eauto|].
  unfold ranged_names in Hv. rewrite app_assoc in Hv.
  apply in_app_or in Hv.
  destruct Hv as [Hv|[<-|[<-|[]]]];
    [|eexists; reflexivity|eexists; reflexivity].
  rewrite <- Hnames in Hv. apply In_keys_dict_get in Hv.
  destruct Hv as [a Ha]. congruence.
Qed.

(** The metadata of a dataset of the conversion: the step goes through,
    and every attribute is the one written last by the assignments of
    the source and of the range loop. *)
Lemma annotate_inv (now file_ : string) (rows : list dex_row) (ds : Dataset) :
  dex2ds file_ rows = OK ds ->
  exists an,
    annotate now ds = OK an
    /\ an_data an = ds
    /\ an_global an = dict_set global_meta "history" (AStr ("Created: " ++ now))
    /\ map fst (an_vars an) = ["time"; "lon"; "lat"] ++ egg_columns ++ ["flag"]
    /\ (forall v k,
          get_attr (an_vars an) v k
          = last_assigned v k (static_meta ++ flat_map (range_pairs ds) ranged_names)).
Proof.
  intros H. pose proof (dex2ds_names _ _ _ H) as Hnames.
  unfold annotate. rewrite Hnames.
  replace ((egg_columns ++ ["flag"%string]) ++ ["lon"%string; "lat"%string])
    with ranged_names by (unfold ranged_names; rewrite app_assoc; reflexivity).
  destruct (for_each_set_attr
              (static_meta ++ flat_map (range_pairs ds) ranged_names)
              (init_attrs ds)) as (st & Hrun & Hkeys & Hget).
  { intros v k a Hin. unfold init_attrs. rewrite map_map. cbn [fst]. rewrite map_id.
    rewrite Hnames. apply in_app_or in Hin. destruct Hin as [Hin|Hin].
    - unfold static_meta in Hin. cbn in Hin.
      repeat (destruct Hin as [Hin|Hin]; [injection Hin as <- _ _; cbn; tauto|]).
      destruct Hin.
    - apply in_flat_map in Hin. destruct Hin as (w & Hw & Hin).
      unfold range_pairs in Hin. destruct (values_of ds w); [|destruct Hin].
      assert (v = w) by (destruct Hin as [E|[E|[]]]; congruence). subst w.
      revert Hw. unfold ranged_names. cbn. tauto. }
  rewrite for_each_app in Hrun.
  destruct (for_each set_attr static_meta (init_attrs ds)) as [st1|e];
    [|discriminate Hrun].
  cbn [bind] in Hrun |- *.
  rewrite range_as_assignments by (intros v Hv; eapply values_of_ranged; eassumption).
  rewrite Hrun. cbn [bind]. eexists. split; [reflexivity|].
  cbn [an_data an_global an_vars].
  split; [reflexivity|]. split; [reflexivity|]. split.
  - rewrite Hkeys. unfold init_attrs. rewrite map_map. cbn [fst]. rewrite map_id, Hnames.
    reflexivity.
  - intros v k. rewrite Hget, get_attr_init.
    destruct (last_assigned v k _); reflexivity.
Qed.

Lemma last_assigned_app (v k : string) (l1 l2 : list (string * string * attr)) :
  last_assigned v k (l1 ++ l2)
  = match last_assigned v k l2 with
    | Some a => Some a
    | None => last_assigned v k l1
    end.
Proof.
  induction l1 as [|[[v' k'] a] l1 IH]; cbn [app last_assigned].
  - destruct (last_assigned v k l2); reflexivity.
  - rewrite IH. destruct (last_assigned v k l2); reflexivity.
Qed.

Lemma last_assigned_none (v k : string) (l : list (string * string * attr)) :
  (forall a, ~ In (v, k, a) l) -> last_assigned v k l = None.
Proof.
  intros H. destruct (last_assigned v k l) as [a|] eqn:E; [|reflexivity].
  exfalso. eapply H, last_assigned_In, E.
Qed.

Lemma range_pairs_In (ds : Dataset) (names : list string) (v k : string) (a : attr) :
  In (v, k, a) (flat_map (range_pairs ds) names) ->
  In v names /\ (k = "data_min" \/ k = "data_max")%string /\ attr_is _ice_width a = false.
Proof.
  intros H. apply in_flat_map in H. destruct H as (w & Hw & H).
  unfold range_pairs in H. destruct (values_of ds w); [|destruct H].
  destruct H as [E|[E|[]]]; injection E as <- <- <-; auto.
Qed.

(** What the range loop leaves on a variable it visits. *)
Lemma last_assigned_range (ds : Dataset) (names : list string) (v : string)
      (vals : list value) :
  In v names -> values_of ds v = OK vals ->
  last_assigned v "data_min" (flat_map (range_pairs ds) names)
  = Some (AVal (nanmin vals))
  /\ last_assigned v "data_max" (flat_map (range_pairs ds) names)
     = Some (AVal (nanmax vals)).
Proof.
  intros Hin Hv. induction names as [|w names IH]; [destruct Hin|].
  cbn [flat_map]. rewrite !last_assigned_app.
  destruct (in_dec string_dec v names) as [Hin'|Hout].
  - destruct (IH Hin') as [-> ->]. split; reflexivity.
  - destruct Hin as [->|Hin]; [|contradiction].
    rewrite (last_assigned_none v "data_min" (flat_map (range_pairs ds) names))
      by (intros a Ha; apply range_pairs_In in Ha; tauto).
    rewrite (last_assigned_none v "data_max" (flat_map (range_pairs ds) names))
      by (intros a Ha; apply range_pairs_In in Ha; tauto).
    unfold range_pairs. rewrite Hv. cbn [last_assigned].
    rewrite !String.eqb_refl. split; reflexivity.
Qed.

(** The range attributes of a dataset of the conversion. *)
Lemma annotated_range (now file_ : string) (rows : list dex_row) (ds : Dataset)
      (an : Annotated) (v : string) :
  dex2ds file_ rows = OK ds -> annotate now ds = OK an -> In v ranged_names ->
  exists vals,
    values_of ds v = OK vals
    /\ get_attr (an_vars an) v "data_min" = Some (AVal (nanmin vals))
    /\ get_attr (an_vars an) v "data_max" = Some (AVal (nanmax vals)).
Proof.
  intros H Han Hv.
  destruct (annotate_inv now _ _ _ H) as (an' & Han' & _ & _ & _ & Hget).
  rewrite Han in Han'. injection Han' as <-.
  destruct (values_of_ranged _ _ _ v H Hv) as [vals Hvals].
  exists vals. split; [exact Hvals|].
  rewrite !Hget, !last_assigned_app.
  destruct (last_assigned_range ds ranged_names v vals Hv Hvals) as [-> ->].
  split; reflexivity.
Qed.



Lemma dex2ds_annotated_inv (now file_ : string) (rows : list dex_row)
      (an : Annotated) :
  dex2ds_annotated now file_ rows = OK an ->
  dex2ds file_ rows = OK (an_data an) /\ annotate now (an_data an) = OK an.
Proof.
  unfold dex2ds_annotated. intros H.
  destruct (dex2ds file_ rows) as [ds|e] eqn:Hds; [|discriminate H].
  cbn [bind] in H.
  destruct (annotate_inv now _ _ _ Hds) as (an' & Han & Hdata & _).
  rewrite H in Han. injection Han as <-. rewrite Hdata. split; [reflexivity|exact H].
Qed.

Lemma nanmin_spec (vs : list value) :
  (nanmin vs = NaN /\ forall q, ~ In (Num q) vs)
  \/ (exists m, nanmin vs = Num m /\ In (Num m) vs
                /\ forall q, In (Num q) vs -> m <= q).
Proof.
  induction vs as [|v vs IH]; [left; split; [reflexivity|intros q []]|].
  cbn [nanmin]. destruct v as [s|a|].
  - destruct IH as [[-> Hno]|(m & -> & Hin & Hle)].
    + left. split; [reflexivity|]. intros q [E|Hq]; [discriminate E|exact (Hno q Hq)].
    + right. exists m. split; [reflexivity|]. split; [right; exact Hin|].
      intros q [E|Hq]; [discriminate E|exact (Hle q Hq)].
  - right. destruct IH as [[-> Hno]|(m & -> & Hin & Hle)].
    + exists a. split; [reflexivity|]. split; [left; reflexivity|].
      intros q [E|Hq]; [injection E as <-; apply Qle_refl|destruct (Hno q Hq)].
    + exists (qmin a m). split; [reflexivity|]. unfold qmin.
      destruct (Qle_bool a m) eqn:E.
      * apply Qle_bool_iff in E. split; [left; reflexivity|].
        intros q [E'|Hq]; [injection E' as <-; apply Qle_refl|].
        eapply Qle_trans; [exact E|exact (Hle q Hq)].
      * assert (Hlt : m < a).
        { apply Qnot_le_lt. intros Hc. apply Qle_bool_iff in Hc. congruence. }
        split; [right; exact Hin|].
        intros q [E'|Hq]; [injection E' as <-; apply Qlt_le_weak, Hlt|exact (Hle q Hq)].
  - destruct IH as [[-> Hno]|(m & -> & Hin & Hle)].
    + left. split; [reflexivity|]. intros q [E|Hq]; [discriminate E|exact (Hno q Hq)].
    + right. exists m. split; [reflexivity|]. split; [right; exact Hin|].
      intros q [E|Hq]; [discriminate E|exact (Hle q Hq)].
Qed.

Lemma nanmax_spec (vs : list value) :
  (nanmax vs = NaN /\ forall q, ~ In (Num q) vs)
  \/ (exists m, nanmax vs = Num m /\ In (Num m) vs
                /\ forall q, In (Num q) vs -> q <= m).
Proof.
  induction vs as [|v vs IH]; [left; split; [reflexivity|intros q []]|].
  cbn [nanmax]. destruct v as [s|a|].
  - destruct IH as [[-> Hno]|(m & -> & Hin & Hle)].
    + left. split; [reflexivity|]. intros q [E|Hq]; [discriminate E|exact (Hno q Hq)].
    + right. exists m. split; [reflexivity|]. split; [right; exact Hin|].
      intros q [E|Hq]; [discriminate E|exact (Hle q Hq)].
  - right. destruct IH as [[-> Hno]|(m & -> & Hin & Hle)].
    + exists a. split; [reflexivity|]. split; [left; reflexivity|].
      intros q [E|Hq]; [injection E as <-; apply Qle_refl|destruct (Hno q Hq)].
    + exists (qmax a m). split; [reflexivity|]. unfold qmax.
      destruct (Qle_bool a m) eqn:E.
      * apply Qle_bool_iff in E. split; [right; exact Hin|].
        intros q [E'|Hq]; [injection E' as <-; exact E|exact (Hle q Hq)].
      * assert (Hlt : m < a).
        { apply Qnot_le_lt. intros Hc. apply Qle_bool_iff in Hc. congruence. }
        split; [left; reflexivity|].
        intros q [E'|Hq]; [injection E' as <-; apply Qle_refl|].
        eapply Qle_trans; [exact (Hle q Hq)|apply Qlt_le_weak, Hlt].
  - destruct IH as [[-> Hno]|(m & -> & Hin & Hle)].
    + left. split; [reflexivity|]. intros q [E|Hq]; [discriminate E|exact (Hno q Hq)].
    + right. exists m. split; [reflexivity|]. split; [right; exact Hin|].
      intros q [E|Hq]; [discriminate E|exact (Hle q Hq)].
Qed.

(** X17. The range attributes bound the data: for each of the ten egg
    code variables, the flag, the longitude and the latitude, if the
    variable has a number, [data_min] and [data_max] are numbers of
    the variable and every number of the variable lies between them;
    if it has none (every cell is [nan]), both are [nan]. *)
Theorem range_attributes_bound_the_data (now file_ : string)
        (rows : list dex_row) (an : Annotated) (v : string) :
  dex2ds_annotated now file_ rows = OK an ->
  In v ranged_names ->
  exists vals,
    values_of (an_data an) v = OK vals
    /\ (forall q, In (Num q) vals ->
          exists lo hi,
            get_attr (an_vars an) v "data_min" = Some (AVal (Num lo))
            /\ get_attr (an_vars an) v "data_max" = Some (AVal (Num hi))
            /\ In (Num lo) vals /\ In (Num hi) vals
            /\ lo <= q /\ q <= hi)
    /\ ((forall q, ~ In (Num q) vals) ->
          get_attr (an_vars an) v "data_min" = Some (AVal NaN)
          /\ get_attr (an_vars an) v "data_max" = Some (AVal NaN)).
Proof.
  intros H Hv. apply dex2ds_annotated_inv in H. destruct H as [Hds Han].
  destruct (annotated_range now _ _ _ an v Hds Han Hv) as (vals & Hvals & Hmin & Hmax).
  exists vals. split; [exact Hvals|]. rewrite Hmin, Hmax. split.
  - intros q Hq.
    destruct (nanmin_spec vals) as [[_ Hno]|(lo & -> & Hlo & Hle)];
      [destruct (Hno q Hq)|].
    destruct (nanmax_spec vals) as [[_ Hno]|(hi & -> & Hhi & Hge)];
      [destruct (Hno q Hq)|].
    exists lo, hi. repeat split; auto.
  - intros Hno.
    destruct (nanmin_spec vals) as [[-> _]|(lo & _ & Hlo & _)];
      [|destruct (Hno lo Hlo)].
    destruct (nanmax_spec vals) as [[-> _]|(hi & _ & Hhi & _)];
      [|destruct (Hno hi Hhi)].
    split; reflexivity.
Qed.

Lemma range_attributes_bound_the_data_witness :
  exists vals,
    values_of (an_data three_annotated) "CT" = OK vals
    /\ (forall q, In (Num q) vals ->
          exists lo hi,
            get_attr (an_vars three_annotated) "CT" "data_min" = Some (AVal (Num lo))
            /\ get_attr (an_vars three_annotated) "CT" "data_max" = Some (AVal (Num hi))
            /\ In (Num lo) vals /\ In (Num hi) vals
            /\ lo <= q /\ q <= hi)
    /\ ((forall q, ~ In (Num q) vals) ->
          get_attr (an_vars three_annotated) "CT" "data_min" = Some (AVal NaN)
          /\ get_attr (an_vars three_annotated) "CT" "data_max" = Some (AVal NaN)).
Proof.
  apply (range_attributes_bound_the_data sample_now sample_file three_rows
           three_annotated "CT").
  - vm_compute. reflexivity.
  - unfold ranged_names, egg_columns. cbn. tauto.
Defined.

(** X18. In the metadata of a converted dataset the attribute
    [ice_width_m] of the form variables FA, FB and FC holds the
    thickness classes, the text of [ice_thick_cm] of the stage
    variables, and no attribute of any variable holds the width classes
    [_ice_width], which differ from it. *)
Theorem form_width_holds_thickness_classes (now file_ : string)
        (rows : list dex_row) (an : Annotated) :
  dex2ds_annotated now file_ rows = OK an ->
  (forall l, In l ["A"; "B"; "C"]%string ->
     get_attr (an_vars an) ("F" ++ l) "ice_width_m" = Some (AStr _ice_thick)
     /\ get_attr (an_vars an) ("S" ++ l) "ice_thick_cm" = Some (AStr _ice_thick))
  /\ (forall v k a, get_attr (an_vars an) v k = Some a -> attr_is _ice_width a = false)
  /\ _ice_width <> _ice_thick.
Proof.
  intros H. apply dex2ds_annotated_inv in H. destruct H as [Hds Han].
  destruct (annotate_inv now _ _ _ Hds) as (an' & Han' & _ & _ & _ & Hget).
  rewrite Han in Han'. injection Han' as <-.
  split; [|split].
  - intros l Hl. rewrite !Hget, !last_assigned_app.
    rewrite (last_assigned_none _ "ice_width_m" (flat_map _ _))
      by (intros a Ha; apply range_pairs_In in Ha;
          destruct Ha as (_ & [E|E] & _); discriminate E).
    rewrite (last_assigned_none _ "ice_thick_cm" (flat_map _ _))
      by (intros a Ha; apply range_pairs_In in Ha;
          destruct Ha as (_ & [E|E] & _); discriminate E).
    destruct Hl as [<-|[<-|[<-|[]]]]; split; reflexivity.
  - intros v k a Ha. rewrite Hget in Ha. apply last_assigned_In in Ha.
    apply in_app_or in Ha. destruct Ha as [Ha|Ha].
    + assert (Hall : forallb (fun x => negb (attr_is _ice_width (snd x)))
                             static_meta = true) by (vm_compute; reflexivity).
      rewrite forallb_forall in Hall. specialize (Hall _ Ha). cbn [snd] in Hall.
      destruct (attr_is _ice_width a); [discriminate Hall|reflexivity].
    + apply range_pairs_In in Ha. tauto.
  - intros E. apply String.eqb_eq in E. vm_compute in E. discriminate E.
Qed.

Lemma form_width_holds_thickness_classes_witness :
  (forall l, In l ["A"; "B"; "C"]%string ->
     get_attr (an_vars three_annotated) ("F" ++ l) "ice_width_m"
     = Some (AStr _ice_thick)
     /\ get_attr (an_vars three_annotated) ("S" ++ l) "ice_thick_cm"
        = Some (AStr _ice_thick))
  /\ (forall v k a, get_attr (an_vars three_annotated) v k = Some a ->
        attr_is _ice_width a = false)
  /\ _ice_width <> _ice_thick.
Proof.
  apply (form_width_holds_thickness_classes sample_now sample_file three_rows
           three_annotated).
  vm_compute. reflexivity.
Defined.
